(** * G-Schools Connect backend: sessions, command queues and roster scoping

    A shallow embedding of the session engine of [src/app.py]: the schedule
    matcher, the active-session reconciler, the bounded command queues, the
    effective-policy composer, the roster filter of the after-request hook
    and the guest gate of the heartbeat handler.  Around it, the handlers
    that drive the engine: the session, send, poll and heartbeat endpoints,
    the before-request hook, the scenes store and the policy endpoint, the
    presentation mailbox, the student registry, the repair of the document
    on load, and the decision of the classifier endpoint of
    [src/ai_routes.py].

    Conventions of the embedding.
    - The JSON document held in [data.json] is the record [Store]; every
      key that [ensure_keys] guarantees is a field, so [ensure_keys] and
      [_ensure_sessions_students] are the identity on it.  A handler takes
      the document returned by [load_data] and returns the document left on
      disk: the argument of its [save_data] call, or its input when it
      returns before saving.
    - Python mutates the store in place; a helper that mutates its argument
      returns the mutated store next to its result.
    - Python sets are [gset string], Python dicts used as maps are [gmap].
    - A text is the [string] of its UTF-8 bytes; [str.strip], [str.lower],
      [int] and slices work on its code points, with the character tables
      of Unicode 14.0.
    - The wall clock ([datetime.now()], [time.time()]) is the explicit
      argument [now : Instant]. *)

From stdpp Require Import base gmap sets list strings sorting.
From Stdlib Require Import ZArith Lia Ascii.
From Stdlib Require DecimalString.

Local Open Scope Z_scope.
#[local] Set Warnings "-clear-no-such-hyp".

(** * JSON values *)

Unset Elimination Schemes.
Inductive json : Type :=
  | JNull
  | JBool (b : bool)
  | JNum (n : Z)
  | JStr (s : string)
  | JList (l : list json)
  | JDict (kvs : list (string * json)).
Set Elimination Schemes.

Section json_induction.
Variable P : json → Prop.
Hypothesis Hnull : P JNull.
Hypothesis Hbool : ∀ b, P (JBool b).
Hypothesis Hnum : ∀ n, P (JNum n).
Hypothesis Hstr : ∀ s, P (JStr s).
Hypothesis Hlist : ∀ l, Forall P l → P (JList l).
Hypothesis Hdict : ∀ kvs, Forall (λ kv, P kv.2) kvs → P (JDict kvs).

Fixpoint json_ind (j : json) : P j :=
  match j with
  | JNull => Hnull
  | JBool b => Hbool b
  | JNum n => Hnum n
  | JStr s => Hstr s
  | JList l =>
      Hlist l ((fix go (l : list json) : Forall P l :=
                  match l with
                  | [] => Forall_nil_2 P
                  | x :: xs => Forall_cons_2 P x xs (json_ind x) (go xs)
                  end) l)
  | JDict kvs =>
      Hdict kvs ((fix go (kvs : list (string * json))
                    : Forall (λ kv, P kv.2) kvs :=
                    match kvs with
                    | [] => Forall_nil_2 _
                    | kv :: r => Forall_cons_2 _ kv r (json_ind kv.2) (go r)
                    end) kvs)
  end.
End json_induction.

(** Structural equality, the model of Python's [==] on decoded JSON with
    integer numbers. *)
Fixpoint json_eqb (a b : json) : bool :=
  match a, b with
  | JNull, JNull => true
  | JBool x, JBool y => bool_decide (x = y)
  | JNum x, JNum y => bool_decide (x = y)
  | JStr x, JStr y => bool_decide (x = y)
  | JList l1, JList l2 =>
      (fix go (l1 l2 : list json) : bool :=
         match l1, l2 with
         | [], [] => true
         | x :: xs, y :: ys => json_eqb x y && go xs ys
         | _, _ => false
         end) l1 l2
  | JDict k1, JDict k2 =>
      (fix go (k1 k2 : list (string * json)) : bool :=
         match k1, k2 with
         | [], [] => true
         | (s1, x) :: xs, (s2, y) :: ys =>
             bool_decide (s1 = s2) && json_eqb x y && go xs ys
         | _, _ => false
         end) k1 k2
  | _, _ => false
  end.

Lemma json_eqb_eq (a b : json) : json_eqb a b = true ↔ a = b.
Proof.
  revert b. induction a as [| x | x | x | l IH | kvs IH] using json_ind;
    intros [| y | y | y | l' | kvs']; simpl;
    try (split; [done | congruence]); try by rewrite bool_decide_eq_true; split; congruence.
  - revert l'. induction IH as [| x xs Hx _ IHxs]; intros [| y ys];
      try (split; [done | congruence]).
    rewrite andb_true_iff, Hx. specialize (IHxs ys). split.
    + intros [-> Hgo]. apply IHxs in Hgo. congruence.
    + intros [= -> ->]. split; [done |]. by apply IHxs.
  - revert kvs'. induction IH as [| [s1 x] xs Hx _ IHxs]; intros [| [s2 y] ys];
      try (split; [done | congruence]).
    rewrite !andb_true_iff, bool_decide_eq_true. simpl in Hx. rewrite Hx.
    specialize (IHxs ys). split.
    + intros [[-> ->] Hgo]. apply IHxs in Hgo. congruence.
    + intros [= -> -> ->]. split; [done |]. by apply IHxs.
Qed.

Global Instance json_eq_dec : EqDecision json.
Proof.
  intros a b. destruct (json_eqb a b) eqn:E.
  - left. by apply json_eqb_eq.
  - right. intros H. apply json_eqb_eq in H. congruence.
Defined.

(** [d.get(k)] on a decoded JSON object. *)
Fixpoint jget (k : string) (kvs : list (string * json)) : option json :=
  match kvs with
  | [] => None
  | (k', v) :: r => if decide (k = k') then Some v else jget k r
  end.

(** * Python list and string primitives *)

(** [l[-n:]] for a positive [n]: the last [n] items, or all of [l] when it
    is shorter.  [del l[:-n]] leaves the same list. *)
Definition py_last_n {A} (n : nat) (l : list A) : list A :=
  drop (length l - n) l.

(** [str(v)] for a value that is a string or [None]. *)
Definition py_str (v : option string) : string :=
  match v with Some s => s | None => "None" end.

(** ** Strings

    A Python [str] is a sequence of code points; a [string] holds its UTF-8
    encoding, a lone surrogate encoded like the other code points of its
    range.  The functions that depend on the characters of a text
    ([str.strip], [str.lower], [int], slicing) work on the code points that
    [utf8_decode] reads back.  A byte that starts no well-formed sequence is
    kept as a value past the last code point, so that [utf8_encode] restores
    every byte string.  The character tables are those of Unicode 14.0, the
    database of CPython 3.11. *)

(** The payload of a continuation byte. *)
Definition continuation (a : ascii) : option N :=
  let n := N_of_ascii a in
  if ((128 <=? n) && (n <=? 191))%N then Some (n - 128)%N else None.

Definition stray_byte (n : N) : N := (0x110000 + n)%N.

(** The code point that starts with the byte [a], followed by [r], and the
    number of bytes it takes. *)
Definition utf8_head (a : ascii) (r : string) : N * nat :=
  let n := N_of_ascii a in
  let c i := b ← String.get i r; continuation b in
  let stray := (stray_byte n, 1%nat) in
  (if n <? 128 then (n, 1%nat)
   else if (194 <=? n) && (n <=? 223) then
     match c 0%nat with
     | Some c1 => ((n - 192) * 64 + c1, 2%nat)
     | None => stray
     end
   else if (224 <=? n) && (n <=? 239) then
     match c 0%nat, c 1%nat with
     | Some c1, Some c2 =>
         let cp := (n - 224) * 4096 + c1 * 64 + c2 in
         if 0x800 <=? cp then (cp, 3%nat) else stray
     | _, _ => stray
     end
   else if (240 <=? n) && (n <=? 244) then
     match c 0%nat, c 1%nat, c 2%nat with
     | Some c1, Some c2, Some c3 =>
         let cp := (n - 240) * 262144 + c1 * 4096 + c2 * 64 + c3 in
         if (0x10000 <=? cp) && (cp <? 0x110000) then (cp, 4%nat) else stray
     | _, _, _ => stray
     end
   else stray)%N.

(** The code points of [s] after its first [skip] bytes. *)
Fixpoint utf8_decode_from (skip : nat) (s : string) : list N :=
  match s with
  | EmptyString => []
  | String a r =>
      match skip with
      | S k => utf8_decode_from k r
      | O =>
          let '(cp, len) := utf8_head a r in
          cp :: utf8_decode_from (len - 1) r
      end
  end.

Definition utf8_decode (s : string) : list N := utf8_decode_from 0 s.

Definition utf8_encode_cp (c : N) : string :=
  let byte n := String (ascii_of_N n) EmptyString in
  (if c <? 0x80 then byte c
   else if c <? 0x800 then byte (192 + c / 64) +:+ byte (128 + c mod 64)
   else if c <? 0x10000 then
     byte (224 + c / 4096) +:+ byte (128 + (c / 64) mod 64) +:+
     byte (128 + c mod 64)
   else if c <? 0x110000 then
     byte (240 + c / 262144) +:+ byte (128 + (c / 4096) mod 64) +:+
     byte (128 + (c / 64) mod 64) +:+ byte (128 + c mod 64)
   else byte (c - 0x110000))%N.

Definition utf8_encode (l : list N) : string :=
  foldr (λ c s, utf8_encode_cp c +:+ s) EmptyString l.

(** [c] lies in one of the ranges of [l], which are in ascending order. *)
Fixpoint in_ranges (c : N) (l : list (N * N)) : bool :=
  match l with
  | [] => false
  | (first, last) :: r =>
      if (c <? first)%N then false
      else if (c <=? last)%N then true
      else in_ranges c r
  end.

(** The characters [str.isspace] accepts; [str.strip()] removes them. *)
Definition py_isspace (c : N) : bool :=
  in_ranges c
    [(0x9, 0xD); (0x1C, 0x20); (0x85, 0x85); (0xA0, 0xA0); (0x1680, 0x1680);
     (0x2000, 0x200A); (0x2028, 0x2029); (0x202F, 0x202F); (0x205F, 0x205F);
     (0x3000, 0x3000)]%N.

Fixpoint drop_while (p : N → bool) (l : list N) : list N :=
  match l with
  | c :: r => if p c then drop_while p r else l
  | [] => []
  end.

(** Both ends of [l] without the characters [p] accepts. *)
Definition strip_with (p : N → bool) (l : list N) : list N :=
  rev (drop_while p (rev (drop_while p l))).

Definition py_strip (s : string) : string :=
  utf8_encode (strip_with py_isspace (utf8_decode s)).

(** The lower-case mappings to one character, as runs [(first, count, step,
    image)] in ascending order: the code point [first + i * step], for
    [i < count], maps to [image + i * step]. *)
Definition lower_runs : list (N * N * N * N) :=
  [(0x41, 26, 1, 0x61); (0xC0, 23, 1, 0xE0); (0xD8, 7, 1, 0xF8);
   (0x100, 24, 2, 0x101); (0x132, 3, 2, 0x133); (0x139, 8, 2, 0x13A);
   (0x14A, 23, 2, 0x14B); (0x178, 1, 1, 0xFF); (0x179, 3, 2, 0x17A);
   (0x181, 1, 1, 0x253); (0x182, 2, 2, 0x183); (0x186, 1, 1, 0x254);
   (0x187, 1, 1, 0x188); (0x189, 2, 1, 0x256); (0x18B, 1, 1, 0x18C);
   (0x18E, 1, 1, 0x1DD); (0x18F, 1, 1, 0x259); (0x190, 1, 1, 0x25B);
   (0x191, 1, 1, 0x192); (0x193, 1, 1, 0x260); (0x194, 1, 1, 0x263);
   (0x196, 1, 1, 0x269); (0x197, 1, 1, 0x268); (0x198, 1, 1, 0x199);
   (0x19C, 1, 1, 0x26F); (0x19D, 1, 1, 0x272); (0x19F, 1, 1, 0x275);
   (0x1A0, 3, 2, 0x1A1); (0x1A6, 1, 1, 0x280); (0x1A7, 1, 1, 0x1A8);
   (0x1A9, 1, 1, 0x283); (0x1AC, 1, 1, 0x1AD); (0x1AE, 1, 1, 0x288);
   (0x1AF, 1, 1, 0x1B0); (0x1B1, 2, 1, 0x28A); (0x1B3, 2, 2, 0x1B4);
   (0x1B7, 1, 1, 0x292); (0x1B8, 1, 1, 0x1B9); (0x1BC, 1, 1, 0x1BD);
   (0x1C4, 1, 1, 0x1C6); (0x1C5, 1, 1, 0x1C6); (0x1C7, 1, 1, 0x1C9);
   (0x1C8, 1, 1, 0x1C9); (0x1CA, 1, 1, 0x1CC); (0x1CB, 9, 2, 0x1CC);
   (0x1DE, 9, 2, 0x1DF); (0x1F1, 1, 1, 0x1F3); (0x1F2, 2, 2, 0x1F3);
   (0x1F6, 1, 1, 0x195); (0x1F7, 1, 1, 0x1BF); (0x1F8, 20, 2, 0x1F9);
   (0x220, 1, 1, 0x19E); (0x222, 9, 2, 0x223); (0x23A, 1, 1, 0x2C65);
   (0x23B, 1, 1, 0x23C); (0x23D, 1, 1, 0x19A); (0x23E, 1, 1, 0x2C66);
   (0x241, 1, 1, 0x242); (0x243, 1, 1, 0x180); (0x244, 1, 1, 0x289);
   (0x245, 1, 1, 0x28C); (0x246, 5, 2, 0x247); (0x370, 2, 2, 0x371);
   (0x376, 1, 1, 0x377); (0x37F, 1, 1, 0x3F3); (0x386, 1, 1, 0x3AC);
   (0x388, 3, 1, 0x3AD); (0x38C, 1, 1, 0x3CC); (0x38E, 2, 1, 0x3CD);
   (0x391, 17, 1, 0x3B1); (0x3A3, 9, 1, 0x3C3); (0x3CF, 1, 1, 0x3D7);
   (0x3D8, 12, 2, 0x3D9); (0x3F4, 1, 1, 0x3B8); (0x3F7, 1, 1, 0x3F8);
   (0x3F9, 1, 1, 0x3F2); (0x3FA, 1, 1, 0x3FB); (0x3FD, 3, 1, 0x37B);
   (0x400, 16, 1, 0x450); (0x410, 32, 1, 0x430); (0x460, 17, 2, 0x461);
   (0x48A, 27, 2, 0x48B); (0x4C0, 1, 1, 0x4CF); (0x4C1, 7, 2, 0x4C2);
   (0x4D0, 48, 2, 0x4D1); (0x531, 38, 1, 0x561); (0x10A0, 38, 1, 0x2D00);
   (0x10C7, 1, 1, 0x2D27); (0x10CD, 1, 1, 0x2D2D); (0x13A0, 80, 1, 0xAB70);
   (0x13F0, 6, 1, 0x13F8); (0x1C90, 43, 1, 0x10D0); (0x1CBD, 3, 1, 0x10FD);
   (0x1E00, 75, 2, 0x1E01); (0x1E9E, 1, 1, 0xDF); (0x1EA0, 48, 2, 0x1EA1);
   (0x1F08, 8, 1, 0x1F00); (0x1F18, 6, 1, 0x1F10); (0x1F28, 8, 1, 0x1F20);
   (0x1F38, 8, 1, 0x1F30); (0x1F48, 6, 1, 0x1F40); (0x1F59, 4, 2, 0x1F51);
   (0x1F68, 8, 1, 0x1F60); (0x1F88, 8, 1, 0x1F80); (0x1F98, 8, 1, 0x1F90);
   (0x1FA8, 8, 1, 0x1FA0); (0x1FB8, 2, 1, 0x1FB0); (0x1FBA, 2, 1, 0x1F70);
   (0x1FBC, 1, 1, 0x1FB3); (0x1FC8, 4, 1, 0x1F72); (0x1FCC, 1, 1, 0x1FC3);
   (0x1FD8, 2, 1, 0x1FD0); (0x1FDA, 2, 1, 0x1F76); (0x1FE8, 2, 1, 0x1FE0);
   (0x1FEA, 2, 1, 0x1F7A); (0x1FEC, 1, 1, 0x1FE5); (0x1FF8, 2, 1, 0x1F78);
   (0x1FFA, 2, 1, 0x1F7C); (0x1FFC, 1, 1, 0x1FF3); (0x2126, 1, 1, 0x3C9);
   (0x212A, 1, 1, 0x6B); (0x212B, 1, 1, 0xE5); (0x2132, 1, 1, 0x214E);
   (0x2160, 16, 1, 0x2170); (0x2183, 1, 1, 0x2184); (0x24B6, 26, 1, 0x24D0);
   (0x2C00, 48, 1, 0x2C30); (0x2C60, 1, 1, 0x2C61); (0x2C62, 1, 1, 0x26B);
   (0x2C63, 1, 1, 0x1D7D); (0x2C64, 1, 1, 0x27D); (0x2C67, 3, 2, 0x2C68);
   (0x2C6D, 1, 1, 0x251); (0x2C6E, 1, 1, 0x271); (0x2C6F, 1, 1, 0x250);
   (0x2C70, 1, 1, 0x252); (0x2C72, 1, 1, 0x2C73); (0x2C75, 1, 1, 0x2C76);
   (0x2C7E, 2, 1, 0x23F); (0x2C80, 50, 2, 0x2C81); (0x2CEB, 2, 2, 0x2CEC);
   (0x2CF2, 1, 1, 0x2CF3); (0xA640, 23, 2, 0xA641); (0xA680, 14, 2, 0xA681);
   (0xA722, 7, 2, 0xA723); (0xA732, 31, 2, 0xA733); (0xA779, 2, 2, 0xA77A);
   (0xA77D, 1, 1, 0x1D79); (0xA77E, 5, 2, 0xA77F); (0xA78B, 1, 1, 0xA78C);
   (0xA78D, 1, 1, 0x265); (0xA790, 2, 2, 0xA791); (0xA796, 10, 2, 0xA797);
   (0xA7AA, 1, 1, 0x266); (0xA7AB, 1, 1, 0x25C); (0xA7AC, 1, 1, 0x261);
   (0xA7AD, 1, 1, 0x26C); (0xA7AE, 1, 1, 0x26A); (0xA7B0, 1, 1, 0x29E);
   (0xA7B1, 1, 1, 0x287); (0xA7B2, 1, 1, 0x29D); (0xA7B3, 1, 1, 0xAB53);
   (0xA7B4, 8, 2, 0xA7B5); (0xA7C4, 1, 1, 0xA794); (0xA7C5, 1, 1, 0x282);
   (0xA7C6, 1, 1, 0x1D8E); (0xA7C7, 2, 2, 0xA7C8); (0xA7D0, 1, 1, 0xA7D1);
   (0xA7D6, 2, 2, 0xA7D7); (0xA7F5, 1, 1, 0xA7F6); (0xFF21, 26, 1, 0xFF41);
   (0x10400, 40, 1, 0x10428); (0x104B0, 36, 1, 0x104D8); (0x10570, 11, 1, 0x10597);
   (0x1057C, 15, 1, 0x105A3); (0x1058C, 7, 1, 0x105B3); (0x10594, 2, 1, 0x105BB);
   (0x10C80, 51, 1, 0x10CC0); (0x118A0, 32, 1, 0x118C0); (0x16E40, 32, 1, 0x16E60);
   (0x1E900, 34, 1, 0x1E922)]%N.

(** The ranges [(first, last)] of the cased characters that are not
    case-ignorable. *)
Definition cased_ranges : list (N * N) :=
  [(0x41, 0x5A); (0x61, 0x7A); (0xAA, 0xAA); (0xB5, 0xB5);
   (0xBA, 0xBA); (0xC0, 0xD6); (0xD8, 0xF6); (0xF8, 0x1BA);
   (0x1BC, 0x1BF); (0x1C4, 0x293); (0x295, 0x2AF); (0x370, 0x373);
   (0x376, 0x377); (0x37B, 0x37D); (0x37F, 0x37F); (0x386, 0x386);
   (0x388, 0x38A); (0x38C, 0x38C); (0x38E, 0x3A1); (0x3A3, 0x3F5);
   (0x3F7, 0x481); (0x48A, 0x52F); (0x531, 0x556); (0x560, 0x588);
   (0x10A0, 0x10C5); (0x10C7, 0x10C7); (0x10CD, 0x10CD); (0x10D0, 0x10FA);
   (0x10FD, 0x10FF); (0x13A0, 0x13F5); (0x13F8, 0x13FD); (0x1C80, 0x1C88);
   (0x1C90, 0x1CBA); (0x1CBD, 0x1CBF); (0x1D00, 0x1D2B); (0x1D6B, 0x1D77);
   (0x1D79, 0x1D9A); (0x1E00, 0x1F15); (0x1F18, 0x1F1D); (0x1F20, 0x1F45);
   (0x1F48, 0x1F4D); (0x1F50, 0x1F57); (0x1F59, 0x1F59); (0x1F5B, 0x1F5B);
   (0x1F5D, 0x1F5D); (0x1F5F, 0x1F7D); (0x1F80, 0x1FB4); (0x1FB6, 0x1FBC);
   (0x1FBE, 0x1FBE); (0x1FC2, 0x1FC4); (0x1FC6, 0x1FCC); (0x1FD0, 0x1FD3);
   (0x1FD6, 0x1FDB); (0x1FE0, 0x1FEC); (0x1FF2, 0x1FF4); (0x1FF6, 0x1FFC);
   (0x2102, 0x2102); (0x2107, 0x2107); (0x210A, 0x2113); (0x2115, 0x2115);
   (0x2119, 0x211D); (0x2124, 0x2124); (0x2126, 0x2126); (0x2128, 0x2128);
   (0x212A, 0x212D); (0x212F, 0x2134); (0x2139, 0x2139); (0x213C, 0x213F);
   (0x2145, 0x2149); (0x214E, 0x214E); (0x2160, 0x217F); (0x2183, 0x2184);
   (0x24B6, 0x24E9); (0x2C00, 0x2C7B); (0x2C7E, 0x2CE4); (0x2CEB, 0x2CEE);
   (0x2CF2, 0x2CF3); (0x2D00, 0x2D25); (0x2D27, 0x2D27); (0x2D2D, 0x2D2D);
   (0xA640, 0xA66D); (0xA680, 0xA69B); (0xA722, 0xA76F); (0xA771, 0xA787);
   (0xA78B, 0xA78E); (0xA790, 0xA7CA); (0xA7D0, 0xA7D1); (0xA7D3, 0xA7D3);
   (0xA7D5, 0xA7D9); (0xA7F5, 0xA7F6); (0xA7FA, 0xA7FA); (0xAB30, 0xAB5A);
   (0xAB60, 0xAB68); (0xAB70, 0xABBF); (0xFB00, 0xFB06); (0xFB13, 0xFB17);
   (0xFF21, 0xFF3A); (0xFF41, 0xFF5A); (0x10400, 0x1044F); (0x104B0, 0x104D3);
   (0x104D8, 0x104FB); (0x10570, 0x1057A); (0x1057C, 0x1058A); (0x1058C, 0x10592);
   (0x10594, 0x10595); (0x10597, 0x105A1); (0x105A3, 0x105B1); (0x105B3, 0x105B9);
   (0x105BB, 0x105BC); (0x10C80, 0x10CB2); (0x10CC0, 0x10CF2); (0x118A0, 0x118DF);
   (0x16E40, 0x16E7F); (0x1D400, 0x1D454); (0x1D456, 0x1D49C); (0x1D49E, 0x1D49F);
   (0x1D4A2, 0x1D4A2); (0x1D4A5, 0x1D4A6); (0x1D4A9, 0x1D4AC); (0x1D4AE, 0x1D4B9);
   (0x1D4BB, 0x1D4BB); (0x1D4BD, 0x1D4C3); (0x1D4C5, 0x1D505); (0x1D507, 0x1D50A);
   (0x1D50D, 0x1D514); (0x1D516, 0x1D51C); (0x1D51E, 0x1D539); (0x1D53B, 0x1D53E);
   (0x1D540, 0x1D544); (0x1D546, 0x1D546); (0x1D54A, 0x1D550); (0x1D552, 0x1D6A5);
   (0x1D6A8, 0x1D6C0); (0x1D6C2, 0x1D6DA); (0x1D6DC, 0x1D6FA); (0x1D6FC, 0x1D714);
   (0x1D716, 0x1D734); (0x1D736, 0x1D74E); (0x1D750, 0x1D76E); (0x1D770, 0x1D788);
   (0x1D78A, 0x1D7A8); (0x1D7AA, 0x1D7C2); (0x1D7C4, 0x1D7CB); (0x1DF00, 0x1DF09);
   (0x1DF0B, 0x1DF1E); (0x1E900, 0x1E943); (0x1F130, 0x1F149); (0x1F150, 0x1F169);
   (0x1F170, 0x1F189)]%N.

(** The ranges of the case-ignorable characters. *)
Definition case_ignorable_ranges : list (N * N) :=
  [(0x27, 0x27); (0x2E, 0x2E); (0x3A, 0x3A); (0x5E, 0x5E);
   (0x60, 0x60); (0xA8, 0xA8); (0xAD, 0xAD); (0xAF, 0xAF);
   (0xB4, 0xB4); (0xB7, 0xB8); (0x2B0, 0x36F); (0x374, 0x375);
   (0x37A, 0x37A); (0x384, 0x385); (0x387, 0x387); (0x483, 0x489);
   (0x559, 0x559); (0x55F, 0x55F); (0x591, 0x5BD); (0x5BF, 0x5BF);
   (0x5C1, 0x5C2); (0x5C4, 0x5C5); (0x5C7, 0x5C7); (0x5F4, 0x5F4);
   (0x600, 0x605); (0x610, 0x61A); (0x61C, 0x61C); (0x640, 0x640);
   (0x64B, 0x65F); (0x670, 0x670); (0x6D6, 0x6DD); (0x6DF, 0x6E8);
   (0x6EA, 0x6ED); (0x70F, 0x70F); (0x711, 0x711); (0x730, 0x74A);
   (0x7A6, 0x7B0); (0x7EB, 0x7F5); (0x7FA, 0x7FA); (0x7FD, 0x7FD);
   (0x816, 0x82D); (0x859, 0x85B); (0x888, 0x888); (0x890, 0x891);
   (0x898, 0x89F); (0x8C9, 0x902); (0x93A, 0x93A); (0x93C, 0x93C);
   (0x941, 0x948); (0x94D, 0x94D); (0x951, 0x957); (0x962, 0x963);
   (0x971, 0x971); (0x981, 0x981); (0x9BC, 0x9BC); (0x9C1, 0x9C4);
   (0x9CD, 0x9CD); (0x9E2, 0x9E3); (0x9FE, 0x9FE); (0xA01, 0xA02);
   (0xA3C, 0xA3C); (0xA41, 0xA42); (0xA47, 0xA48); (0xA4B, 0xA4D);
   (0xA51, 0xA51); (0xA70, 0xA71); (0xA75, 0xA75); (0xA81, 0xA82);
   (0xABC, 0xABC); (0xAC1, 0xAC5); (0xAC7, 0xAC8); (0xACD, 0xACD);
   (0xAE2, 0xAE3); (0xAFA, 0xAFF); (0xB01, 0xB01); (0xB3C, 0xB3C);
   (0xB3F, 0xB3F); (0xB41, 0xB44); (0xB4D, 0xB4D); (0xB55, 0xB56);
   (0xB62, 0xB63); (0xB82, 0xB82); (0xBC0, 0xBC0); (0xBCD, 0xBCD);
   (0xC00, 0xC00); (0xC04, 0xC04); (0xC3C, 0xC3C); (0xC3E, 0xC40);
   (0xC46, 0xC48); (0xC4A, 0xC4D); (0xC55, 0xC56); (0xC62, 0xC63);
   (0xC81, 0xC81); (0xCBC, 0xCBC); (0xCBF, 0xCBF); (0xCC6, 0xCC6);
   (0xCCC, 0xCCD); (0xCE2, 0xCE3); (0xD00, 0xD01); (0xD3B, 0xD3C);
   (0xD41, 0xD44); (0xD4D, 0xD4D); (0xD62, 0xD63); (0xD81, 0xD81);
   (0xDCA, 0xDCA); (0xDD2, 0xDD4); (0xDD6, 0xDD6); (0xE31, 0xE31);
   (0xE34, 0xE3A); (0xE46, 0xE4E); (0xEB1, 0xEB1); (0xEB4, 0xEBC);
   (0xEC6, 0xEC6); (0xEC8, 0xECD); (0xF18, 0xF19); (0xF35, 0xF35);
   (0xF37, 0xF37); (0xF39, 0xF39); (0xF71, 0xF7E); (0xF80, 0xF84);
   (0xF86, 0xF87); (0xF8D, 0xF97); (0xF99, 0xFBC); (0xFC6, 0xFC6);
   (0x102D, 0x1030); (0x1032, 0x1037); (0x1039, 0x103A); (0x103D, 0x103E);
   (0x1058, 0x1059); (0x105E, 0x1060); (0x1071, 0x1074); (0x1082, 0x1082);
   (0x1085, 0x1086); (0x108D, 0x108D); (0x109D, 0x109D); (0x10FC, 0x10FC);
   (0x135D, 0x135F); (0x1712, 0x1714); (0x1732, 0x1733); (0x1752, 0x1753);
   (0x1772, 0x1773); (0x17B4, 0x17B5); (0x17B7, 0x17BD); (0x17C6, 0x17C6);
   (0x17C9, 0x17D3); (0x17D7, 0x17D7); (0x17DD, 0x17DD); (0x180B, 0x180F);
   (0x1843, 0x1843); (0x1885, 0x1886); (0x18A9, 0x18A9); (0x1920, 0x1922);
   (0x1927, 0x1928); (0x1932, 0x1932); (0x1939, 0x193B); (0x1A17, 0x1A18);
   (0x1A1B, 0x1A1B); (0x1A56, 0x1A56); (0x1A58, 0x1A5E); (0x1A60, 0x1A60);
   (0x1A62, 0x1A62); (0x1A65, 0x1A6C); (0x1A73, 0x1A7C); (0x1A7F, 0x1A7F);
   (0x1AA7, 0x1AA7); (0x1AB0, 0x1ACE); (0x1B00, 0x1B03); (0x1B34, 0x1B34);
   (0x1B36, 0x1B3A); (0x1B3C, 0x1B3C); (0x1B42, 0x1B42); (0x1B6B, 0x1B73);
   (0x1B80, 0x1B81); (0x1BA2, 0x1BA5); (0x1BA8, 0x1BA9); (0x1BAB, 0x1BAD);
   (0x1BE6, 0x1BE6); (0x1BE8, 0x1BE9); (0x1BED, 0x1BED); (0x1BEF, 0x1BF1);
   (0x1C2C, 0x1C33); (0x1C36, 0x1C37); (0x1C78, 0x1C7D); (0x1CD0, 0x1CD2);
   (0x1CD4, 0x1CE0); (0x1CE2, 0x1CE8); (0x1CED, 0x1CED); (0x1CF4, 0x1CF4);
   (0x1CF8, 0x1CF9); (0x1D2C, 0x1D6A); (0x1D78, 0x1D78); (0x1D9B, 0x1DFF);
   (0x1FBD, 0x1FBD); (0x1FBF, 0x1FC1); (0x1FCD, 0x1FCF); (0x1FDD, 0x1FDF);
   (0x1FED, 0x1FEF); (0x1FFD, 0x1FFE); (0x200B, 0x200F); (0x2018, 0x2019);
   (0x2024, 0x2024); (0x2027, 0x2027); (0x202A, 0x202E); (0x2060, 0x2064);
   (0x2066, 0x206F); (0x2071, 0x2071); (0x207F, 0x207F); (0x2090, 0x209C);
   (0x20D0, 0x20F0); (0x2C7C, 0x2C7D); (0x2CEF, 0x2CF1); (0x2D6F, 0x2D6F);
   (0x2D7F, 0x2D7F); (0x2DE0, 0x2DFF); (0x2E2F, 0x2E2F); (0x3005, 0x3005);
   (0x302A, 0x302D); (0x3031, 0x3035); (0x303B, 0x303B); (0x3099, 0x309E);
   (0x30FC, 0x30FE); (0xA015, 0xA015); (0xA4F8, 0xA4FD); (0xA60C, 0xA60C);
   (0xA66F, 0xA672); (0xA674, 0xA67D); (0xA67F, 0xA67F); (0xA69C, 0xA69F);
   (0xA6F0, 0xA6F1); (0xA700, 0xA721); (0xA770, 0xA770); (0xA788, 0xA78A);
   (0xA7F2, 0xA7F4); (0xA7F8, 0xA7F9); (0xA802, 0xA802); (0xA806, 0xA806);
   (0xA80B, 0xA80B); (0xA825, 0xA826); (0xA82C, 0xA82C); (0xA8C4, 0xA8C5);
   (0xA8E0, 0xA8F1); (0xA8FF, 0xA8FF); (0xA926, 0xA92D); (0xA947, 0xA951);
   (0xA980, 0xA982); (0xA9B3, 0xA9B3); (0xA9B6, 0xA9B9); (0xA9BC, 0xA9BD);
   (0xA9CF, 0xA9CF); (0xA9E5, 0xA9E6); (0xAA29, 0xAA2E); (0xAA31, 0xAA32);
   (0xAA35, 0xAA36); (0xAA43, 0xAA43); (0xAA4C, 0xAA4C); (0xAA70, 0xAA70);
   (0xAA7C, 0xAA7C); (0xAAB0, 0xAAB0); (0xAAB2, 0xAAB4); (0xAAB7, 0xAAB8);
   (0xAABE, 0xAABF); (0xAAC1, 0xAAC1); (0xAADD, 0xAADD); (0xAAEC, 0xAAED);
   (0xAAF3, 0xAAF4); (0xAAF6, 0xAAF6); (0xAB5B, 0xAB5F); (0xAB69, 0xAB6B);
   (0xABE5, 0xABE5); (0xABE8, 0xABE8); (0xABED, 0xABED); (0xFB1E, 0xFB1E);
   (0xFBB2, 0xFBC2); (0xFE00, 0xFE0F); (0xFE13, 0xFE13); (0xFE20, 0xFE2F);
   (0xFE52, 0xFE52); (0xFE55, 0xFE55); (0xFEFF, 0xFEFF); (0xFF07, 0xFF07);
   (0xFF0E, 0xFF0E); (0xFF1A, 0xFF1A); (0xFF3E, 0xFF3E); (0xFF40, 0xFF40);
   (0xFF70, 0xFF70); (0xFF9E, 0xFF9F); (0xFFE3, 0xFFE3); (0xFFF9, 0xFFFB);
   (0x101FD, 0x101FD); (0x102E0, 0x102E0); (0x10376, 0x1037A); (0x10780, 0x10785);
   (0x10787, 0x107B0); (0x107B2, 0x107BA); (0x10A01, 0x10A03); (0x10A05, 0x10A06);
   (0x10A0C, 0x10A0F); (0x10A38, 0x10A3A); (0x10A3F, 0x10A3F); (0x10AE5, 0x10AE6);
   (0x10D24, 0x10D27); (0x10EAB, 0x10EAC); (0x10F46, 0x10F50); (0x10F82, 0x10F85);
   (0x11001, 0x11001); (0x11038, 0x11046); (0x11070, 0x11070); (0x11073, 0x11074);
   (0x1107F, 0x11081); (0x110B3, 0x110B6); (0x110B9, 0x110BA); (0x110BD, 0x110BD);
   (0x110C2, 0x110C2); (0x110CD, 0x110CD); (0x11100, 0x11102); (0x11127, 0x1112B);
   (0x1112D, 0x11134); (0x11173, 0x11173); (0x11180, 0x11181); (0x111B6, 0x111BE);
   (0x111C9, 0x111CC); (0x111CF, 0x111CF); (0x1122F, 0x11231); (0x11234, 0x11234);
   (0x11236, 0x11237); (0x1123E, 0x1123E); (0x112DF, 0x112DF); (0x112E3, 0x112EA);
   (0x11300, 0x11301); (0x1133B, 0x1133C); (0x11340, 0x11340); (0x11366, 0x1136C);
   (0x11370, 0x11374); (0x11438, 0x1143F); (0x11442, 0x11444); (0x11446, 0x11446);
   (0x1145E, 0x1145E); (0x114B3, 0x114B8); (0x114BA, 0x114BA); (0x114BF, 0x114C0);
   (0x114C2, 0x114C3); (0x115B2, 0x115B5); (0x115BC, 0x115BD); (0x115BF, 0x115C0);
   (0x115DC, 0x115DD); (0x11633, 0x1163A); (0x1163D, 0x1163D); (0x1163F, 0x11640);
   (0x116AB, 0x116AB); (0x116AD, 0x116AD); (0x116B0, 0x116B5); (0x116B7, 0x116B7);
   (0x1171D, 0x1171F); (0x11722, 0x11725); (0x11727, 0x1172B); (0x1182F, 0x11837);
   (0x11839, 0x1183A); (0x1193B, 0x1193C); (0x1193E, 0x1193E); (0x11943, 0x11943);
   (0x119D4, 0x119D7); (0x119DA, 0x119DB); (0x119E0, 0x119E0); (0x11A01, 0x11A0A);
   (0x11A33, 0x11A38); (0x11A3B, 0x11A3E); (0x11A47, 0x11A47); (0x11A51, 0x11A56);
   (0x11A59, 0x11A5B); (0x11A8A, 0x11A96); (0x11A98, 0x11A99); (0x11C30, 0x11C36);
   (0x11C38, 0x11C3D); (0x11C3F, 0x11C3F); (0x11C92, 0x11CA7); (0x11CAA, 0x11CB0);
   (0x11CB2, 0x11CB3); (0x11CB5, 0x11CB6); (0x11D31, 0x11D36); (0x11D3A, 0x11D3A);
   (0x11D3C, 0x11D3D); (0x11D3F, 0x11D45); (0x11D47, 0x11D47); (0x11D90, 0x11D91);
   (0x11D95, 0x11D95); (0x11D97, 0x11D97); (0x11EF3, 0x11EF4); (0x13430, 0x13438);
   (0x16AF0, 0x16AF4); (0x16B30, 0x16B36); (0x16B40, 0x16B43); (0x16F4F, 0x16F4F);
   (0x16F8F, 0x16F9F); (0x16FE0, 0x16FE1); (0x16FE3, 0x16FE4); (0x1AFF0, 0x1AFF3);
   (0x1AFF5, 0x1AFFB); (0x1AFFD, 0x1AFFE); (0x1BC9D, 0x1BC9E); (0x1BCA0, 0x1BCA3);
   (0x1CF00, 0x1CF2D); (0x1CF30, 0x1CF46); (0x1D167, 0x1D169); (0x1D173, 0x1D182);
   (0x1D185, 0x1D18B); (0x1D1AA, 0x1D1AD); (0x1D242, 0x1D244); (0x1DA00, 0x1DA36);
   (0x1DA3B, 0x1DA6C); (0x1DA75, 0x1DA75); (0x1DA84, 0x1DA84); (0x1DA9B, 0x1DA9F);
   (0x1DAA1, 0x1DAAF); (0x1E000, 0x1E006); (0x1E008, 0x1E018); (0x1E01B, 0x1E021);
   (0x1E023, 0x1E024); (0x1E026, 0x1E02A); (0x1E130, 0x1E13D); (0x1E2AE, 0x1E2AE);
   (0x1E2EC, 0x1E2EF); (0x1E8D0, 0x1E8D6); (0x1E944, 0x1E94B); (0x1F3FB, 0x1F3FF);
   (0xE0001, 0xE0001); (0xE0020, 0xE007F); (0xE0100, 0xE01EF)]%N.

(** The lower-case mapping of one character; U+0130 is the one character
    with a mapping of two. *)
Fixpoint lower_in (c : N) (runs : list (N * N * N * N)) : N :=
  match runs with
  | [] => c
  | (first, count, step, image) :: r =>
      if (c <? first)%N then c
      else if ((c <? first + count * step) && ((c - first) mod step =? 0))%N
      then (image + (c - first))%N
      else lower_in c r
  end.

Definition py_lower_char (c : N) : list N :=
  if (c =? 0x130)%N then [0x69; 0x307]%N else [lower_in c lower_runs].

Definition case_ignorable (c : N) : bool := in_ranges c case_ignorable_ranges.

Definition cased (c : N) : bool := in_ranges c cased_ranges.

(** After the case-ignorable characters at the head of [l] comes a cased
    character. *)
Fixpoint cased_ahead (l : list N) : bool :=
  match l with
  | [] => false
  | c :: r => if case_ignorable c then cased_ahead r else cased c
  end.

(** [str.lower()] on code points.  [after_cased] tells whether the last
    character before [l] that is not case-ignorable is a cased one: a capital
    sigma (U+03A3) that follows one and is followed by none becomes the
    final sigma U+03C2. *)
Fixpoint lower_from (after_cased : bool) (l : list N) : list N :=
  match l with
  | [] => []
  | c :: r =>
      (if (c =? 0x3A3)%N
       then [if after_cased && negb (cased_ahead r) then 0x3C2 else 0x3C3]%N
       else py_lower_char c)
      ++ lower_from (if case_ignorable c then after_cased else cased c) r
  end.

Definition py_lower (s : string) : string :=
  utf8_encode (lower_from false (utf8_decode s)).

Fixpoint py_startswith (s t : string) : bool :=
  match t, s with
  | EmptyString, _ => true
  | String b t', String a s' => bool_decide (a = b) && py_startswith s' t'
  | String _ _, EmptyString => false
  end.

(** [t in s] for strings: [t] occurs in [s] as a substring. *)
Fixpoint py_in (t s : string) : bool :=
  py_startswith s t ||
  match s with
  | String _ r => py_in t r
  | EmptyString => false
  end.

(** [s.split(sep)] for a one-character separator. *)
Fixpoint py_split (sep : ascii) (s : string) : list string :=
  match s with
  | EmptyString => [EmptyString]
  | String a r =>
      if decide (a = sep) then EmptyString :: py_split sep r
      else match py_split sep r with
           | x :: xs => String a x :: xs
           | [] => [String a EmptyString]
           end
  end.

(** The ranges of the decimal digits (category Nd); a run of ten starts at
    the digit zero. *)
Definition decimal_ranges : list (N * N) :=
  [(0x30, 0x39); (0x660, 0x669); (0x6F0, 0x6F9); (0x7C0, 0x7C9);
   (0x966, 0x96F); (0x9E6, 0x9EF); (0xA66, 0xA6F); (0xAE6, 0xAEF);
   (0xB66, 0xB6F); (0xBE6, 0xBEF); (0xC66, 0xC6F); (0xCE6, 0xCEF);
   (0xD66, 0xD6F); (0xDE6, 0xDEF); (0xE50, 0xE59); (0xED0, 0xED9);
   (0xF20, 0xF29); (0x1040, 0x1049); (0x1090, 0x1099); (0x17E0, 0x17E9);
   (0x1810, 0x1819); (0x1946, 0x194F); (0x19D0, 0x19D9); (0x1A80, 0x1A89);
   (0x1A90, 0x1A99); (0x1B50, 0x1B59); (0x1BB0, 0x1BB9); (0x1C40, 0x1C49);
   (0x1C50, 0x1C59); (0xA620, 0xA629); (0xA8D0, 0xA8D9); (0xA900, 0xA909);
   (0xA9D0, 0xA9D9); (0xA9F0, 0xA9F9); (0xAA50, 0xAA59); (0xABF0, 0xABF9);
   (0xFF10, 0xFF19); (0x104A0, 0x104A9); (0x10D30, 0x10D39); (0x11066, 0x1106F);
   (0x110F0, 0x110F9); (0x11136, 0x1113F); (0x111D0, 0x111D9); (0x112F0, 0x112F9);
   (0x11450, 0x11459); (0x114D0, 0x114D9); (0x11650, 0x11659); (0x116C0, 0x116C9);
   (0x11730, 0x11739); (0x118E0, 0x118E9); (0x11950, 0x11959); (0x11C50, 0x11C59);
   (0x11D50, 0x11D59); (0x11DA0, 0x11DA9); (0x16A60, 0x16A69); (0x16AC0, 0x16AC9);
   (0x16B50, 0x16B59); (0x1D7CE, 0x1D7FF); (0x1E140, 0x1E149); (0x1E2F0, 0x1E2F9);
   (0x1E950, 0x1E959); (0x1FBF0, 0x1FBF9)]%N.

(** The decimal value of a character, when it is a decimal digit. *)
Fixpoint decimal_in (c : N) (l : list (N * N)) : option N :=
  match l with
  | [] => None
  | (first, last) :: r =>
      if (c <? first)%N then None
      else if (c <=? last)%N then Some ((c - first) mod 10)%N
      else decimal_in c r
  end.

(** What [int] makes of a character before it parses: an ASCII character is
    kept, another space becomes a blank, another decimal digit its ASCII
    digit; [None] for any other character, which [int] rejects. *)
Definition int_char (c : N) : option N :=
  if (c <? 127)%N then Some c
  else if py_isspace c then Some 32%N
  else (λ d, 48 + d)%N <$> decimal_in c decimal_ranges.

(** The blanks [int] skips around the number. *)
Definition c_isspace (c : N) : bool :=
  ((9 <=? c) && (c <=? 13) || (c =? 32))%N.

Definition digit_of (c : N) : option Z :=
  if ((48 <=? c) && (c <=? 57))%N then Some (Z.of_N (c - 48)) else None.

(** Decimal digits, a single underscore allowed between two digits. *)
Fixpoint py_int_digits (acc : Z) (after_digit : bool) (l : list N) : option Z :=
  match l with
  | [] => if after_digit then Some acc else None
  | c :: r =>
      match digit_of c with
      | Some d => py_int_digits (10 * acc + d) true r
      | None =>
          if (c =? 95)%N && after_digit
          then py_int_digits acc false r
          else None
      end
  end.

(** [sys.get_int_max_str_digits()], as CPython sets it since 3.11 (and in
    the security releases of the versions before). *)
Definition int_max_str_digits : nat := 4300.

(** [int(s)] for a string: blanks around an optional sign and decimal
    digits, of which there are 4300 at most.  [None] stands for
    [ValueError]. *)
Definition py_int (s : string) : option Z :=
  cs ← mapM int_char (utf8_decode s);
  let '(negative, digits) :=
    match strip_with c_isspace cs with
    | 43%N :: r => (false, r)
    | 45%N :: r => (true, r)
    | r => (false, r)
    end in
  if bool_decide
       (length (filter (λ c, is_Some (digit_of c)) digits)
        ≤ int_max_str_digits)%nat
  then v ← py_int_digits 0 false digits; Some (if negative then - v else v)
  else None.

(** * Schedule matcher *)

(** The instant a request is served at: [datetime.now()] through its
    weekday and clock fields, [time.time()] in microseconds. *)
Record Instant := {
  weekday : Z;
  hour : Z;
  minute : Z;
  second : Z;
  microsecond : Z;
  timestamp : Z;
}.

(** A schedule entry of type ["weekly"].  A field is [None] when the key
    is absent from the entry. *)
Record WeeklyEntry := {
  w_days : option (list Z);
  w_start : option string;
  w_end : option string;
}.

(** The text under [startISO] / [endISO], kept through what
    [datetime.fromisoformat(text).timestamp()] makes of it. *)
Inductive IsoField :=
  | IsoMissing            (* absent, null or empty *)
  | IsoInvalid            (* [fromisoformat] raises *)
  | IsoAt (ts : Z).       (* parses; timestamp in microseconds *)

Record OneoffEntry := {
  startISO : IsoField;
  endISO : IsoField;
}.

Inductive Entry :=
  | Weekly (w : WeeklyEntry)
  | Oneoff (o : OneoffEntry)
  | OtherEntry (t : option string).

(** [sh, sm = [int(x) for x in text.split(":")]]; [None] when a piece is
    not an integer or there are not exactly two pieces. *)
Definition parse_hm (text : string) : option (Z * Z) :=
  match py_split ":" text with
  | [a; b] => h ← py_int a; m ← py_int b; Some (h, m)
  | _ => None
  end.

(** [now.replace(hour=h, minute=m, second=0, microsecond=0)], as the clock
    fields of the result; [None] stands for [ValueError]. *)
Definition replace_hm (h m : Z) : option (Z * Z * Z * Z) :=
  if bool_decide (0 ≤ h ≤ 23) && bool_decide (0 ≤ m ≤ 59)
  then Some (h, m, 0, 0) else None.

Definition clock (now : Instant) : Z * Z * Z * Z :=
  (hour now, minute now, second now, microsecond now).

(** [a <= b] on two datetimes of the same date. *)
Definition dt_le (a b : Z * Z * Z * Z) : bool :=
  let '(h1, m1, s1, u1) := a in
  let '(h2, m2, s2, u2) := b in
  (h1 <? h2) || (h1 =? h2) &&
  ((m1 <? m2) || (m1 =? m2) &&
  ((s1 <? s2) || (s1 =? s2) && (u1 <=? u2))).

Definition _weekly_match (entry : WeeklyEntry) (now : Instant) : bool :=
  default false
    (if bool_decide (weekday now ∈ default [] (w_days entry)) then
       '(sh, sm) ← parse_hm (default "00:00" (w_start entry));
       '(eh, em) ← parse_hm (default "23:59" (w_end entry));
       start_dt ← replace_hm sh sm;
       end_dt ← replace_hm eh em;
       Some (dt_le start_dt (clock now) && dt_le (clock now) end_dt)
     else Some false).

Definition parse_iso (f : IsoField) : option (option Z) :=
  match f with
  | IsoMissing => Some None
  | IsoInvalid => None
  | IsoAt ts => Some (Some ts)
  end.

Definition _oneoff_match (entry : OneoffEntry) (now : Instant) : bool :=
  default false
    (s ← parse_iso (startISO entry);
     e ← parse_iso (endISO entry);
     Some (match s, e with
           | Some s, Some e => (s <=? timestamp now) && (timestamp now <=? e)
           | _, _ => false
           end)).

Definition entry_matches (now : Instant) (ent : Entry) : bool :=
  match ent with
  | Weekly w => _weekly_match w now
  | Oneoff o => _oneoff_match o now
  | OtherEntry _ => false
  end.

(** * Sessions and the store *)

(** A queued command: the ["type"] key, the two stamps and the remaining
    keys. *)
Record Command := {
  cmd_type : option string;
  cmd_session_id : option string;
  cmd_ts : option Z;
  cmd_fields : list (string * json);
}.

Global Instance Command_eq_dec : EqDecision Command.
Proof. solve_decision. Defined.

Record Controls := {
  focusMode : bool;
  allowlist : list string;
  examMode : bool;
  examUrl : string;
}.

(** [s.get("controls") or {}]: every key of the empty dict reads falsy. *)
Definition no_controls : Controls :=
  {| focusMode := false; allowlist := []; examMode := false; examUrl := "" |}.

Record Session := {
  s_id : string;
  s_students : list string;
  s_controls : option Controls;
  s_schedule : list Entry;
  s_manual : bool;
}.

Record Tab := {
  tab_id : option Z;
  tab_url : option string;
  tab_title : option string;
  tab_favIconUrl : option string;
  tab_favicon : option string;
}.

Record Presence := {
  last_seen : Z;
  student_name : string;
  tab : Tab;
  tabs : list Tab;
  screenshot : string;
  tabshots : gmap string string;
}.

Record TimelineItem := {
  tl_ts : Z;
  tl_title : string;
  tl_url : string;
  tl_favIconUrl : option string;
}.

Record Shot := {
  shot_ts : Z;
  shot_tabId : option Z;
  shot_dataUrl : option string;
  shot_title : string;
  shot_url : string;
}.

(** The keys of [data.json] the session engine and the heartbeat use. *)
Record Store := {
  sessions : list Session;
  active_sessions : gset string;
  pending_by_session : gmap string (list Command);
  pending_per_student : gmap string (list Command);
  presence : gmap string Presence;
  history : gmap string (list TimelineItem);
  screenshots : gmap string (list Shot);
  extension_enabled : bool;
}.

Definition set_active_sessions (a : gset string) (d : Store) : Store :=
  {| sessions := sessions d; active_sessions := a;
     pending_by_session := pending_by_session d;
     pending_per_student := pending_per_student d;
     presence := presence d; history := history d;
     screenshots := screenshots d;
     extension_enabled := extension_enabled d |}.

Definition set_pending_by_session (q : gmap string (list Command)) (d : Store)
  : Store :=
  {| sessions := sessions d; active_sessions := active_sessions d;
     pending_by_session := q;
     pending_per_student := pending_per_student d;
     presence := presence d; history := history d;
     screenshots := screenshots d;
     extension_enabled := extension_enabled d |}.

Definition set_pending_per_student (q : gmap string (list Command)) (d : Store)
  : Store :=
  {| sessions := sessions d; active_sessions := active_sessions d;
     pending_by_session := pending_by_session d;
     pending_per_student := q;
     presence := presence d; history := history d;
     screenshots := screenshots d;
     extension_enabled := extension_enabled d |}.

Definition set_presence (p : gmap string Presence) (d : Store) : Store :=
  {| sessions := sessions d; active_sessions := active_sessions d;
     pending_by_session := pending_by_session d;
     pending_per_student := pending_per_student d;
     presence := p; history := history d;
     screenshots := screenshots d;
     extension_enabled := extension_enabled d |}.

Definition set_history (h : gmap string (list TimelineItem)) (d : Store)
  : Store :=
  {| sessions := sessions d; active_sessions := active_sessions d;
     pending_by_session := pending_by_session d;
     pending_per_student := pending_per_student d;
     presence := presence d; history := h;
     screenshots := screenshots d;
     extension_enabled := extension_enabled d |}.

Definition set_screenshots (s : gmap string (list Shot)) (d : Store) : Store :=
  {| sessions := sessions d; active_sessions := active_sessions d;
     pending_by_session := pending_by_session d;
     pending_per_student := pending_per_student d;
     presence := presence d; history := history d;
     screenshots := s;
     extension_enabled := extension_enabled d |}.

Definition ensure_keys (d : Store) : Store := d.

Definition _ensure_sessions_students (store : Store) : Store :=
  ensure_keys store.

(** ** Active-session reconciler *)

Definition _session_is_scheduled_active (now : Instant) (sess : Session)
  : bool :=
  existsb (entry_matches now) (s_schedule sess).

(** [{s.get("id"): s for s in sessions}]: the last session listed under an
    id is the one kept. *)
Definition sessions_by_id (l : list Session) : gmap string Session :=
  foldl (λ m s, <[s_id s := s]> m) ∅ l.

(** One turn of the loop of [_reconcile_active_sessions]. *)
Definition reconcile_step (now : Instant) (sid : string) (sess : Session)
    (active : gset string) : gset string :=
  if _session_is_scheduled_active now sess then {[sid]} ∪ active
  else if bool_decide (sid ∈ active) && negb (s_manual sess)
       then active ∖ {[sid]}
       else active.

Definition _reconcile_active_sessions (now : Instant) (store : Store)
  : Store :=
  let store := _ensure_sessions_students store in
  let active :=
    map_fold (reconcile_step now) (active_sessions store)
      (sessions_by_id (sessions store)) in
  set_active_sessions active store.

(** Returns the active ids and the store it reconciled in place. *)
Definition _active_session_ids (now : Instant) (store : Store)
  : gset string * Store :=
  let store := _reconcile_active_sessions now (_ensure_sessions_students store) in
  (active_sessions store, store).

Definition enrolled (student_id : string) (act : gset string) (s : Session)
  : bool :=
  bool_decide (s_id s ∈ act) && bool_decide (student_id ∈ s_students s).

Definition _student_active_sessions (now : Instant) (store : Store)
    (student_id : string) : list string * Store :=
  let store := _reconcile_active_sessions now (_ensure_sessions_students store) in
  let '(act, store) := _active_session_ids now store in
  (s_id <$> filter (λ s, enrolled student_id act s = true) (sessions store), store).

(** ** Command queues *)

Definition _enqueue_session_cmd (store : Store) (sid : string) (cmd : Command)
  : Store :=
  let store := _ensure_sessions_students store in
  let q := default [] (pending_by_session store !! sid) ++ [cmd] in
  let q := if bool_decide (200 < length q)%nat then py_last_n 200 q else q in
  set_pending_by_session (<[sid := q]> (pending_by_session store)) store.

(** ** Effective policy composer *)

Record EffectiveState := {
  e_focusMode : bool;
  e_allowlist : list string;
  e_examMode : bool;
  e_examUrl : string;
  e_session_ids : list string;
}.

(** One turn of the merge loop over the relevant sessions; the allowlist is
    accumulated in the set [allow]. *)
Definition merge_session (acc : EffectiveState * gset string) (s : Session)
  : EffectiveState * gset string :=
  let '(merged, allow) := acc in
  let c := default no_controls (s_controls s) in
  let merged :=
    if focusMode c
    then {| e_focusMode := true; e_allowlist := e_allowlist merged;
            e_examMode := e_examMode merged; e_examUrl := e_examUrl merged;
            e_session_ids := e_session_ids merged |}
    else merged in
  let merged :=
    if examMode c
    then {| e_focusMode := e_focusMode merged; e_allowlist := e_allowlist merged;
            e_examMode := true;
            e_examUrl :=
              if bool_decide (e_examUrl merged = "") && negb (bool_decide (examUrl c = ""))
              then examUrl c else e_examUrl merged;
            e_session_ids := e_session_ids merged |}
    else merged in
  (merged, foldl (λ a u, {[u]} ∪ a) allow (allowlist c)).

(** [sorted(list(allow))]: the members of the set in increasing order. *)
Definition py_sorted (allow : gset string) : list string :=
  merge_sort String.le (elements allow).

Definition relevant_sessions (store : Store) (student_id : string)
  : list Session :=
  filter (λ s, enrolled student_id (active_sessions store) s = true)
    (sessions store).

Definition _effective_state_for_student (now : Instant) (store : Store)
    (student_id : string) : EffectiveState :=
  let store := _reconcile_active_sessions now (_ensure_sessions_students store) in
  let relevant := relevant_sessions store student_id in
  let merged :=
    {| e_focusMode := false; e_allowlist := []; e_examMode := false;
       e_examUrl := ""; e_session_ids := s_id <$> relevant |} in
  let '(merged, allow) := foldl merge_session (merged, ∅) relevant in
  {| e_focusMode := e_focusMode merged; e_allowlist := py_sorted allow;
     e_examMode := e_examMode merged; e_examUrl := e_examUrl merged;
     e_session_ids := e_session_ids merged |}.

(** * Command endpoints *)

Record User := {
  u_email : string;
  u_role : string;
}.

(** [u and u["role"] in ("teacher", "admin")] *)
Definition is_staff (u : option User) : bool :=
  match u with
  | Some u => bool_decide (u_role u ∈ ["teacher"; "admin"])
  | None => false
  end.

(** A JSON reply [{"ok": ..., "error": ...}] with its HTTP status. *)
Record ApiResp := {
  status : Z;
  ok : bool;
  error : option string;
}.

Definition reply_ok : ApiResp :=
  {| status := 200; ok := true; error := None |}.

Definition reply_error (code : Z) (msg : string) : ApiResp :=
  {| status := code; ok := false; error := Some msg |}.

(** [a or b] on two optional strings; [None] also when both are falsy. *)
Definition py_or (a b : option string) : option string :=
  match a with
  | Some s => if bool_decide (s = "") then b else Some s
  | None => b
  end.

(** The truthy string behind an optional one. *)
Definition truthy (a : option string) : option string :=
  match a with
  | Some s => if bool_decide (s = "") then None else Some s
  | None => None
  end.

(** [int(time.time())] *)
Definition unix_seconds (now : Instant) : Z := timestamp now / 1000000.

(** [cmd = dict(cmd); cmd["session_id"] = sid; cmd["ts"] = int(time.time())] *)
Definition stamp (now : Instant) (sid : string) (cmd : Command) : Command :=
  {| cmd_type := cmd_type cmd; cmd_session_id := Some sid;
     cmd_ts := Some (unix_seconds now); cmd_fields := cmd_fields cmd |}.

Definition empty_dict (cmd : Command) : bool :=
  bool_decide (cmd = {| cmd_type := None; cmd_session_id := None;
                        cmd_ts := None; cmd_fields := [] |}).

(** Body of [POST /api/command]. *)
Record CommandReq := {
  b_session : option string;
  b_session_id : option string;
  b_command : option Command;
  b_student : option string;
}.

Definition api_command (now : Instant) (u : option User) (disk : Store)
    (b : CommandReq) : ApiResp * Store :=
  if negb (is_staff u) then (reply_error 403 "forbidden", disk) else
  let d := _ensure_sessions_students disk in
  match truthy (py_or (b_session b) (b_session_id b)) with
  | None => (reply_error 400 "session required", disk)
  | Some sid =>
      let '(act, d) := _active_session_ids now d in
      if negb (bool_decide (sid ∈ act))
      then (reply_error 409 "session not active", disk)
      else
        match b_command b with
        | None => (reply_error 400 "invalid", disk)
        | Some cmd =>
            if empty_dict cmd || negb (bool_decide (is_Some (cmd_type cmd)))
            then (reply_error 400 "invalid", disk)
            else
              let cmd := stamp now sid cmd in
              let target_student := py_strip (default "" (b_student b)) in
              let d := _enqueue_session_cmd d sid cmd in
              let d :=
                if bool_decide (target_student = "") then d
                else
                  let arr := default [] (pending_per_student d !! target_student) in
                  set_pending_per_student
                    (<[target_student := py_last_n 50 (arr ++ [cmd])]>
                       (pending_per_student d)) d in
              (reply_ok, d)
        end
  end.

(** Body of [POST /api/notify]. *)
Record NotifyReq := {
  n_title : option string;
  n_message : option string;
  n_session : option string;
  n_session_id : option string;
}.

(** [s[:n]] on a string: its first [n] characters. *)
Definition py_prefix (n : nat) (s : string) : string :=
  utf8_encode (take n (utf8_decode s)).

Definition api_notify (now : Instant) (u : option User) (disk : Store)
    (b : NotifyReq) : ApiResp * Store :=
  if negb (is_staff u) then (reply_error 403 "forbidden", disk) else
  let title := py_prefix 120 (default "G School" (truthy (n_title b))) in
  let message := py_prefix 500 (default "" (truthy (n_message b))) in
  let sid := truthy (py_or (n_session b) (n_session_id b)) in
  let d := _ensure_sessions_students disk in
  match sid with
  | None => (reply_error 400 "session required", disk)
  | Some sid =>
      let '(act, d) := _active_session_ids now d in
      if negb (bool_decide (sid ∈ act))
      then (reply_error 409 "session not active", disk)
      else
        let cmd :=
          {| cmd_type := Some "notify"; cmd_session_id := Some sid;
             cmd_ts := Some (unix_seconds now);
             cmd_fields := [("title", JStr title); ("message", JStr message)] |} in
        (reply_ok, _enqueue_session_cmd d sid cmd)
  end.

(** ** Polling: [GET /api/commands/<student>] *)

(** The per-student block of the handler: hand out the whole one-shot
    queue of [student] and leave an empty list in its place. *)
Definition drain_per_student (d : Store) (student : string)
  : list Command * Store :=
  let per_stu := default [] (pending_per_student d !! student) in
  match per_stu with
  | [] => ([], d)
  | _ :: _ =>
      (per_stu,
       set_pending_per_student (<[student := []]> (pending_per_student d)) d)
  end.

(** [str(c.get("session_id")) == str(sid)] *)
Definition stamped_for (sid : string) (c : Command) : bool :=
  bool_decide (py_str (cmd_session_id c) = sid).

(** One turn of the loop over the student's active sessions. *)
Definition drain_session_step
    (acc : list Command * gmap string (list Command)) (sid : string)
  : list Command * gmap string (list Command) :=
  let '(out, pbs) := acc in
  let queue := default [] (pbs !! sid) in
  match queue with
  | [] => (out, pbs)
  | _ :: _ =>
      let to_take := filter (λ c, stamped_for sid c = true) queue in
      let remaining := filter (λ c, c ∉ to_take) queue in
      (out ++ to_take, <[sid := remaining]> pbs)
  end.

Definition api_commands_get (now : Instant) (disk : Store) (student : string)
  : list Command * Store :=
  let d := _ensure_sessions_students disk in
  let '(out, d) := drain_per_student d student in
  let '(active_sids, d) := _student_active_sessions now d student in
  let '(out, pbs) :=
    foldl drain_session_step (out, pending_by_session d) active_sids in
  (out, set_pending_by_session pbs d).

(** * Guest gate and heartbeat *)

Definition _GUEST_TOKENS : list string :=
  ["guest"; "anon"; "anonymous"; "trial"; "temp"].

Definition _is_guest_identity (email name : option string) : bool :=
  let e := py_lower (py_strip (default "" email)) in
  let n := py_lower (py_strip (default "" name)) in
  if bool_decide (e = "") then true
  else if existsb (λ t, py_in t e) _GUEST_TOKENS then true
  else if existsb (λ t, py_in t n) _GUEST_TOKENS then true
  else false.

Record ShotLogItem := {
  sl_tabId : option Z;
  sl_dataUrl : option string;
  sl_title : option string;
  sl_url : option string;
}.

(** Body of [POST /api/heartbeat]. *)
Record HeartbeatReq := {
  hb_student : option string;
  hb_student_name : option string;
  hb_tab : option Tab;
  hb_tabs : list Tab;
  hb_screenshot : option string;
  hb_tabshots : list (string * string);
  hb_shot_log : list ShotLogItem;
}.

Record HeartbeatResp := {
  r_ok : bool;
  r_server_time : Z;
  r_extension_enabled : bool;
  r_sessions : option (list string * option EffectiveState);
}.

Definition empty_tab : Tab :=
  {| tab_id := None; tab_url := None; tab_title := None;
     tab_favIconUrl := None; tab_favicon := None |}.

(** [str(n)] for an integer. *)
Definition py_str_int (n : Z) : string :=
  DecimalString.NilZero.string_of_int (Z.to_int n).

(** The favicon fallback: [favIconUrl] is filled from [favicon] when only
    the latter is present. *)
Definition with_favicon (t : Tab) : Tab :=
  match tab_favIconUrl t, tab_favicon t with
  | None, Some f =>
      {| tab_id := tab_id t; tab_url := tab_url t; tab_title := tab_title t;
         tab_favIconUrl := Some f; tab_favicon := tab_favicon t |}
  | _, _ => t
  end.

(** [{str(t.get("id")) for t in tabs if "id" in t}] *)
Definition open_ids (ts : list Tab) : gset string :=
  list_to_set (omap (λ t, py_str_int <$> tab_id t) ts).

(** The presence block of the handler. *)
Definition update_presence (now : Instant) (b : HeartbeatReq)
    (old : option Presence) : Presence :=
  let shots := default ∅ (tabshots <$> old) in
  let shots := foldl (λ m kv, <[kv.1 := kv.2]> m) shots (hb_tabshots b) in
  let ids := open_ids (hb_tabs b) in
  {| last_seen := unix_seconds now;
     student_name := default "" (hb_student_name b);
     tab := with_favicon (default empty_tab (hb_tab b));
     tabs := hb_tabs b;
     screenshot := default "" (hb_screenshot b);
     tabshots := filter (λ kv, kv.1 ∈ ids) shots |}.

(** The timeline block: a new item when the current tab has a url and the
    timeline is empty, or its last item has another url or is 15 seconds
    old; the history is capped at 500 items. *)
Definition update_timeline (now : Instant) (cur : Tab)
    (timeline : list TimelineItem) : list TimelineItem :=
  let url := py_strip (default "" (tab_url cur)) in
  let title := py_strip (default "" (tab_title cur)) in
  let should_add :=
    negb (bool_decide (url = "")) &&
    match last timeline with
    | None => true
    | Some l =>
        negb (bool_decide (tl_url l = url)) ||
        bool_decide (15 ≤ unix_seconds now - tl_ts l)
    end in
  if should_add
  then py_last_n 500
         (timeline ++ [{| tl_ts := unix_seconds now; tl_title := title;
                          tl_url := url; tl_favIconUrl := tab_favIconUrl cur |}])
  else timeline.

Definition log_shot (now : Instant) (s : ShotLogItem) : Shot :=
  {| shot_ts := unix_seconds now; shot_tabId := sl_tabId s;
     shot_dataUrl := sl_dataUrl s;
     shot_title := default "" (sl_title s);
     shot_url := default "" (sl_url s) |}.

Definition api_heartbeat (now : Instant) (disk : Store) (b : HeartbeatReq)
  : HeartbeatResp * Store :=
  let student := py_strip (default "" (hb_student b)) in
  let display_name := hb_student_name b in
  let data_global := ensure_keys disk in
  let extension_enabled_global := extension_enabled data_global in
  if _is_guest_identity (Some student) display_name
  then ({| r_ok := true; r_server_time := unix_seconds now;
           r_extension_enabled := false; r_sessions := None |}, disk)
  else
    let d := ensure_keys disk in
    let d :=
      if bool_decide (student = "") then d
      else
        let pres := update_presence now b (presence d !! student) in
        let d := set_presence (<[student := pres]> (presence d)) d in
        let timeline := default [] (history d !! student) in
        let d :=
          set_history
            (<[student := update_timeline now (tab pres) timeline]> (history d))
            d in
        match hb_shot_log b with
        | [] => d
        | shot_log =>
            let hist := default [] (screenshots d !! student) in
            set_screenshots
              (<[student := py_last_n 200
                              (hist ++ (log_shot now <$> take 10 shot_log))]>
                 (screenshots d)) d
        end in
    let sessions_part :=
      if bool_decide (student = "") then ([], None)
      else ((_student_active_sessions now d student).1,
            Some (_effective_state_for_student now d student)) in
    ({| r_ok := true; r_server_time := unix_seconds now;
        r_extension_enabled := extension_enabled_global;
        r_sessions := Some sessions_part |}, d).

(** * Roster scoping *)

Definition _STUDENT_ID_KEYS : list string :=
  ["student"; "email"; "id"; "user"; "student_id"].

Definition _SESSION_SCOPED_PREFIXES : list string :=
  ["/api/presence"; "/api/commands"; "/api/timeline";
   "/api/heartbeat"; "/api/offtask"; "/api/present"].

(** The [for k in _STUDENT_ID_KEYS] loop: the value of the first key, in
    that order, that the object holds with a string value. *)
Fixpoint first_student_key (keys : list string) (x : list (string * json))
  : option string :=
  match keys with
  | [] => None
  | k :: ks =>
      match jget k x with
      | Some (JStr s) => Some s
      | _ => first_student_key ks x
      end
  end.

Definition student_id_of (x : json) : option string :=
  match x with
  | JDict kvs => first_student_key _STUDENT_ID_KEYS kvs
  | _ => None
  end.

(** The [continue] of the list loop: the element is an object with a
    student identifier and the roster is empty or lacks it. *)
Definition skipped (roster : gset string) (x : json) : bool :=
  match student_id_of x with
  | Some sid => bool_decide (roster = ∅) || negb (bool_decide (sid ∈ roster))
  | None => false
  end.

(** What [_filter_json_by_roster] returns when none of its calls raises.
    Nothing in its body raises on decoded JSON short of exhausting the
    interpreter stack; the function with its [except] branch, run on a
    bounded stack, is [filter_within] below, and [filter_within_enough]
    relates the two. *)
Fixpoint _filter_json_by_roster (obj : json) (roster : gset string) : json :=
  match obj with
  | JList l =>
      JList (omap (λ x, if skipped roster x then None
                        else Some (_filter_json_by_roster x roster)) l)
  | JDict kvs =>
      JDict ((λ kv, (kv.1, _filter_json_by_roster kv.2 roster)) <$> kvs)
  | _ => obj
  end.

(** The [try] block of [_filter_json_by_roster] over a recursive call that
    may raise ([None]): an exception in a nested call aborts the block. *)
Definition filter_body (rec : json → option json) (obj : json)
    (roster : gset string) : option json :=
  match obj with
  | JList l =>
      JList <$> mapM rec (filter (λ x, skipped roster x = false) l)
  | JDict kvs =>
      JDict <$> mapM (λ kv, v ← rec kv.2; Some (kv.1, v)) kvs
  | _ => Some obj
  end.

(** [_filter_json_by_roster] run with [frames] stack frames left.  A call
    made with no frame left raises [RecursionError] ([None]); a call whose
    block sees a nested call raise takes its [except Exception: return obj]
    branch.  A call takes one frame, as on CPython 3.12 and later; up to
    3.11 the comprehension of an object level takes a frame of its own, so
    that on every version twice the depth of a value is enough. *)
Fixpoint filter_within (frames : nat) (obj : json) (roster : gset string)
  : option json :=
  match frames with
  | O => None
  | S n =>
      Some (default obj
              (filter_body (λ x, filter_within n x roster) obj roster))
  end.

(** Nesting depth: the stack frames the filter needs on a value. *)
Fixpoint json_depth (obj : json) : nat :=
  match obj with
  | JList l => S (foldr (λ x d, Nat.max (json_depth x) d) 0%nat l)
  | JDict kvs => S (foldr (λ kv d, Nat.max (json_depth kv.2) d) 0%nat kvs)
  | _ => 1%nat
  end.

(** The roster [_session_scoping_before] leaves in [g._session_students]:
    the students of the first session with that id, the empty set when
    there is none. *)
Definition session_roster (store : Store) (sid : string) : gset string :=
  match list_find (λ s, s_id s = sid) (sessions store) with
  | Some (_, s) => list_to_set (s_students s)
  | None => ∅
  end.

(** A response body: the text [json.dumps j], or text that is not JSON. *)
Inductive Body :=
  | JsonText (j : json)
  | RawText (s : string).

Record Response := {
  mimetype : string;
  data : Body;
}.

(** What the hook reads of the request and of flask's [g]. *)
Record RequestCtx := {
  path : string;
  g_session_id : option string;
  g_session_students : gset string;
}.

(** [json.loads(resp.get_data(as_text=True) or 'null')]; [None] when the
    text is not JSON.  ([json.loads] and [json.dumps] also raise on a
    document nested deeper than the stack allows; the hook then leaves the
    response as it is, like when the filter raises.) *)
Definition json_loads (body : Body) : option json :=
  match body with
  | JsonText j => Some j
  | RawText "" => Some JNull
  | RawText _ => None
  end.

Definition session_scoped (p : string) : bool :=
  existsb (py_startswith p) _SESSION_SCOPED_PREFIXES || py_startswith p "/api/".

(** The roster block of the after-request hook, run with [frames] stack
    frames left.  (The block before it only rewrites [text/html] replies of
    [/teacher].)  Both [None] cases are its [except Exception: pass]. *)
Definition _session_scoping_after (frames : nat) (ctx : RequestCtx)
    (resp : Response) : Response :=
  if bool_decide (is_Some (truthy (g_session_id ctx))) &&
     bool_decide (mimetype resp = "application/json") &&
     session_scoped (path ctx)
  then
    match json_loads (data resp) with
    | None => resp
    | Some doc =>
        match filter_within frames doc (g_session_students ctx) with
        | None => resp
        | Some filtered =>
            {| mimetype := mimetype resp; data := JsonText filtered |}
        end
    end
  else resp.

(** * Notions the statements use *)

(** The queue of [sid] as the code reads it: [pbs.get(sid, [])]. *)
Definition session_queue (store : Store) (sid : string) : list Command :=
  default [] (pending_by_session store !! sid).

Definition student_queue (store : Store) (student : string) : list Command :=
  default [] (pending_per_student store !! student).

(** Sending [cs] one after the other into the queue of [sid]. *)
Definition enqueue_all (store : Store) (sid : string) (cs : list Command)
  : Store :=
  foldl (λ st c, _enqueue_session_cmd st sid c) store cs.

(** The session id a send request names: [b.get("session") or
    b.get("session_id")], when truthy. *)
Definition command_sid (b : CommandReq) : option string :=
  truthy (py_or (b_session b) (b_session_id b)).

Definition notify_sid (b : NotifyReq) : option string :=
  truthy (py_or (n_session b) (n_session_id b)).

(** [s.get("controls") or {}] *)
Definition ctl (s : Session) : Controls := default no_controls (s_controls s).

(** The sessions [_effective_state_for_student] merges: those of the store
    that enrol the student and whose id is in the reconciled active set, in
    the order the store lists them. *)
Definition selected (now : Instant) (store : Store) (student_id : string)
  : list Session :=
  relevant_sessions (_reconcile_active_sessions now store) student_id.

(** Controls that can set the exam url: exam mode on, url not empty. *)
Definition sets_exam_url (c : Controls) : Prop :=
  examMode c = true ∧ examUrl c ≠ "".

Global Instance sets_exam_url_dec c : Decision (sets_exam_url c).
Proof. unfold sets_exam_url. apply _. Defined.

(** The exam url of the first session of [l] that can set it. *)
Definition first_exam_url (l : list Session) : string :=
  from_option (λ p, examUrl (ctl p.2)) ""
    (list_find (λ s, sets_exam_url (ctl s)) l).

(** The ids [api_commands] loops over for a student. *)
Definition polled_sessions (now : Instant) (store : Store) (student : string)
  : list string :=
  (_student_active_sessions now store student).1.

(** Microseconds since midnight. *)
Definition day_us (t : Z * Z * Z * Z) : Z :=
  let '(h, m, s, u) := t in ((h * 60 + m) * 60 + s) * 1000000 + u.

(** The ranges of the clock fields of a [datetime]. *)
Definition valid_clock (t : Z * Z * Z * Z) : Prop :=
  let '(h, m, s, u) := t in
  0 ≤ h ≤ 23 ∧ 0 ≤ m ≤ 59 ∧ 0 ≤ s ≤ 59 ∧ 0 ≤ u ≤ 999999.

(** The start and end texts the matcher parses: the entry's own, or the
    defaults of [entry.get("start", "00:00")] and [entry.get("end",
    "23:59")] when the key is absent. *)
Definition start_text (entry : WeeklyEntry) : string :=
  default "00:00" (w_start entry).

Definition end_text (entry : WeeklyEntry) : string :=
  default "23:59" (w_end entry).

(** The text holds one of the guest tokens as a substring. *)
Definition has_guest_token (s : string) : Prop :=
  ∃ t pre post, t ∈ _GUEST_TOKENS ∧ s = pre +:+ t +:+ post.

(** The classification in words: after trimming and lower-casing, the
    email is empty, or the email or the display name holds a token. *)
Definition guest_identity (email name : option string) : Prop :=
  let e := py_lower (py_strip (default "" email)) in
  let n := py_lower (py_strip (default "" name)) in
  e = "" ∨ has_guest_token e ∨ has_guest_token n.

(** The student id the heartbeat handler works with:
    [(b.get("student") or "").strip()]. *)
Definition heartbeat_student (b : HeartbeatReq) : string :=
  py_strip (default "" (hb_student b)).

(** [x] is an element of a list somewhere inside [doc]. *)
Inductive listed_in (x : json) : json → Prop :=
  | listed_here l : x ∈ l → listed_in x (JList l)
  | listed_in_element y l : y ∈ l → listed_in x y → listed_in x (JList l)
  | listed_in_value k v kvs : (k, v) ∈ kvs → listed_in x v → listed_in x (JDict kvs).

(** A response the roster block of the hook applies to. *)
Definition roster_scoped (ctx : RequestCtx) (resp : Response) : Prop :=
  is_Some (truthy (g_session_id ctx)) ∧
  mimetype resp = "application/json" ∧
  session_scoped (path ctx) = true.

(** [doc] below [k] enclosing one-element lists. *)
Fixpoint wrap (k : nat) (doc : json) : json :=
  match k with
  | O => doc
  | S k => JList [wrap k doc]
  end.

(** CPython's default [sys.getrecursionlimit()]. *)
Definition recursion_limit : nat := 1000.

(** * Sample stores, requests and replies *)

Definition empty_store : Store :=
  {| sessions := []; active_sessions := ∅; pending_by_session := ∅;
     pending_per_student := ∅; presence := ∅; history := ∅;
     screenshots := ∅; extension_enabled := true |}.

Definition numbered_notify (n : nat) : Command :=
  {| cmd_type := Some "notify"; cmd_session_id := Some "sess_1";
     cmd_ts := Some (Z.of_nat n); cmd_fields := [] |}.

Definition monday_noon : Instant :=
  {| weekday := 0; hour := 12; minute := 0; second := 0; microsecond := 0;
     timestamp := 1762171200000000 |}.

(** A session a teacher created with [manual: true] and no schedule. *)
Definition manual_session : Session :=
  {| s_id := "sess_1"; s_students := ["alice"]; s_controls := None;
     s_schedule := []; s_manual := true |}.

Definition manual_store (active : gset string) : Store :=
  {| sessions := [manual_session]; active_sessions := active;
     pending_by_session := ∅; pending_per_student := ∅; presence := ∅;
     history := ∅; screenshots := ∅; extension_enabled := true |}.

(** The scenario of the specification: [sess_1] has a one-off window
    [[T, T+600s]] and enrols [alice]; [window_start] is [T]. *)
Definition window_start : Z := 1762171200000000.

Definition oneoff_session : Session :=
  {| s_id := "sess_1"; s_students := ["alice"]; s_controls := None;
     s_schedule := [Oneoff {| startISO := IsoAt window_start;
                             endISO := IsoAt (window_start + 600000000) |}];
     s_manual := false |}.

Definition oneoff_store (active : gset string) : Store :=
  {| sessions := [oneoff_session]; active_sessions := active;
     pending_by_session := ∅; pending_per_student := ∅; presence := ∅;
     history := ∅; screenshots := ∅; extension_enabled := true |}.

Definition at_offset (seconds : Z) : Instant :=
  {| weekday := 0; hour := 12; minute := seconds / 60; second := seconds `mod` 60;
     microsecond := 0; timestamp := window_start + seconds * 1000000 |}.

Definition teacher : option User :=
  Some {| u_email := "t@school.org"; u_role := "teacher" |}.

Definition notify_hi : Command :=
  {| cmd_type := Some "notify"; cmd_session_id := None; cmd_ts := None;
     cmd_fields := [("message", JStr "hi")] |}.

Definition send_hi : CommandReq :=
  {| b_session := Some "sess_1"; b_session_id := None;
     b_command := Some notify_hi; b_student := None |}.

(** Two sessions that enrol [alice]: the first has an exam url configured
    but exam mode off, the second is running an exam. *)
Definition prepared_session : Session :=
  {| s_id := "sess_1"; s_students := ["alice"];
     s_controls := Some {| focusMode := true; allowlist := ["a.com"];
                           examMode := false;
                           examUrl := "https://first.example/exam" |};
     s_schedule := []; s_manual := true |}.

Definition exam_session : Session :=
  {| s_id := "sess_2"; s_students := ["alice"];
     s_controls := Some {| focusMode := false; allowlist := ["b.com"];
                           examMode := true;
                           examUrl := "https://second.example/exam" |};
     s_schedule := []; s_manual := true |}.

Definition exam_store : Store :=
  {| sessions := [prepared_session; exam_session];
     active_sessions := {["sess_1"; "sess_2"]};
     pending_by_session := ∅; pending_per_student := ∅; presence := ∅;
     history := ∅; screenshots := ∅; extension_enabled := true |}.

(** A queue holding a command stamped for another session. *)
Definition stray_command : Command :=
  {| cmd_type := Some "notify"; cmd_session_id := Some "sess_2";
     cmd_ts := Some 1762171200; cmd_fields := [("message", JStr "hi")] |}.

Definition stray_store : Store :=
  set_pending_by_session {["sess_1" := [stray_command]]}
    (manual_store {["sess_1"]}).

(** A school-day entry, and the same entry with its end left out. *)
Definition school_day : WeeklyEntry :=
  {| w_days := Some [0; 1; 2; 3; 4]; w_start := Some "09:00";
     w_end := Some "15:30" |}.

Definition open_ended : WeeklyEntry :=
  {| w_days := Some [0; 1; 2; 3; 4]; w_start := Some "09:00";
     w_end := None |}.

Definition guest_beat : HeartbeatReq :=
  {| hb_student := Some " Guest42@example.org ";
     hb_student_name := Some "Visitor";
     hb_tab := Some {| tab_id := Some 7; tab_url := Some "https://a.com/";
                       tab_title := Some "A"; tab_favIconUrl := None;
                       tab_favicon := None |};
     hb_tabs := []; hb_screenshot := Some "data:image/png;base64,AAAA";
     hb_tabshots := [("7", "data:image/png;base64,BBBB")];
     hb_shot_log := [] |}.

Definition alice_beat : HeartbeatReq :=
  {| hb_student := Some "alice@school.org";
     hb_student_name := Some "Alice";
     hb_tab := hb_tab guest_beat; hb_tabs := []; hb_screenshot := None;
     hb_tabshots := []; hb_shot_log := [] |}.

(** A presence-style entry for a student. *)
Definition entry_for (student : string) : json :=
  JDict [("student", JStr student); ("url", JStr "https://a.com/")].

(** A session board for the roster {s1, s2} and a JSON reply of
    [/api/presence] with entries for s1 and s3 below 999 enclosing lists. *)
Definition board_ctx : RequestCtx :=
  {| path := "/api/presence"; g_session_id := Some "sess_1";
     g_session_students := {["s1"; "s2"]} |}.

Definition two_entries : json := JList [entry_for "s1"; entry_for "s3"].

Definition deep_response : Response :=
  {| mimetype := "application/json";
     data := JsonText (wrap 999 two_entries) |}.

(** The reply of [/api/presence] with entries for s1, s2 and s3. *)
Definition three_entries_response : Response :=
  {| mimetype := "application/json";
     data := JsonText (JList [entry_for "s1"; entry_for "s2"; entry_for "s3"]) |}.

(** An entry whose [student] key holds a number. *)
Definition numbered_entry : json :=
  JDict [("student", JNum 7); ("url", JStr "https://a.com/")].

(** The board of a session the store does not know: the roster is empty. *)
Definition unknown_board_ctx : RequestCtx :=
  {| path := "/api/presence"; g_session_id := Some "sess_404";
     g_session_students := ∅ |}.

(** * Session lifecycle endpoints

    [/api/sessions], [/api/sessions/<sid>], [/api/sessions/<sid>/start],
    [/api/sessions/<sid>/end], [/api/sessions/active].  The [name] and
    [teacher] keys of a session are carried along by the code and read by
    none of it; like [Session] itself the bodies below leave them out. *)

Definition set_sessions (l : list Session) (d : Store) : Store :=
  {| sessions := l; active_sessions := active_sessions d;
     pending_by_session := pending_by_session d;
     pending_per_student := pending_per_student d;
     presence := presence d; history := history d;
     screenshots := screenshots d;
     extension_enabled := extension_enabled d |}.

Definition set_manual (m : bool) (s : Session) : Session :=
  {| s_id := s_id s; s_students := s_students s; s_controls := s_controls s;
     s_schedule := s_schedule s; s_manual := m |}.

(** Body of [POST /api/sessions]; a field is [None] when the key is absent
    or falsy. *)
Record SessionBody := {
  sb_id : option string;
  sb_students : option (list string);
  sb_controls : option Controls;
  sb_schedule : option (list Entry);
  sb_manual : bool;
}.

(** The session [POST /api/sessions] builds; [fresh] is the id
    ["sess_" + uuid4().hex[:8]] drawn for a body without one. *)
Definition new_session (fresh : string) (body : SessionBody) : Session :=
  {| s_id := default fresh (truthy (sb_id body));
     s_students := default [] (sb_students body);
     s_controls := Some (default no_controls (sb_controls body));
     s_schedule := default [] (sb_schedule body);
     s_manual := sb_manual body |}.

Definition api_sessions_post (fresh : string) (disk : Store)
    (body : SessionBody) : Session * Store :=
  let data := _ensure_sessions_students disk in
  let sess := new_session fresh body in
  (sess,
   set_sessions
     (filter (λ s, s_id s ≠ s_id sess) (sessions data) ++ [sess]) data).

(** [GET /api/sessions]: the reply's [sessions] and [active], and the
    store saved. *)
Definition api_sessions_get (now : Instant) (disk : Store)
  : list Session * gset string * Store :=
  let data := _reconcile_active_sessions now (_ensure_sessions_students disk) in
  (sessions data, active_sessions data, data).

Definition api_sessions_active (now : Instant) (disk : Store)
  : gset string * Store :=
  let data := _reconcile_active_sessions now (_ensure_sessions_students disk) in
  (active_sessions data, data).

(** [GET /api/sessions/<sid>]: the first session with the id and whether
    the id is in the persisted active set; [None] is the 404 reply. *)
Definition api_session_item_get (disk : Store) (sid : string)
  : option (Session * bool) :=
  let data := _ensure_sessions_students disk in
  match list_find (λ s, s_id s = sid) (sessions data) with
  | Some (_, s) => Some (s, bool_decide (sid ∈ active_sessions data))
  | None => None
  end.

Definition api_session_item_delete (disk : Store) (sid : string) : Store :=
  let data := _ensure_sessions_students disk in
  let data := set_sessions (filter (λ s, s_id s ≠ sid) (sessions data)) data in
  set_active_sessions (active_sessions data ∖ {[sid]}) data.

(** Body of [PUT /api/sessions/<sid>]: the keys present, each with the
    value it carries. *)
Record SessionPatch := {
  sp_students : option (list string);
  sp_controls : option (option Controls);
  sp_schedule : option (list Entry);
  sp_manual : option bool;
}.

Definition apply_patch (p : SessionPatch) (s : Session) : Session :=
  {| s_id := s_id s;
     s_students := default (s_students s) (sp_students p);
     s_controls := default (s_controls s) (sp_controls p);
     s_schedule := default (s_schedule s) (sp_schedule p);
     s_manual := default (s_manual s) (sp_manual p) |}.

(** The [for ... break] loop of the PUT branch: the first session with the
    id is patched, the others are left alone. *)
Fixpoint patch_first (sid : string) (p : SessionPatch) (l : list Session)
  : list Session :=
  match l with
  | [] => []
  | s :: r =>
      if decide (s_id s = sid) then apply_patch p s :: r
      else s :: patch_first sid p r
  end.

Definition api_session_item_put (disk : Store) (sid : string)
    (body : SessionPatch) : Store :=
  let data := _ensure_sessions_students disk in
  set_sessions (patch_first sid body (sessions data)) data.

(** [s["manual"] = m] on every session with the id. *)
Definition mark_manual (sid : string) (m : bool) (l : list Session)
  : list Session :=
  (λ s, if decide (s_id s = sid) then set_manual m s else s) <$> l.

Definition api_session_start (disk : Store) (sid : string)
  : ApiResp * Store :=
  let data := _ensure_sessions_students disk in
  if negb (bool_decide (sid ∈ s_id <$> sessions data))
  then (reply_error 404 "not found", disk)
  else
    let data := set_active_sessions ({[sid]} ∪ active_sessions data) data in
    (reply_ok, set_sessions (mark_manual sid true (sessions data)) data).

Definition api_session_end (disk : Store) (sid : string) : ApiResp * Store :=
  let data := _ensure_sessions_students disk in
  let data := set_active_sessions (active_sessions data ∖ {[sid]}) data in
  (reply_ok, set_sessions (mark_manual sid false (sessions data)) data).

(** [GET /api/state/<student_id>] *)
Definition api_state_for_student (now : Instant) (disk : Store)
    (student_id : string) : EffectiveState :=
  _effective_state_for_student now (_ensure_sessions_students disk) student_id.

Definition manual_body : SessionBody :=
  {| sb_id := Some "sess_9"; sb_students := Some ["alice"]; sb_controls := None;
     sb_schedule := None; sb_manual := true |}.

(** * Further send endpoints

    [POST /api/commands/<student>], [/api/open_tabs],
    [/api/student/tabs_action] and [/api/student/open_tabs]. *)

(** [bool(v)] on decoded JSON. *)
Definition json_truthy (v : json) : bool :=
  match v with
  | JNull => false
  | JBool b => b
  | JNum n => negb (n =? 0)
  | JStr s => negb (bool_decide (s = ""))
  | JList [] => false
  | JList (_ :: _) => true
  | JDict [] => false
  | JDict (_ :: _) => true
  end.

(** [arr = pend.setdefault(student, []); arr.append(c); arr[:] = arr[-50:]] *)
Definition push_one_shot (d : Store) (student : string) (c : Command) : Store :=
  let arr := default [] (pending_per_student d !! student) in
  set_pending_per_student
    (<[student := py_last_n 50 (arr ++ [c])]> (pending_per_student d)) d.

(** Body of [POST /api/commands/<student>]; [p_rest] holds the keys other
    than [session], [session_id], [type] and [ts]. *)
Record PushReq := {
  p_session : option string;
  p_session_id : option string;
  p_type : option string;
  p_rest : list (string * json);
}.

(** [cmd = dict(b); cmd["session_id"] = sid; cmd["ts"] = int(time.time())] *)
Definition pushed_command (now : Instant) (sid : string) (b : PushReq)
  : Command :=
  {| cmd_type := p_type b; cmd_session_id := Some sid;
     cmd_ts := Some (unix_seconds now);
     cmd_fields :=
       match p_session b with
       | Some s => ("session", JStr s) :: p_rest b
       | None => p_rest b
       end |}.

Definition api_commands_post (now : Instant) (u : option User) (disk : Store)
    (student : string) (b : PushReq) : ApiResp * Store :=
  let d := _ensure_sessions_students disk in
  if negb (is_staff u) then (reply_error 403 "forbidden", disk) else
  match truthy (py_or (p_session b) (p_session_id b)) with
  | None => (reply_error 400 "session required", disk)
  | Some sid =>
      let '(act, d) := _active_session_ids now d in
      if negb (bool_decide (sid ∈ act))
      then (reply_error 409 "session not active", disk)
      else if negb (bool_decide (is_Some (truthy (p_type b))))
      then (reply_error 400 "missing type", disk)
      else
        let cmd := pushed_command now sid b in
        let d := _enqueue_session_cmd d sid cmd in
        let arr := default [] (pending_per_student d !! student) in
        (reply_ok,
         set_pending_per_student
           (<[student := arr ++ [cmd]]> (pending_per_student d)) d)
  end.

(** Body of [POST /api/open_tabs] and of [POST /api/student/open_tabs]. *)
Record TabsReq := {
  t_urls : option json;
  t_student : option string;
  t_session : option string;
  t_session_id : option string;
}.

(** [{"type": "open_tabs", "urls": urls, "ts": ...}], with the stamp
    [session_id] when there is one. *)
Definition open_tabs_command (now : Instant) (urls : json)
    (sid : option string) : Command :=
  {| cmd_type := Some "open_tabs"; cmd_session_id := sid;
     cmd_ts := Some (unix_seconds now); cmd_fields := [("urls", urls)] |}.

(** [len(v)] on decoded JSON; [None] is the [TypeError] of a value that
    has no length. *)
Definition json_len (v : json) : option nat :=
  match v with
  | JStr s => Some (length (utf8_decode s))
  | JList l => Some (length l)
  | JDict kvs => Some (length kvs)
  | _ => None
  end.

(** What Flask answers when a handler raises: status 500 and a body that
    is not JSON, so neither [ok] nor [error]. *)
Definition internal_error : ApiResp :=
  {| status := 500; ok := false; error := None |}.

(** The handler reads no user: it has no role check.  Both branches
    evaluate [len(urls)] for the audit log before [save_data]: urls that are
    truthy and have no length (a number, [true]) make the handler raise with
    nothing saved. *)
Definition api_open_tabs_alias (now : Instant) (disk : Store) (b : TabsReq)
  : ApiResp * Store :=
  let urls := default (JList []) (t_urls b) in
  let student := py_strip (default "" (t_student b)) in
  if negb (json_truthy urls) then (reply_error 400 "urls required", disk) else
  let d := _ensure_sessions_students disk in
  if negb (bool_decide (student = ""))
  then
    let d := push_one_shot d student (open_tabs_command now urls None) in
    match json_len urls with
    | Some _ => (reply_ok, d)
    | None => (internal_error, disk)
    end
  else
    match truthy (py_or (t_session b) (t_session_id b)) with
    | None => (reply_error 400 "session required", disk)
    | Some sid =>
        let '(act, d) := _active_session_ids now d in
        if negb (bool_decide (sid ∈ act))
        then (reply_error 409 "session not active", disk)
        else
          let d :=
            _enqueue_session_cmd d sid (open_tabs_command now urls (Some sid)) in
          match json_len urls with
          | Some _ => (reply_ok, d)
          | None => (internal_error, disk)
          end
    end.

(** Body of [POST /api/student/tabs_action]. *)
Record TabsActionReq := {
  ta_student : option string;
  ta_action : option string;
}.

Definition api_student_tabs_action (now : Instant) (u : option User)
    (disk : Store) (b : TabsActionReq) : ApiResp * Store :=
  if negb (is_staff u) then (reply_error 403 "forbidden", disk) else
  let student := py_strip (default "" (ta_student b)) in
  let action := py_strip (default "" (ta_action b)) in
  if bool_decide (student = "") ||
     negb (bool_decide (action ∈ ["restore_tabs"; "close_tabs"]))
  then (reply_error 400 "student and valid action required", disk)
  else
    let d := ensure_keys disk in
    (reply_ok,
     push_one_shot d student
       {| cmd_type := Some action; cmd_session_id := None;
          cmd_ts := Some (unix_seconds now); cmd_fields := [] |}).

Definition api_student_open_tabs (now : Instant) (u : option User)
    (disk : Store) (b : TabsReq) : ApiResp * Store :=
  if negb (is_staff u) then (reply_error 403 "forbidden", disk) else
  let student := py_strip (default "" (t_student b)) in
  let urls := default (JList []) (t_urls b) in
  let sid := truthy (py_or (t_session b) (t_session_id b)) in
  if bool_decide (student = "") || negb (json_truthy urls)
  then (reply_error 400 "student and urls required", disk)
  else
    let d := _ensure_sessions_students disk in
    match sid with
    | Some sid =>
        let '(act, d) := _active_session_ids now d in
        if negb (bool_decide (sid ∈ act))
        then (reply_error 409 "session not active", disk)
        else
          (reply_ok,
           push_one_shot d student (open_tabs_command now urls (Some sid)))
    | None =>
        (reply_ok, push_one_shot d student (open_tabs_command now urls None))
    end.

(** Every command of every session queue carries the id of its queue. *)
Definition well_stamped (store : Store) : Prop :=
  ∀ sid c, c ∈ session_queue store sid → stamped_for sid c = true.

(** [c] occurs at two positions of [l] at least. *)
Definition occurs_twice {A} (c : A) (l : list A) : Prop :=
  ∃ l1 l2 l3, l = l1 ++ c :: l2 ++ c :: l3.

Definition send_to_alice : CommandReq :=
  {| b_session := Some "sess_1"; b_session_id := None;
     b_command := Some notify_hi; b_student := Some " alice " |}.

(** [c] is the newest of at most 50 commands in the one-shot queue of
    [student], and a poll by [student], at any instant, delivers it and
    leaves the one-shot queue empty. *)
Definition delivered_next_poll (store : Store) (student : string)
    (c : Command) : Prop :=
  last (student_queue store student) = Some c ∧
  (length (student_queue store student) ≤ 50)%nat ∧
  ∀ now1,
    c ∈ (api_commands_get now1 store student).1 ∧
    student_queue (api_commands_get now1 store student).2 student = [].

Definition close_alice : TabsActionReq :=
  {| ta_student := Some "alice"; ta_action := Some " close_tabs " |}.

Definition push_hi : PushReq :=
  {| p_session := Some "sess_1"; p_session_id := None;
     p_type := Some "notify"; p_rest := [("message", JStr "hi")] |}.

(** A store whose one-shot queue for [alice] is at the bound of 50. *)
Definition full_one_shots (d : Store) : Store :=
  set_pending_per_student
    (<["alice" := numbered_notify <$> seq 0 50]> (pending_per_student d)) d.

(** * Extension switch *)

Definition set_extension_enabled (e : bool) (d : Store) : Store :=
  {| sessions := sessions d; active_sessions := active_sessions d;
     pending_by_session := pending_by_session d;
     pending_per_student := pending_per_student d;
     presence := presence d; history := history d;
     screenshots := screenshots d;
     extension_enabled := e |}.

(** [POST /api/extension/toggle]; [enabled] is the value under the key
    ["enabled"] of the body, [None] when the key is absent.  The reply's
    [extension_enabled] comes third. *)
Definition api_extension_toggle (u : option User) (disk : Store)
    (enabled : option json) : ApiResp * Store * option bool :=
  if negb (is_staff u) then (reply_error 403 "forbidden", disk, None) else
  let enabled := from_option json_truthy true enabled in
  let data := ensure_keys disk in
  (reply_ok, set_extension_enabled enabled data, Some enabled).

(** Two neighbours of a timeline differ in their url or lie 15 seconds
    apart at least. *)
Definition spaced (tl : list TimelineItem) : Prop :=
  ∀ i a c, tl !! i = Some a → tl !! S i = Some c →
           tl_url a ≠ tl_url c ∨ 15 ≤ tl_ts c - tl_ts a.

Definition timeline_of (store : Store) (student : string)
  : list TimelineItem :=
  default [] (history store !! student).

Definition shots_of (store : Store) (student : string) : list Shot :=
  default [] (screenshots store !! student).

(** * Inbound roster scoping *)

(** The [for key in _STUDENT_ID_KEYS] loop of
    [_extract_student_id_from_body]: the stripped value of the first key
    held with a string that is not blank. *)
Fixpoint first_nonblank_key (keys : list string) (x : list (string * json))
  : option string :=
  match keys with
  | [] => None
  | k :: ks =>
      match jget k x with
      | Some (JStr s) =>
          if bool_decide (py_strip s = "") then first_nonblank_key ks x
          else Some (py_strip s)
      | _ => first_nonblank_key ks x
      end
  end.

Definition _extract_student_id_from_body (body : json) : option string :=
  match body with
  | JDict kvs =>
      match first_nonblank_key _STUDENT_ID_KEYS kvs with
      | Some s => Some s
      | None =>
          match jget "data" kvs with
          | Some (JDict d) => first_nonblank_key _STUDENT_ID_KEYS d
          | _ => None
          end
      end
  | _ => None
  end.

(** [x in roster] for a decoded JSON value and a set of strings; [None]
    is the [TypeError] of an unhashable value. *)
Definition in_roster (roster : gset string) (x : json) : option bool :=
  match x with
  | JStr s => Some (bool_decide (s ∈ roster))
  | JList _ | JDict _ => None
  | _ => Some false
  end.

(** [[x for x in students if x in roster]] *)
Fixpoint keep_enrolled (roster : gset string) (l : list json)
  : option (list json) :=
  match l with
  | [] => Some []
  | x :: r =>
      b ← in_roster roster x;
      rest ← keep_enrolled roster r;
      Some (if b : bool then x :: rest else rest)
  end.

(** [d[k] = v] on a decoded JSON object. *)
Fixpoint jset (k : string) (v : json) (kvs : list (string * json))
  : list (string * json) :=
  match kvs with
  | [] => [(k, v)]
  | (k', v') :: r =>
      if decide (k = k') then (k, v) :: r else (k', v') :: jset k v r
  end.

(** What the before-request hook does with a request. *)
Inductive Verdict :=
  | Untouched
  | Rewritten (body : json)
  | Ignored.

Record Request := {
  method : string;
  req_path : string;
  arg_session : option string;
  header_session : option string;
  is_json : bool;
  req_json : option json;
}.

(** The [try] block of the hook for a JSON request; [None] when it
    raises.  [parsed] is [request.get_json(silent=True)]. *)
Definition scoping_body (roster : gset string) (parsed : option json)
  : option Verdict :=
  let body :=
    match parsed with
    | Some j => if json_truthy j then j else JDict []
    | None => JDict []
    end in
  match body with
  | JDict kvs =>
      kvs ← match jget "students" kvs with
            | Some (JList l) =>
                l ← keep_enrolled roster l;
                Some (jset "students" (JList l) kvs)
            | _ => Some kvs
            end;
      match _extract_student_id_from_body (JDict kvs) with
      | Some sid =>
          if negb (bool_decide (roster = ∅)) && negb (bool_decide (sid ∈ roster))
          then Some Ignored
          else Some (Rewritten (JDict kvs))
      | None => Some (Rewritten (JDict kvs))
      end
  | _ => None
  end.

Definition _session_scoping_before (store : Store) (req : Request)
  : RequestCtx * Verdict :=
  let sid := py_or (arg_session req) (header_session req) in
  let roster :=
    match truthy sid with
    | Some s => session_roster (ensure_keys store) s
    | None => ∅
    end in
  ({| path := req_path req; g_session_id := sid;
      g_session_students := roster |},
   if bool_decide (is_Some (truthy sid)) &&
      bool_decide (method req ∈ ["POST"; "PUT"]) &&
      session_scoped (req_path req)
   then
     if is_json req
     then default Untouched (scoping_body roster (req_json req))
     else Untouched
   else Untouched).

(** A list or an object: a value Python cannot hash. *)
Definition unhashable (x : json) : Prop :=
  match x with
  | JList _ | JDict _ => True
  | _ => False
  end.

(** A JSON request the hook looks into. *)
Definition scoped_request (req : Request) : Prop :=
  is_Some (truthy (py_or (arg_session req) (header_session req))) ∧
  method req ∈ ["POST"; "PUT"] ∧
  session_scoped (req_path req) = true ∧
  is_json req = true.

Definition heartbeat_for (student : string) (extra : list (string * json))
  : Request :=
  {| method := "POST"; req_path := "/api/heartbeat";
     arg_session := Some "sess_1"; header_session := None; is_json := true;
     req_json := Some (JDict (("student", JStr student) :: extra)) |}.

(** * Identifiers in file names and room names *)

(** A character of the class [[a-zA-Z0-9_-]]. *)
Definition id_char (a : ascii) : bool :=
  let n := N_of_ascii a in
  ((97 <=? n) && (n <=? 122) || (65 <=? n) && (n <=? 90) ||
   (48 <=? n) && (n <=? 57) || (n =? 95) || (n =? 45))%N.

(** [re.sub(r'[^a-zA-Z0-9_-]+', '', s)]: every character outside the class
    is dropped. *)
Fixpoint sanitize (s : string) : string :=
  match s with
  | EmptyString => EmptyString
  | String a r => if id_char a then String a (sanitize r) else sanitize r
  end.

(** The file [_scenes_file_for] picks, relative to [ROOT]. *)
Definition _scenes_file_for (session_id : option string) : string :=
  match truthy session_id with
  | None => "scenes.json"
  | Some sid => "scene." +:+ sanitize sid +:+ ".json"
  end.

(** [a in s] for a character. *)
Fixpoint has_char (a : ascii) (s : string) : bool :=
  match s with
  | EmptyString => false
  | String b r => bool_decide (a = b) || has_char a r
  end.

(** * Presentation signalling

    The in-memory mailbox [PRESENT] of the WebRTC signalling endpoints. *)

Record Room := {
  offers : gmap string json;
  answers : gmap string json;
  cand_v : gmap string (list json);
  cand_t : gmap string (list json);
  updated : Z;
  room_active : bool;
}.

(** The value the [defaultdict] makes for a room it does not hold. *)
Definition fresh_room (now : Instant) : Room :=
  {| offers := ∅; answers := ∅; cand_v := ∅; cand_t := ∅;
     updated := unix_seconds now; room_active := false |}.

(** [PRESENT[room]] *)
Definition room_of (now : Instant) (rooms : gmap string Room) (room : string)
  : Room :=
  default (fresh_room now) (rooms !! room).

Definition api_present_start (now : Instant) (rooms : gmap string Room)
    (room : string) : string * gmap string Room :=
  let room := sanitize room in
  let r := room_of now rooms room in
  (room,
   <[room := {| offers := offers r; answers := answers r; cand_v := cand_v r;
                cand_t := cand_t r; updated := unix_seconds now;
                room_active := true |}]> rooms).

Definition api_present_end (now : Instant) (rooms : gmap string Room)
    (room : string) : gmap string Room :=
  <[sanitize room := fresh_room now]> rooms.

(** [PRESENT.get(room)] does not create the room. *)
Definition api_present_status (rooms : gmap string Room) (room : string)
  : bool :=
  match rooms !! sanitize room with
  | Some r => room_active r
  | None => false
  end.

(** [sdp] is [body.get("sdp")], [JNull] when absent; [fresh] is the
    [str(uuid.uuid4())] drawn for a body without client id.  The client id
    is stored as sent. *)
Definition api_present_viewer_offer (now : Instant) (rooms : gmap string Room)
    (room : string) (sdp : json) (client_id : option string) (fresh : string)
  : string * gmap string Room :=
  let client_id := default fresh (truthy client_id) in
  let room := sanitize room in
  let r := room_of now rooms room in
  (client_id,
   <[room := {| offers := <[client_id := sdp]> (offers r);
                answers := answers r; cand_v := cand_v r; cand_t := cand_t r;
                updated := unix_seconds now;
                room_active := room_active r |}]> rooms).

Definition api_present_offers (now : Instant) (rooms : gmap string Room)
    (room : string) : gmap string json * gmap string Room :=
  let room := sanitize room in
  let r := room_of now rooms room in
  (offers r, <[room := r]> rooms).

Definition api_present_answer_post (now : Instant) (rooms : gmap string Room)
    (room client_id : string) (sdp : json) : gmap string Room :=
  let room := sanitize room in
  let client_id := sanitize client_id in
  let r := room_of now rooms room in
  <[room := {| offers := delete client_id (offers r);
               answers := <[client_id := sdp]> (answers r);
               cand_v := cand_v r; cand_t := cand_t r;
               updated := unix_seconds now;
               room_active := room_active r |}]> rooms.

Definition api_present_answer_get (now : Instant) (rooms : gmap string Room)
    (room client_id : string) : option json * gmap string Room :=
  let room := sanitize room in
  let client_id := sanitize client_id in
  let r := room_of now rooms room in
  (answers r !! client_id, <[room := r]> rooms).

(** ["viewer" if side.lower().startswith("v") else "teacher"] *)
Definition is_viewer (side : string) : bool :=
  py_startswith (py_lower side) "v".

Definition set_bucket (viewer : bool) (b : gmap string (list json)) (r : Room)
  : Room :=
  {| offers := offers r; answers := answers r;
     cand_v := if viewer then b else cand_v r;
     cand_t := if viewer then cand_t r else b;
     updated := updated r; room_active := room_active r |}.

Definition set_updated (t : Z) (r : Room) : Room :=
  {| offers := offers r; answers := answers r; cand_v := cand_v r;
     cand_t := cand_t r; updated := t; room_active := room_active r |}.

Definition bucket (viewer : bool) (r : Room) : gmap string (list json) :=
  if viewer then cand_v r else cand_t r.

(** POST: the candidates go to the bucket of the sending side. *)
Definition api_present_candidate_post (now : Instant)
    (rooms : gmap string Room) (room side client_id : string)
    (cands : list json) : gmap string Room :=
  let room := sanitize room in
  let client_id := sanitize client_id in
  let viewer := is_viewer side in
  let r := room_of now rooms room in
  let r :=
    match cands with
    | [] => r
    | _ :: _ =>
        let bucket_from := bucket viewer r in
        set_bucket viewer
          (<[client_id := default [] (bucket_from !! client_id) ++ cands]>
             bucket_from) r
    end in
  <[room := set_updated (unix_seconds now) r]> rooms.

(** GET: fetch and clear what the other side sent. *)
Definition api_present_candidate_get (now : Instant)
    (rooms : gmap string Room) (room side client_id : string)
  : list json * gmap string Room :=
  let room := sanitize room in
  let client_id := sanitize client_id in
  let viewer := is_viewer side in
  let r := room_of now rooms room in
  let bucket_to := bucket (negb viewer) r in
  (default [] (bucket_to !! client_id),
   <[room := set_bucket (negb viewer) (<[client_id := []]> bucket_to) r]>
     rooms).

(** * Scenes

    The scenes file of a request, as [_load_scenes] returns it: the two
    buckets and the reference to the scene in force.  Every scene and every
    reference carries an id, as the ones the endpoints below write do. *)

Record Scene := {
  sc_id : string;
  sc_name : string;
  sc_type : string;
  sc_allow : list string;
  sc_block : list string;
  sc_icon : string;
}.

Record SceneRef := {
  ref_id : string;
  ref_name : string;
  ref_type : string;
}.

Record Scenes := {
  allowed : list Scene;
  blocked : list Scene;
  current : option SceneRef;
}.

Definition set_current (c : option SceneRef) (s : Scenes) : Scenes :=
  {| allowed := allowed s; blocked := blocked s; current := c |}.

(** Body of [POST /api/scenes]. *)
Record SceneBody := {
  cb_name : option string;
  cb_type : option string;
  cb_allow : option (list string);
  cb_block : option (list string);
  cb_icon : option string;
}.

(** [str(int(time.time() * 1000))] *)
Definition millis_id (now : Instant) : string :=
  py_str_int (timestamp now / 1000).

(** The reply and the scenes file afterwards. *)
Definition api_scenes_create (now : Instant) (scenes : Scenes)
    (body : SceneBody) : ApiResp * option Scene * Scenes :=
  match truthy (cb_name body), cb_type body with
  | Some name, Some s_type =>
      if bool_decide (s_type ∈ ["allowed"; "blocked"])
      then
        let new_scene :=
          {| sc_id := millis_id now; sc_name := name; sc_type := s_type;
             sc_allow := default [] (cb_allow body);
             sc_block := default [] (cb_block body);
             sc_icon := default "blue" (cb_icon body) |} in
        (reply_ok, Some new_scene,
         if bool_decide (s_type = "allowed")
         then {| allowed := allowed scenes ++ [new_scene];
                 blocked := blocked scenes; current := current scenes |}
         else {| allowed := allowed scenes;
                 blocked := blocked scenes ++ [new_scene];
                 current := current scenes |})
      else (reply_error 400 "name and valid type required", None, scenes)
  | _, _ => (reply_error 400 "name and valid type required", None, scenes)
  end.

(** [DELETE /api/scenes/<sid>].  [scenes.get("current", {})] is [None]
    when no scene is in force, and [None.get] raises before anything is
    saved: [None] stands for that exception, [Some] for the file saved. *)
Definition api_scenes_delete (scenes : Scenes) (sid : string)
  : option Scenes :=
  let kept_allowed := filter (λ s, sc_id s ≠ sid) (allowed scenes) in
  let kept_blocked := filter (λ s, sc_id s ≠ sid) (blocked scenes) in
  match current scenes with
  | None => None
  | Some c =>
      Some {| allowed := kept_allowed; blocked := kept_blocked;
              current := if bool_decide (ref_id c = sid) then None else Some c |}
  end.

(** The search both [api_scenes_apply] and
    [_effective_allowlist_for_policy] run: the first scene with the id in
    the allowed bucket, else the first in the blocked one. *)
Definition find_scene (scenes : Scenes) (sid : string) : option Scene :=
  match list_find (λ s, sc_id s = sid) (allowed scenes) with
  | Some (_, s) => Some s
  | None => snd <$> list_find (λ s, sc_id s = sid) (blocked scenes)
  end.

(** Body of [POST /api/scenes/apply]. *)
Record ApplyBody := {
  ab_id : option string;
  ab_scene_id : option string;
  ab_disable : bool;
}.

Definition api_scenes_apply (u : option User) (scenes : Scenes)
    (body : ApplyBody) : ApiResp * Scenes :=
  if negb (is_staff u) then (reply_error 403 "forbidden", scenes) else
  if ab_disable body then (reply_ok, set_current None scenes) else
  match truthy (py_or (ab_id body) (ab_scene_id body)) with
  | None => (reply_error 400 "scene_id required", scenes)
  | Some sid =>
      match find_scene scenes sid with
      | None => (reply_error 404 "scene not found", scenes)
      | Some s =>
          (reply_ok,
           set_current
             (Some {| ref_id := sc_id s; ref_name := sc_name s;
                      ref_type := sc_type s |}) scenes)
      end
  end.

Definition api_scenes_clear (scenes : Scenes) : Scenes :=
  set_current None scenes.

(** [class_allowlist] is [d["classes"]["period1"]["allowlist"]]. *)
Definition _effective_allowlist_for_policy (class_allowlist : list string)
    (scenes : Scenes) : list string :=
  match current scenes with
  | None => class_allowlist
  | Some c =>
      match find_scene scenes (ref_id c) with
      | Some s =>
          if bool_decide (sc_type s = "allowed") then sc_allow s
          else class_allowlist
      | None => class_allowlist
      end
  end.

Definition reading_scene : SceneBody :=
  {| cb_name := Some "Reading"; cb_type := Some "allowed";
     cb_allow := Some ["*://*.example.org/*"]; cb_block := None;
     cb_icon := None |}.

Definition no_scenes : Scenes :=
  {| allowed := []; blocked := []; current := None |}.

(** * Student registry

    The list under the key [students] of [data.json], with the handlers of
    [/api/students] and [/api/students/<sid>] as functions on it. *)

Record Student := {
  st_id : string;
  st_name : string;
  st_email : string;
}.

(** Body of [POST /api/students]; a field is [None] when the key is
    absent. *)
Record StudentBody := {
  stb_id : option string;
  stb_name : option string;
  stb_email : option string;
}.

(** [s.get("id") != sid and s.get("email") != sid] *)
Definition other_student (sid : string) (s : Student) : Prop :=
  st_id s ≠ sid ∧ st_email s ≠ sid.

Global Instance other_student_dec sid s : Decision (other_student sid s).
Proof. unfold other_student. apply _. Defined.

(** [fresh] is the [uuid4().hex] drawn for a body without id and email. *)
Definition api_students_post (fresh : string) (students : list Student)
    (body : StudentBody) : Student * list Student :=
  let sid := default fresh (truthy (py_or (stb_id body) (stb_email body))) in
  let name := default "" (truthy (stb_name body)) in
  let email := default sid (stb_email body) in
  let new := {| st_id := sid; st_name := name; st_email := email |} in
  (new, filter (other_student sid) students ++ [new]).

(** [GET /api/students/<sid>]; [None] is the 404 reply. *)
Definition api_student_item_get (students : list Student) (sid : string)
  : option Student :=
  snd <$> list_find (λ s, st_id s = sid ∨ st_email s = sid) students.

Definition api_student_item_delete (students : list Student) (sid : string)
  : list Student :=
  filter (other_student sid) students.

(** * URL classification ([src/ai_routes.py])

    What [api_classify] reads from the database, for the category the
    classifier returned. *)

Record ClassifyDb := {
  blocked_redirect : option string;
  global_allowlist : list string;
  global_block_on : bool;
  category_rule : option (bool * option string);
}.

Definition fallback_redirect : string :=
  "https://blocked.gdistrict.org/Gschool%20block".

(** The block "Normal AI blocking": the rule of the category. *)
Definition category_decision (db : ClassifyDb) : bool * string :=
  let default_redirect := default fallback_redirect (blocked_redirect db) in
  let cat_blocked := from_option fst false (category_rule db) in
  let cat_block_url := category_rule db ≫= snd in
  (cat_blocked, default default_redirect (truthy cat_block_url)).

(** The [blocked] and [block_url] of the reply. *)
Definition api_classify (db : ClassifyDb) (url : option string)
  : bool * string :=
  let url := default "" (truthy url) in
  let default_redirect := default fallback_redirect (blocked_redirect db) in
  let allowed_domains := ["blocked.gdistrict.org"] in
  if global_block_on db &&
     negb (existsb (λ a, py_in (py_lower a) (py_lower url))
             (global_allowlist db ++ allowed_domains))
  then (true, default_redirect)
  else category_decision db.

Definition carol : Student :=
  {| st_id := "carol"; st_name := "Carol"; st_email := "c@school.org" |}.

Definition lockdown : ClassifyDb :=
  {| blocked_redirect := None; global_allowlist := [""];
     global_block_on := true; category_rule := None |}.

(** * The document as JSON

    [_safe_default_data], [_coerce_to_dict], [ensure_keys] and the repair
    done by [load_data] on the decoded content of [data.json], before the
    typed view [Store] is taken of it.  A dict is the list of its items in
    insertion order. *)

Module Raw.

(** [d.setdefault(k, v)]: the dict afterwards. *)
Definition setdefault (k : string) (v : json) (kvs : list (string * json))
  : list (string * json) :=
  match jget k kvs with
  | Some _ => kvs
  | None => kvs ++ [(k, v)]
  end.

(** [d.setdefault(outer, {}).setdefault(inner, v)]; [None] is the
    [AttributeError] raised when [d[outer]] is there and is not a dict. *)
Definition setdefault_in (outer inner : string) (v : json)
    (kvs : list (string * json)) : option (list (string * json)) :=
  match jget outer kvs with
  | None => Some (kvs ++ [(outer, JDict [(inner, v)])])
  | Some (JDict o) => Some (jset outer (JDict (setdefault inner v o)) kvs)
  | Some _ => None
  end.

Definition period1 : json :=
  JDict [("name", JStr "Period 1"); ("active", JBool true);
         ("focus_mode", JBool false); ("paused", JBool false);
         ("allowlist", JList []); ("teacher_blocks", JList []);
         ("students", JList [])].

(** The keys [ensure_keys] sets with a single [setdefault], in its order. *)
Definition plain_defaults : list (string * json) :=
  [("categories", JDict []); ("pending_commands", JDict []);
   ("pending_per_student", JDict []); ("pending_by_session", JDict []);
   ("presence", JDict []); ("history", JDict []); ("screenshots", JDict []);
   ("alerts", JList []); ("dm", JDict []); ("audit", JList []);
   ("extension_enabled", JBool true); ("students", JList []);
   ("sessions", JList []); ("active_sessions", JList [])].

Definition ensure_keys (d : list (string * json))
  : option (list (string * json)) :=
  d ← setdefault_in "settings" "chat_enabled" (JBool false) d;
  d ← setdefault_in "classes" "period1" period1 d;
  Some (foldl (λ d kv, setdefault kv.1 kv.2 d) d plain_defaults).

Definition _safe_default_data : list (string * json) :=
  [("settings", JDict [("chat_enabled", JBool false)]);
   ("classes", JDict [("period1", period1)]);
   ("categories", JDict []); ("pending_commands", JDict []);
   ("pending_per_student", JDict []); ("pending_by_session", JDict []);
   ("presence", JDict []); ("history", JDict []); ("screenshots", JDict []);
   ("dm", JDict []); ("alerts", JList []); ("audit", JList []);
   ("students", JList []); ("sessions", JList []);
   ("active_sessions", JList []); ("extension_enabled", JBool true)].

(** [d.update(item)] *)
Definition update (d item : list (string * json)) : list (string * json) :=
  foldl (λ d kv, jset kv.1 kv.2 d) d item.

Definition _coerce_to_dict (obj : json) : list (string * json) :=
  match obj with
  | JDict kvs => kvs
  | JList l =>
      foldl (λ d item, match item with JDict kvs => update d kvs | _ => d end)
        _safe_default_data l
  | _ => _safe_default_data
  end.

(** [load_data] on a file that exists and decodes to [obj]: the [try]
    branch, and its [except Exception] when [ensure_keys] raises. *)
Definition load_data (obj : json) : list (string * json) :=
  match ensure_keys (_coerce_to_dict obj) with
  | Some d => d
  | None => default _safe_default_data (ensure_keys _safe_default_data)
  end.

(** The keys every handler relies on. *)
Definition required_keys : list string :=
  "settings" :: "classes" :: plain_defaults.*1.

End Raw.

(** * Policy endpoint

    [POST /api/policy] reads, besides the keys of [Store], the class
    [period1] and the per-student overrides of [data.json] and the scenes
    file.  The reply fields it copies unchanged from the document
    ([blocked_redirect], [categories], [announcement], the class name and
    [active] flag, [chat_enabled]) and the time stamp are left out of
    [PolicyResp]. *)

Record ClassSettings := {
  cls_focus_mode : bool;
  cls_paused : bool;
  cls_allowlist : list string;
  cls_teacher_blocks : list string;
}.

(** An entry of [student_overrides]: the keys present. *)
Record Overrides := {
  ov_focus_mode : option bool;
  ov_paused : option bool;
}.

Record PolicyResp := {
  pr_focus_mode : bool;
  pr_paused : bool;
  pr_allowlist : list string;
  pr_teacher_blocks : list string;
  pr_pending : list Command;
  pr_current : option SceneRef;
  pr_active_for_student : list string;
}.

Definition api_policy (now : Instant) (disk : Store) (cls : ClassSettings)
    (student_overrides : gmap string Overrides) (scenes : Scenes)
    (b_student : option string) : PolicyResp * Store :=
  let student := py_strip (default "" b_student) in
  let d := ensure_keys disk in
  let focus := cls_focus_mode cls in
  let paused := cls_paused cls in
  let ov :=
    if bool_decide (student = "") then None else student_overrides !! student in
  let focus := default focus (ov ≫= ov_focus_mode) in
  let paused := default paused (ov ≫= ov_paused) in
  let pending :=
    if bool_decide (student = "") then []
    else default [] (pending_per_student d !! student) in
  let popped :=
    negb (bool_decide (student = "")) &&
    bool_decide (is_Some (pending_per_student d !! student)) in
  let d :=
    if popped
    then set_pending_per_student (delete student (pending_per_student d)) d
    else d in
  let allowlist := cls_allowlist cls in
  let teacher_blocks := cls_teacher_blocks cls in
  let '(allowlist, focus, teacher_blocks) :=
    match current scenes with
    | None => (allowlist, focus, teacher_blocks)
    | Some c =>
        match find_scene scenes (ref_id c) with
        | None => (allowlist, focus, teacher_blocks)
        | Some scene_obj =>
            if bool_decide (sc_type scene_obj = "allowed")
            then (sc_allow scene_obj, true, teacher_blocks)
            else if bool_decide (sc_type scene_obj = "blocked")
            then (allowlist, focus, teacher_blocks ++ sc_block scene_obj)
            else (allowlist, focus, teacher_blocks)
        end
    end in
  let active_for_student :=
    if bool_decide (student = "") then []
    else (_student_active_sessions now d student).1 in
  ({| pr_focus_mode := focus; pr_paused := paused;
      pr_allowlist := allowlist; pr_teacher_blocks := teacher_blocks;
      pr_pending := pending; pr_current := current scenes;
      pr_active_for_student := active_for_student |},
   if popped then d else disk).

Definition period_one : ClassSettings :=
  {| cls_focus_mode := false; cls_paused := false;
     cls_allowlist := ["*://*.school.org/*"]; cls_teacher_blocks := [] |}.

(** * Class-wide send endpoints

    [/api/attention_check], [/api/poll] and [/api/exam] queue a command for
    a session and keep a record under a key of their own
    ([attention_check], [polls], [exam_state]), which is passed and returned
    next to the [Store]. *)

(** [int(v)] on decoded JSON; [None] is its [TypeError] or [ValueError]. *)
Definition json_int (v : json) : option Z :=
  match v with
  | JNum n => Some n
  | JBool b => Some (if b then 1 else 0)
  | JStr s => py_int s
  | _ => None
  end.

(** Body of [POST /api/attention_check]; [at_title] and [at_timeout] are
    [None] when the key is absent. *)
Record AttentionReq := {
  at_title : option json;
  at_timeout : option json;
  at_session : option string;
  at_session_id : option string;
}.

(** The value under [attention_check]. *)
Record AttentionCheck := {
  ac_title : json;
  ac_timeout : Z;
  ac_session_id : string;
  ac_started : Z;
  ac_responses : list (string * json);
}.

Definition api_attention_check (now : Instant) (u : option User)
    (disk : Store) (attention_check : option AttentionCheck)
    (b : AttentionReq) : ApiResp * Store * option AttentionCheck :=
  if negb (is_staff u)
  then (reply_error 403 "forbidden", disk, attention_check) else
  let title := default (JStr "Are you paying attention?") (at_title b) in
  match json_int (default (JNum 30) (at_timeout b)) with
  | None => (internal_error, disk, attention_check)
  | Some timeout =>
      let d := _ensure_sessions_students disk in
      match truthy (py_or (at_session b) (at_session_id b)) with
      | None => (reply_error 400 "session required", disk, attention_check)
      | Some sid =>
          let '(act, d) := _active_session_ids now d in
          if negb (bool_decide (sid ∈ act))
          then (reply_error 409 "session not active", disk, attention_check)
          else
            let ts_now := unix_seconds now in
            let cmd :=
              {| cmd_type := Some "attention_check";
                 cmd_session_id := Some sid; cmd_ts := Some ts_now;
                 cmd_fields := [("title", title); ("timeout", JNum timeout)] |} in
            (reply_ok, _enqueue_session_cmd d sid cmd,
             Some {| ac_title := title; ac_timeout := timeout;
                     ac_session_id := sid; ac_started := ts_now;
                     ac_responses := [] |})
      end
  end.

(** Body of [POST /api/poll]. *)
Record PollReq := {
  q_question : option string;
  q_options : option (list json);
  q_session : option string;
  q_session_id : option string;
}.

(** [[o.strip() for o in options if o and o.strip()]]; [None] is the
    [AttributeError] of a truthy option that is not a string. *)
Fixpoint poll_options (l : list json) : option (list string) :=
  match l with
  | [] => Some []
  | o :: r =>
      if negb (json_truthy o) then poll_options r
      else
        match o with
        | JStr s =>
            rest ← poll_options r;
            Some (if bool_decide (py_strip s = "") then rest
                  else py_strip s :: rest)
        | _ => None
        end
  end.

(** An entry of [polls]. *)
Record Poll := {
  po_question : string;
  po_options : list string;
  po_responses : list json;
}.

(** The reply, the store, [polls], and the [poll_id] of the reply. *)
Definition api_poll (now : Instant) (u : option User) (disk : Store)
    (polls : gmap string Poll) (b : PollReq)
  : ApiResp * Store * gmap string Poll * option string :=
  if negb (is_staff u)
  then (reply_error 403 "forbidden", disk, polls, None) else
  let q := py_strip (default "" (q_question b)) in
  match poll_options (default [] (q_options b)) with
  | None => (internal_error, disk, polls, None)
  | Some opts =>
      if bool_decide (q = "") || bool_decide (opts = [])
      then (reply_error 400 "question and options required", disk, polls, None)
      else
        let d := _ensure_sessions_students disk in
        match truthy (py_or (q_session b) (q_session_id b)) with
        | None => (reply_error 400 "session required", disk, polls, None)
        | Some sid =>
            let '(act, d) := _active_session_ids now d in
            if negb (bool_decide (sid ∈ act))
            then (reply_error 409 "session not active", disk, polls, None)
            else
              let poll_id := "poll_" +:+ millis_id now in
              let cmd :=
                {| cmd_type := Some "poll"; cmd_session_id := Some sid;
                   cmd_ts := Some (unix_seconds now);
                   cmd_fields := [("id", JStr poll_id); ("question", JStr q);
                                  ("options", JList (JStr <$> opts))] |} in
              (reply_ok, _enqueue_session_cmd d sid cmd,
               <[poll_id := {| po_question := q; po_options := opts;
                               po_responses := [] |}]> polls,
               Some poll_id)
        end
  end.

(** Body of [POST /api/exam]. *)
Record ExamReq := {
  x_action : option string;
  x_url : option string;
  x_session : option string;
  x_session_id : option string;
}.

(** [exam_state] is the object under that key, [None] when the key is
    absent. *)
Definition api_exam (now : Instant) (u : option User) (disk : Store)
    (exam_state : option (list (string * json))) (b : ExamReq)
  : ApiResp * Store * option (list (string * json)) :=
  if negb (is_staff u)
  then (reply_error 403 "forbidden", disk, exam_state) else
  let action := py_strip (default "" (x_action b)) in
  let url := py_strip (default "" (x_url b)) in
  let d := _ensure_sessions_students disk in
  match truthy (py_or (x_session b) (x_session_id b)) with
  | None => (reply_error 400 "session required", disk, exam_state)
  | Some sid =>
      let '(act, d) := _active_session_ids now d in
      if negb (bool_decide (sid ∈ act))
      then (reply_error 409 "session not active", disk, exam_state)
      else if bool_decide (action = "start") then
        if bool_decide (url = "")
        then (reply_error 400 "url required", disk, exam_state)
        else
          let cmd :=
            {| cmd_type := Some "exam_start"; cmd_session_id := Some sid;
               cmd_ts := Some (unix_seconds now);
               cmd_fields := [("url", JStr url)] |} in
          (reply_ok, _enqueue_session_cmd d sid cmd,
           Some (jset "url" (JStr url)
                   (jset "active" (JBool true) (default [] exam_state))))
      else if bool_decide (action = "end") then
        let cmd :=
          {| cmd_type := Some "exam_end"; cmd_session_id := Some sid;
             cmd_ts := Some (unix_seconds now); cmd_fields := [] |} in
        (reply_ok, _enqueue_session_cmd d sid cmd,
         Some (jset "active" (JBool false) (default [] exam_state)))
      else (reply_error 400 "invalid action", disk, exam_state)
  end.

(** A request to [/api/open_tabs] that names both a student and the
    session [sess_1]. *)
Definition tabs_for_alice : TabsReq :=
  {| t_urls := Some (JList [JStr "https://a.com/"]);
     t_student := Some "alice"; t_session := Some "sess_1";
     t_session_id := None |}.

(** * Properties *)

(** ** Bounded queues *)

Section last_n.
Context {A : Type}.
Implicit Types l k : list A.

Lemma py_last_n_short n l : (length l ≤ n)%nat → py_last_n n l = l.
Proof.
  intros H. unfold py_last_n.
  replace (length l - n)%nat with 0%nat by lia. done.
Qed.

Lemma py_last_n_length n l : length (py_last_n n l) = (length l `min` n)%nat.
Proof. unfold py_last_n. rewrite length_drop. lia. Qed.

Lemma py_last_n_suffix n l : py_last_n n l `suffix_of` l.
Proof. apply suffix_drop. Qed.

Lemma py_last_n_app n l k :
  py_last_n n (py_last_n n l ++ k) = py_last_n n (l ++ k).
Proof.
  destruct (decide (length l ≤ n)%nat) as [Hle | Hgt].
  { by rewrite (py_last_n_short n l). }
  unfold py_last_n. rewrite !length_app, length_drop.
  replace (length l - (length l - n) + length k - n)%nat
    with (length k) by lia.
  replace (length l + length k - n)%nat
    with ((length l - n) + length k)%nat by lia.
  rewrite <- drop_drop. f_equal. rewrite drop_app_le by lia. done.
Qed.

Lemma py_last_n_snoc n l x :
  (0 < n)%nat → last (py_last_n n (l ++ [x])) = Some x.
Proof.
  intros Hn. unfold py_last_n. rewrite length_app. simpl.
  rewrite drop_app_le by lia. apply last_snoc.
Qed.
End last_n.

Lemma enqueue_session_queue store sid cmd :
  session_queue (_enqueue_session_cmd store sid cmd) sid
  = py_last_n 200 (session_queue store sid ++ [cmd]).
Proof.
  unfold session_queue, _enqueue_session_cmd. simpl.
  rewrite lookup_insert_eq. simpl. case_bool_decide as Hlen; [done |].
  symmetry. apply py_last_n_short. lia.
Qed.

Lemma enqueue_session_other store sid sid' cmd :
  sid ≠ sid' →
  pending_by_session (_enqueue_session_cmd store sid cmd) !! sid'
  = pending_by_session store !! sid'.
Proof. intros Hne. unfold _enqueue_session_cmd. simpl. by rewrite lookup_insert_ne. Qed.

Lemma enqueue_all_queue cs : ∀ store sid,
  (length (session_queue store sid) ≤ 200)%nat →
  session_queue (enqueue_all store sid cs) sid
  = py_last_n 200 (session_queue store sid ++ cs).
Proof.
  unfold enqueue_all.
  induction cs as [| c cs IH]; intros store sid Hlen; simpl.
  - rewrite app_nil_r. symmetry. by apply py_last_n_short.
  - rewrite IH.
    + rewrite enqueue_session_queue, py_last_n_app. by rewrite <- app_assoc.
    + rewrite enqueue_session_queue, py_last_n_length. lia.
Qed.

(** C4. Enqueueing into a session queue appends at the back and, when the
    length exceeds 200, evicts from the front until 200 are left: the new
    queue is the suffix of [old ++ [cmd]] of length [min 200 (|old| + 1)],
    it ends with [cmd], and every other queue is untouched.  In particular
    205 enqueues into an empty queue leave the 200 most recent commands,
    oldest first. *)
Theorem C4_enqueue_bounded_fifo (store : Store) (sid : string) (cmd : Command) :
  let old := session_queue store sid in
  let new := session_queue (_enqueue_session_cmd store sid cmd) sid in
  new = drop (length (old ++ [cmd]) - 200) (old ++ [cmd]) ∧
  new `suffix_of` (old ++ [cmd]) ∧
  length new = (200 `min` (length old + 1))%nat ∧
  last new = Some cmd ∧
  (∀ sid', sid ≠ sid' →
     pending_by_session (_enqueue_session_cmd store sid cmd) !! sid'
     = pending_by_session store !! sid') ∧
  (∀ cs : list Command,
     old = [] → length cs = 205%nat →
     session_queue (enqueue_all store sid cs) sid = drop 5 cs).
Proof.
  intros old new. subst old new. rewrite enqueue_session_queue.
  split_and!.
  - done.
  - apply py_last_n_suffix.
  - rewrite py_last_n_length, length_app. change (length [cmd]) with 1%nat. lia.
  - apply py_last_n_snoc. lia.
  - intros sid' Hne. by apply enqueue_session_other.
  - intros cs Hold Hcs. rewrite enqueue_all_queue by (rewrite Hold; simpl; lia).
    rewrite Hold. simpl. unfold py_last_n. by rewrite Hcs.
Qed.

Lemma C4_enqueue_205_witness :
  session_queue (enqueue_all empty_store "sess_1" (numbered_notify <$> seq 0 205))
    "sess_1"
  = numbered_notify <$> seq 5 200.
Proof.
  destruct (C4_enqueue_bounded_fifo empty_store "sess_1" (numbered_notify 0))
    as (_ & _ & _ & _ & _ & H).
  rewrite H; reflexivity.
Defined.

(** ** Reconciliation *)

Lemma sessions_by_id_snoc l s :
  sessions_by_id (l ++ [s]) = <[s_id s := s]> (sessions_by_id l).
Proof. unfold sessions_by_id. by rewrite foldl_app. Qed.

Lemma sessions_by_id_None l sid :
  sessions_by_id l !! sid = None ↔ sid ∉ s_id <$> l.
Proof.
  induction l as [| s l Hl] using rev_ind.
  - split; [set_solver | done].
  - rewrite sessions_by_id_snoc, fmap_app, lookup_insert_None. set_solver.
Qed.

Lemma sessions_by_id_Some l sid sess :
  sessions_by_id l !! sid = Some sess → sess ∈ l ∧ s_id sess = sid.
Proof.
  induction l as [| s l Hl] using rev_ind.
  - done.
  - rewrite sessions_by_id_snoc, lookup_insert_Some.
    intros [[<- <-] | [_ H]]; [set_solver |].
    apply Hl in H. set_solver.
Qed.

Lemma sessions_by_id_NoDup l s :
  NoDup (s_id <$> l) → s ∈ l → sessions_by_id l !! s_id s = Some s.
Proof.
  induction l as [| x l Hl] using rev_ind; intros Hnd Hin.
  - by apply elem_of_nil in Hin.
  - rewrite sessions_by_id_snoc. rewrite fmap_app in Hnd.
    apply NoDup_app in Hnd as (Hnd & Hdisj & _).
    apply elem_of_app in Hin as [Hin | Hin].
    + rewrite lookup_insert_ne; [by apply Hl |].
      intros Heq. apply (Hdisj (s_id s)); [| rewrite <- Heq; set_solver].
      by apply list_elem_of_fmap_2.
    + apply list_elem_of_singleton in Hin as ->. apply lookup_insert_eq.
Qed.

(** What the loop of the reconciler leaves in the set, id by id. *)
Lemma reconcile_fold now old (m : gmap string Session) sid :
  sid ∈ map_fold (reconcile_step now) old m ↔
  match m !! sid with
  | Some sess =>
      _session_is_scheduled_active now sess = true ∨
      (s_manual sess = true ∧ sid ∈ old)
  | None => sid ∈ old
  end.
Proof.
  revert sid.
  apply (map_fold_weak_ind (λ r (m : gmap string Session), ∀ sid,
    sid ∈ r ↔
    match m !! sid with
    | Some sess =>
        _session_is_scheduled_active now sess = true ∨
        (s_manual sess = true ∧ sid ∈ old)
    | None => sid ∈ old
    end)); cbn beta.
  - intros sid. by rewrite lookup_empty.
  - intros i sess m' r Hfresh Hr sid. unfold reconcile_step.
    destruct (decide (i = sid)) as [-> | Hne].
    + rewrite lookup_insert_eq. specialize (Hr sid). rewrite Hfresh in Hr.
      destruct (_session_is_scheduled_active now sess); [set_solver |].
      case_bool_decide as Hin; destruct (s_manual sess); simpl;
        set_solver.
    + rewrite lookup_insert_ne by done. rewrite <- Hr.
      destruct (_session_is_scheduled_active now sess); [set_solver |].
      destruct (bool_decide (i ∈ r) && negb (s_manual sess)); set_solver.
Qed.

Lemma reconcile_idempotent now store :
  _reconcile_active_sessions now (_reconcile_active_sessions now store)
  = _reconcile_active_sessions now store.
Proof.
  unfold _reconcile_active_sessions, _ensure_sessions_students, ensure_keys.
  simpl. unfold set_active_sessions. simpl. f_equal.
  apply set_eq. intros sid. rewrite reconcile_fold.
  destruct (sessions_by_id (sessions store) !! sid) as [sess |] eqn:Hsess;
    rewrite reconcile_fold, Hsess; naive_solver.
Qed.

Lemma reconcile_active now store sid :
  sid ∈ active_sessions (_reconcile_active_sessions now store) ↔
  match sessions_by_id (sessions store) !! sid with
  | Some sess =>
      _session_is_scheduled_active now sess = true ∨
      (s_manual sess = true ∧ sid ∈ active_sessions store)
  | None => sid ∈ active_sessions store
  end.
Proof. apply reconcile_fold. Qed.

(** C1 (amended). After one reconciliation pass the id of a session of the
    store is in the active set iff the session is schedule-active at the
    current instant, or its manual flag is true and the id was in the
    active set before the pass.  The session read under an id is the last
    one the store lists with it; with distinct ids that is every session of
    the store.  An id with no session stays as it was, and the pass changes
    nothing but the active set. *)
Theorem C1_reconcile_membership (now : Instant) (store : Store) :
  let after := _reconcile_active_sessions now store in
  (∀ sid sess,
     sessions_by_id (sessions store) !! sid = Some sess →
     (sid ∈ active_sessions after ↔
      _session_is_scheduled_active now sess = true ∨
      (s_manual sess = true ∧ sid ∈ active_sessions store))) ∧
  (NoDup (s_id <$> sessions store) →
   ∀ sess, sess ∈ sessions store →
     (s_id sess ∈ active_sessions after ↔
      _session_is_scheduled_active now sess = true ∨
      (s_manual sess = true ∧ s_id sess ∈ active_sessions store))) ∧
  (∀ sid, sid ∉ s_id <$> sessions store →
     (sid ∈ active_sessions after ↔ sid ∈ active_sessions store)) ∧
  after = set_active_sessions (active_sessions after) store.
Proof.
  intros after. subst after. split_and!.
  - intros sid sess Hsess. by rewrite reconcile_active, Hsess.
  - intros Hnd sess Hin.
    by rewrite reconcile_active, (sessions_by_id_NoDup _ _ Hnd Hin).
  - intros sid Hsid. apply sessions_by_id_None in Hsid.
    by rewrite reconcile_active, Hsid.
  - done.
Qed.

Lemma C1_reconcile_witness :
  "sess_1" ∈ active_sessions
               (_reconcile_active_sessions monday_noon (manual_store {["sess_1"]})).
Proof.
  destruct (C1_reconcile_membership monday_noon (manual_store {["sess_1"]}))
    as (_ & H & _).
  apply (H (NoDup_singleton _) manual_session (list_elem_of_here _ _)).
  right. split; [reflexivity |]. simpl. by apply elem_of_singleton_2.
Defined.

Lemma manual_store_lookup active :
  sessions_by_id (sessions (manual_store active)) !! "sess_1"
  = Some manual_session.
Proof. reflexivity. Qed.

Lemma manual_session_kept :
  "sess_1" ∈ active_sessions
               (_reconcile_active_sessions monday_noon (manual_store {["sess_1"]})).
Proof.
  rewrite reconcile_active, manual_store_lookup. right.
  split; [reflexivity |]. simpl. by apply elem_of_singleton_2.
Qed.

Lemma manual_session_left_out :
  "sess_1" ∉ active_sessions
               (_reconcile_active_sessions monday_noon (manual_store ∅)).
Proof.
  rewrite reconcile_active, manual_store_lookup.
  intros [H | [_ H]]; [discriminate H | by apply not_elem_of_empty in H].
Qed.

(** C1 as stated fails: a session whose manual flag is true but whose id
    was not in the persisted active set is left out by the pass, and two
    stores that differ only in the persisted set reconcile differently. *)
Lemma C1_counterexample :
  manual_session ∈ sessions (manual_store ∅) ∧
  ¬ ("sess_1" ∈ active_sessions
                  (_reconcile_active_sessions monday_noon (manual_store ∅)) ↔
     _session_is_scheduled_active monday_noon manual_session = true ∨
     s_manual manual_session = true) ∧
  active_sessions (_reconcile_active_sessions monday_noon (manual_store ∅))
  ≠ active_sessions
      (_reconcile_active_sessions monday_noon (manual_store {["sess_1"]})).
Proof.
  split_and!.
  - apply list_elem_of_here.
  - intros [_ H]. apply manual_session_left_out, H. by right.
  - intros Heq. apply manual_session_left_out. rewrite Heq.
    apply manual_session_kept.
Qed.

(** ** Sending to a session that is not active *)

(** C2 (amended). Every send operation that looks at the session it is
    given refuses a session outside the freshly reconciled active set and
    leaves the store on disk, hence every per-session and per-student
    queue, and its own record as they were: [/api/command], [/api/notify],
    [POST /api/commands/<student>], [/api/attention_check], [/api/poll],
    [/api/exam], [/api/student/open_tabs], and [/api/open_tabs] when the
    request names no student.  The failure is the 409 reply "session not
    active" once the caller is a teacher or admin and the fields that the
    handler validates before the session are in order; otherwise it is the
    failure of that earlier check. *)
Theorem C2_send_to_inactive_rejected (now : Instant) (u : option User)
    (disk : Store) (sid : string) :
  sid ∉ (_active_session_ids now disk).1 →
  (∀ b, command_sid b = Some sid →
     let '(resp, disk') := api_command now u disk b in
     disk' = disk ∧ ok resp = false ∧
     (is_staff u = true → resp = reply_error 409 "session not active")) ∧
  (∀ b, notify_sid b = Some sid →
     let '(resp, disk') := api_notify now u disk b in
     disk' = disk ∧ ok resp = false ∧
     (is_staff u = true → resp = reply_error 409 "session not active")) ∧
  (∀ student b, truthy (py_or (p_session b) (p_session_id b)) = Some sid →
     let '(resp, disk') := api_commands_post now u disk student b in
     disk' = disk ∧ ok resp = false ∧
     (is_staff u = true → resp = reply_error 409 "session not active")) ∧
  (∀ check b, truthy (py_or (at_session b) (at_session_id b)) = Some sid →
     let '(resp, disk', check') := api_attention_check now u disk check b in
     disk' = disk ∧ check' = check ∧ ok resp = false ∧
     (is_staff u = true →
      is_Some (json_int (default (JNum 30) (at_timeout b))) →
      resp = reply_error 409 "session not active")) ∧
  (∀ polls b, truthy (py_or (q_session b) (q_session_id b)) = Some sid →
     let '(resp, disk', polls', _) := api_poll now u disk polls b in
     disk' = disk ∧ polls' = polls ∧ ok resp = false ∧
     (is_staff u = true →
      py_strip (default "" (q_question b)) ≠ "" →
      (∃ o opts, poll_options (default [] (q_options b)) = Some (o :: opts)) →
      resp = reply_error 409 "session not active")) ∧
  (∀ exam_state b, truthy (py_or (x_session b) (x_session_id b)) = Some sid →
     let '(resp, disk', exam_state') := api_exam now u disk exam_state b in
     disk' = disk ∧ exam_state' = exam_state ∧ ok resp = false ∧
     (is_staff u = true → resp = reply_error 409 "session not active")) ∧
  (∀ b, truthy (py_or (t_session b) (t_session_id b)) = Some sid →
     let '(resp, disk') := api_student_open_tabs now u disk b in
     disk' = disk ∧ ok resp = false ∧
     (is_staff u = true →
      py_strip (default "" (t_student b)) ≠ "" →
      json_truthy (default (JList []) (t_urls b)) = true →
      resp = reply_error 409 "session not active")) ∧
  (∀ b, truthy (py_or (t_session b) (t_session_id b)) = Some sid →
     py_strip (default "" (t_student b)) = "" →
     let '(resp, disk') := api_open_tabs_alias now disk b in
     disk' = disk ∧ ok resp = false ∧
     (json_truthy (default (JList []) (t_urls b)) = true →
      resp = reply_error 409 "session not active")).
Proof.
  intros Hout. split_and!.
  - intros b Hsid. unfold api_command. unfold command_sid in Hsid.
    destruct (is_staff u); simpl; [| done].
    rewrite Hsid. simpl in Hout |- *.
    rewrite bool_decide_eq_false_2 by done. done.
  - intros b Hsid. unfold api_notify. unfold notify_sid in Hsid.
    destruct (is_staff u); simpl; [| done].
    rewrite Hsid. simpl in Hout |- *.
    rewrite bool_decide_eq_false_2 by done. done.
  - intros student b Hsid. unfold api_commands_post.
    destruct (is_staff u); simpl; [| done].
    rewrite Hsid. simpl in Hout |- *.
    rewrite bool_decide_eq_false_2 by done. done.
  - intros check b Hsid. unfold api_attention_check.
    destruct (is_staff u); cbn [negb]; [| done].
    destruct (json_int _) as [timeout |].
    + rewrite Hsid. simpl in Hout |- *.
      rewrite bool_decide_eq_false_2 by done. done.
    + split_and!; try done; by intros _ [? ?].
  - intros polls b Hsid. unfold api_poll.
    destruct (is_staff u); cbn [negb]; [| done].
    destruct (poll_options _) as [opts |].
    + case_bool_decide as Hq; cbn [orb].
      { split_and!; done. }
      case_bool_decide as Hopts.
      { split_and!; try done; intros _ _ (o & opts' & [= ->]); done. }
      rewrite Hsid. simpl in Hout |- *.
      rewrite bool_decide_eq_false_2 by done. done.
    + split_and!; try done; by intros _ _ (? & ? & ?).
  - intros exam_state b Hsid. unfold api_exam.
    destruct (is_staff u); cbn [negb]; [| done].
    rewrite Hsid. simpl in Hout |- *.
    rewrite bool_decide_eq_false_2 by done. done.
  - intros b Hsid. unfold api_student_open_tabs.
    destruct (is_staff u); cbn [negb]; [| done].
    case_bool_decide as Hstudent; cbn [orb]; [done |].
    destruct (json_truthy _); cbn [negb]; [| done].
    rewrite Hsid. simpl in Hout |- *.
    rewrite bool_decide_eq_false_2 by done. done.
  - intros b Hsid Hstudent. unfold api_open_tabs_alias.
    destruct (json_truthy _); cbn [negb]; [| done].
    rewrite Hstudent, bool_decide_eq_true_2 by done. cbn [negb].
    rewrite Hsid. simpl in Hout |- *.
    rewrite bool_decide_eq_false_2 by done. done.
Qed.

Lemma C2_send_after_window_witness :
  api_command (at_offset 700) teacher (oneoff_store {["sess_1"]}) send_hi
  = (reply_error 409 "session not active", oneoff_store {["sess_1"]}).
Proof.
  assert (Hout : "sess_1" ∉
    (_active_session_ids (at_offset 700) (oneoff_store {["sess_1"]})).1).
  { apply (bool_decide_unpack _). vm_compute. exact I. }
  destruct (C2_send_to_inactive_rejected (at_offset 700) teacher
              (oneoff_store {["sess_1"]}) "sess_1" Hout) as [H _].
  specialize (H send_hi eq_refl).
  destruct (api_command _ _ _ _) as [resp disk'].
  destruct H as (-> & _ & ->); reflexivity.
Defined.
(** C2 as stated fails: [/api/open_tabs] with a student never looks at
    the session.  At T+700s, when [sess_1] is no longer active, the request
    that names [sess_1] and the student alice is answered ok, and its
    command is in alice's one-shot queue on disk, which was empty.
    [/api/student/tabs_action] reads no session from its body at all: at
    the same instant, with no session active, it queues its command for
    alice whatever the body holds besides the student and the action. *)
Lemma C2_counterexample :
  let disk := oneoff_store {["sess_1"]} in
  let r := api_open_tabs_alias (at_offset 700) disk tabs_for_alice in
  let r' := api_student_tabs_action (at_offset 700) teacher disk close_alice in
  truthy (py_or (t_session tabs_for_alice) (t_session_id tabs_for_alice))
  = Some "sess_1" ∧
  ("sess_1" ∉ (_active_session_ids (at_offset 700) disk).1) ∧
  r.1 = reply_ok ∧
  student_queue disk "alice" = [] ∧
  student_queue r.2 "alice"
  = [open_tabs_command (at_offset 700) (JList [JStr "https://a.com/"]) None] ∧
  (_active_session_ids (at_offset 700) disk).1 = ∅ ∧
  r'.1 = reply_ok ∧
  student_queue r'.2 "alice"
  = [{| cmd_type := Some "close_tabs"; cmd_session_id := None;
        cmd_ts := Some (unix_seconds (at_offset 700)); cmd_fields := [] |}].
Proof.
  cbv zeta. split_and!.
  - reflexivity.
  - apply (bool_decide_unpack _). vm_compute. exact I.
  - by vm_compute.
  - by vm_compute.
  - by vm_compute.
  - by vm_compute.
  - by vm_compute.
  - by vm_compute.
Qed.

(** Inside the window the same handlers queue their command for the
    session and update their own record. *)
Example class_sends_inside_window :
  let disk := oneoff_store {["sess_1"]} in
  let now := at_offset 10 in
  let exam :=
    api_exam now teacher disk None
      {| x_action := Some " start "; x_url := Some "https://exam.example/";
         x_session := Some "sess_1"; x_session_id := None |} in
  let poll :=
    api_poll now teacher disk ∅
      {| q_question := Some "Ready?";
         q_options := Some [JStr " yes "; JStr " "; JNull; JStr "no"];
         q_session := None; q_session_id := Some "sess_1" |} in
  let check :=
    api_attention_check now teacher disk None
      {| at_title := None; at_timeout := Some (JStr " 45 ");
         at_session := Some "sess_1"; at_session_id := None |} in
  exam.1.1 = reply_ok ∧
  cmd_type <$> session_queue exam.1.2 "sess_1" = [Some "exam_start"] ∧
  exam.2 = Some [("active", JBool true); ("url", JStr "https://exam.example/")] ∧
  poll.1.1.1 = reply_ok ∧
  cmd_fields <$> session_queue poll.1.1.2 "sess_1"
  = [[("id", JStr "poll_1762171210000"); ("question", JStr "Ready?");
      ("options", JList [JStr "yes"; JStr "no"])]] ∧
  check.1.1 = reply_ok ∧
  ac_timeout <$> check.2 = Some 45 ∧
  (api_attention_check now teacher disk None
     {| at_title := None; at_timeout := Some JNull;
        at_session := Some "sess_1"; at_session_id := None |}).1
  = (internal_error, disk).
Proof. by vm_compute. Qed.

(** ** Effective policy *)

Lemma first_exam_url_cons s l :
  first_exam_url (s :: l)
  = if decide (sets_exam_url (ctl s)) then examUrl (ctl s)
    else first_exam_url l.
Proof.
  unfold first_exam_url. simpl. case_decide; [done |].
  by destruct (list_find _ l).
Qed.

Lemma allow_fold (xs : list string) (a : gset string) u :
  u ∈ foldl (λ a u, {[u]} ∪ a) a xs ↔ u ∈ a ∨ u ∈ xs.
Proof.
  revert a. induction xs as [| x xs Hxs]; intros a; simpl.
  - set_solver.
  - rewrite Hxs. set_solver.
Qed.

Lemma merge_fold l : ∀ m a,
  let r := foldl merge_session (m, a) l in
  e_focusMode r.1 = e_focusMode m || existsb (λ s, focusMode (ctl s)) l ∧
  e_examMode r.1 = e_examMode m || existsb (λ s, examMode (ctl s)) l ∧
  e_examUrl r.1
  = (if decide (e_examUrl m = "") then first_exam_url l else e_examUrl m) ∧
  e_session_ids r.1 = e_session_ids m ∧
  (∀ u, u ∈ r.2 ↔ u ∈ a ∨ ∃ s, s ∈ l ∧ u ∈ allowlist (ctl s)).
Proof.
  induction l as [| s l Hl]; intros m a.
  - simpl. rewrite !orb_false_r. split_and!; try done.
    + by case_decide.
    + intros u. split; [by left |]. intros [? | (s & Hs & _)]; [done |].
      by apply elem_of_nil in Hs.
  - cbv zeta. cbn [foldl existsb].
    destruct (merge_session (m, a) s) as [m1 a1] eqn:E.
    unfold merge_session in E. fold (ctl s) in E.
    rewrite first_exam_url_cons.
    destruct (ctl s) as [f al e url] eqn:Hc. unfold sets_exam_url at 1.
    cbn [focusMode examMode examUrl allowlist] in *.
    assert (Hallow : ∀ u, u ∈ a1 ↔ u ∈ a ∨ u ∈ al).
    { intros u. injection E as _ <-. apply allow_fold. }
    assert (Hfocus : e_focusMode m1 = e_focusMode m || f).
    { injection E as <- _.
      destruct f, e; simpl; by rewrite ?orb_true_r, ?orb_false_r. }
    assert (Hexam : e_examMode m1 = e_examMode m || e).
    { injection E as <- _.
      destruct f, e; simpl; by rewrite ?orb_true_r, ?orb_false_r. }
    assert (Hurl : e_examUrl m1
                   = if decide (e_examUrl m = "" ∧ e = true ∧ url ≠ "")
                     then url else e_examUrl m).
    { injection E as <- _.
      destruct f, e; simpl;
        repeat (case_decide || case_bool_decide); simpl in *;
        try done; naive_solver. }
    assert (Hids : e_session_ids m1 = e_session_ids m).
    { injection E as <- _. by destruct f, e. }
    clear E. specialize (Hl m1 a1). cbv zeta in Hl |- *.
    destruct Hl as (Hf & He & Hu & Hi & Ha).
    rewrite Hf, He, Hu, Hi, Hfocus, Hexam, Hurl, Hids.
    clear Hf He Hu Hi. split_and!.
    + by rewrite orb_assoc.
    + by rewrite orb_assoc.
    + repeat case_decide; try done; naive_solver.
    + done.
    + intros u. rewrite Ha, Hallow. split.
      * intros [[? | Hu'] | (s' & Hs' & Hu')]; [by left | |].
        -- right. exists s. split; [apply list_elem_of_here | by rewrite Hc].
        -- right. exists s'. split; [by apply list_elem_of_further | done].
      * intros [? | (s' & Hs' & Hu')]; [by left; left |].
        apply elem_of_cons in Hs' as [-> | Hs'].
        -- rewrite Hc in Hu'. by left; right.
        -- right. eauto.
Qed.

Lemma existsb_elem_of {A} (f : A → bool) (l : list A) :
  existsb f l = true ↔ ∃ x, x ∈ l ∧ f x = true.
Proof.
  rewrite existsb_exists. split; intros (x & Hx & Hf); exists x;
    by rewrite ?list_elem_of_In in *.
Qed.

Lemma py_sorted_elem_of (allow : gset string) u : u ∈ py_sorted allow ↔ u ∈ allow.
Proof.
  unfold py_sorted. by rewrite merge_sort_Permutation, elem_of_elements.
Qed.

Lemma first_exam_url_found l i s :
  l !! i = Some s → sets_exam_url (ctl s) →
  (∀ j s', l !! j = Some s' → (j < i)%nat → ¬ sets_exam_url (ctl s')) →
  first_exam_url l = examUrl (ctl s).
Proof.
  intros Hi Hs Hbefore. unfold first_exam_url.
  assert (list_find (λ s, sets_exam_url (ctl s)) l = Some (i, s)) as ->; [| done].
  apply list_find_Some. eauto.
Qed.

Lemma first_exam_url_none l :
  (∀ s, s ∈ l → ¬ sets_exam_url (ctl s)) → first_exam_url l = "".
Proof.
  intros Hnone. unfold first_exam_url.
  assert (list_find (λ s, sets_exam_url (ctl s)) l = None) as ->; [| done].
  apply list_find_None, Forall_forall. auto.
Qed.

Lemma effective_state_fold now store student :
  _effective_state_for_student now store student
  = let sel := selected now store student in
    let r :=
      foldl merge_session
        ({| e_focusMode := false; e_allowlist := []; e_examMode := false;
            e_examUrl := ""; e_session_ids := s_id <$> sel |}, ∅) sel in
    {| e_focusMode := e_focusMode r.1; e_allowlist := py_sorted r.2;
       e_examMode := e_examMode r.1; e_examUrl := e_examUrl r.1;
       e_session_ids := e_session_ids r.1 |}.
Proof.
  unfold _effective_state_for_student, selected, _ensure_sessions_students,
    ensure_keys. cbv zeta. by destruct (foldl merge_session _ _).
Qed.

(** C3 (amended). The effective policy of a student merges the sessions
    that enrol the student and are in the reconciled active set, in store
    order: focusMode and examMode are true iff some selected session has
    them true, the allowlist holds exactly the members of the selected
    allowlists (sorted, without repeats), and examUrl is the url of the
    first selected session that has examMode true and a non-empty url, the
    empty string when there is none. *)
Theorem C3_effective_policy (now : Instant) (store : Store) (student : string) :
  let sel := selected now store student in
  let e := _effective_state_for_student now store student in
  (∀ s, s ∈ sel ↔
        s ∈ sessions store ∧
        s_id s ∈ (_active_session_ids now store).1 ∧
        student ∈ s_students s) ∧
  (e_focusMode e = true ↔ ∃ s, s ∈ sel ∧ focusMode (ctl s) = true) ∧
  (e_examMode e = true ↔ ∃ s, s ∈ sel ∧ examMode (ctl s) = true) ∧
  (∀ u, u ∈ e_allowlist e ↔ ∃ s, s ∈ sel ∧ u ∈ allowlist (ctl s)) ∧
  NoDup (e_allowlist e) ∧ Sorted String.le (e_allowlist e) ∧
  e_examUrl e = first_exam_url sel ∧
  (∀ i s, sel !! i = Some s →
     examMode (ctl s) = true → examUrl (ctl s) ≠ "" →
     (∀ j s', sel !! j = Some s' → (j < i)%nat →
        ¬ (examMode (ctl s') = true ∧ examUrl (ctl s') ≠ "")) →
     e_examUrl e = examUrl (ctl s)) ∧
  ((∀ s, s ∈ sel → ¬ (examMode (ctl s) = true ∧ examUrl (ctl s) ≠ "")) →
   e_examUrl e = "") ∧
  e_session_ids e = s_id <$> sel.
Proof.
  intros sel e.
  assert (Hsel : ∀ s, s ∈ sel ↔
            s ∈ sessions store ∧
            s_id s ∈ (_active_session_ids now store).1 ∧
            student ∈ s_students s).
  { intros s. subst sel. unfold selected, relevant_sessions, enrolled.
    rewrite list_elem_of_filter, andb_true_iff, !bool_decide_eq_true.
    simpl. tauto. }
  subst e. rewrite effective_state_fold. cbv zeta. fold sel.
  pose proof (merge_fold sel
    {| e_focusMode := false; e_allowlist := []; e_examMode := false;
       e_examUrl := ""; e_session_ids := s_id <$> sel |} ∅) as Hm.
  cbv zeta in Hm. destruct (foldl merge_session _ sel) as [m allow].
  cbn [fst snd e_focusMode e_examMode e_examUrl e_session_ids] in Hm.
  destruct Hm as (Hf & He & Hu & Hi & Ha).
  cbn [fst snd e_focusMode e_examMode e_examUrl e_session_ids e_allowlist].
  assert (Hurl : e_examUrl m = first_exam_url sel) by (by rewrite Hu).
  split_and!.
  - done.
  - by rewrite Hf, orb_false_l, existsb_elem_of.
  - by rewrite He, orb_false_l, existsb_elem_of.
  - intros u. rewrite py_sorted_elem_of, Ha. set_solver.
  - unfold py_sorted. rewrite merge_sort_Permutation. apply NoDup_elements.
  - apply Sorted_merge_sort, _.
  - done.
  - intros i s Hs Hmode Hnonempty Hbefore. rewrite Hurl.
    by apply (first_exam_url_found sel i s).
  - intros Hnone. rewrite Hurl. by apply first_exam_url_none.
  - done.
Qed.

Lemma exam_store_selected :
  selected monday_noon exam_store "alice" = [prepared_session; exam_session].
Proof. vm_compute. reflexivity. Qed.

(** The composition example of the specification. *)
Example compose_focus_and_allowlist :
  let e := _effective_state_for_student monday_noon exam_store "alice" in
  e_focusMode e = true ∧ e_allowlist e = ["a.com"; "b.com"] ∧
  e_session_ids e = ["sess_1"; "sess_2"].
Proof. vm_compute. done. Qed.

Lemma C3_effective_policy_witness :
  e_examUrl (_effective_state_for_student monday_noon exam_store "alice")
  = "https://second.example/exam".
Proof.
  destruct (C3_effective_policy monday_noon exam_store "alice")
    as (_ & _ & _ & _ & _ & _ & _ & H & _).
  rewrite exam_store_selected in H.
  apply (H 1%nat exam_session); [reflexivity | reflexivity | discriminate |].
  intros j s' Hj Hlt [Hmode _].
  assert (j = 0%nat) as -> by lia. by injection Hj as <-.
Defined.

(** C3 as stated fails on the exam url: the first non-empty examUrl among
    the selected sessions belongs to a session whose examMode is off, and
    the composer passes over it. *)
Lemma C3_counterexample :
  let sel := selected monday_noon exam_store "alice" in
  head (filter (λ u, u ≠ "") ((λ s, examUrl (ctl s)) <$> sel))
  = Some "https://first.example/exam" ∧
  e_examUrl (_effective_state_for_student monday_noon exam_store "alice")
  ≠ "https://first.example/exam".
Proof.
  cbv zeta. rewrite exam_store_selected. split; [reflexivity |].
  by vm_compute.
Qed.

(** ** Polling: drains *)

Section filter_facts.
Context {A : Type} (P : A → Prop) `{!∀ x, Decision (P x)}.

Lemma filter_none (l : list A) : (∀ x, x ∈ l → ¬ P x) → filter P l = [].
Proof.
  induction l as [| x l Hl]; intros Hno; [done |].
  rewrite filter_cons_False by (apply Hno, list_elem_of_here).
  apply Hl. intros y Hy. by apply Hno, list_elem_of_further.
Qed.

Lemma filter_all (l : list A) : (∀ x, x ∈ l → P x) → filter P l = l.
Proof.
  induction l as [| x l Hl]; intros Hall; [done |].
  rewrite filter_cons_True by (apply Hall, list_elem_of_here).
  f_equal. apply Hl. intros y Hy. by apply Hall, list_elem_of_further.
Qed.
End filter_facts.

Lemma remaining_unstamped sid (full l : list Command) :
  l ⊆ full →
  filter (λ c, c ∉ filter (λ c, stamped_for sid c = true) full) l
  = filter (λ c, stamped_for sid c = false) l.
Proof.
  induction l as [| c l Hl]; intros Hsub; [done |].
  assert (Hc : c ∈ full) by (apply Hsub, list_elem_of_here).
  assert (Hrest : l ⊆ full).
  { intros x Hx. by apply Hsub, list_elem_of_further. }
  rewrite !filter_cons, Hl by done.
  destruct (stamped_for sid c) eqn:Hst.
  - rewrite decide_False, decide_False; [done | done |].
    intros Hnot. apply Hnot, list_elem_of_filter. done.
  - rewrite decide_True, decide_True; [done | done |].
    intros Hin%list_elem_of_filter. destruct Hin as [Hin _]. congruence.
Qed.

(** The queue a turn of the loop leaves under each id, and what it adds to
    the reply. *)
Lemma drain_session_step_spec out pbs sid :
  let '(out', pbs') := drain_session_step (out, pbs) sid in
  out' = out ++ filter (λ c, stamped_for sid c = true) (default [] (pbs !! sid)) ∧
  (∀ sid', default [] (pbs' !! sid')
           = if decide (sid' = sid)
             then filter (λ c, stamped_for sid c = false) (default [] (pbs !! sid))
             else default [] (pbs !! sid')).
Proof.
  unfold drain_session_step.
  destruct (default [] (pbs !! sid)) as [| c q] eqn:Hq.
  - split; [by rewrite app_nil_r |]. intros sid'. case_decide as Heq; [| done].
    by rewrite Heq, Hq.
  - split; [done |]. intros sid'. case_decide as Heq.
    + rewrite Heq, lookup_insert_eq. simpl. by apply remaining_unstamped.
    + by rewrite lookup_insert_ne.
Qed.

Lemma drain_sessions_spec sids : ∀ out pbs,
  let '(out', pbs') := foldl drain_session_step (out, pbs) sids in
  (∀ c, c ∈ out' ↔
        c ∈ out ∨
        ∃ sid, sid ∈ sids ∧ c ∈ default [] (pbs !! sid) ∧
               stamped_for sid c = true) ∧
  (∀ sid, default [] (pbs' !! sid)
          = if decide (sid ∈ sids)
            then filter (λ c, stamped_for sid c = false) (default [] (pbs !! sid))
            else default [] (pbs !! sid)).
Proof.
  induction sids as [| sid sids Hsids]; intros out pbs.
  - simpl. split.
    + intros c. split; [by left |]. intros [? | (sid & Hsid & _)]; [done |].
      by apply elem_of_nil in Hsid.
    + done.
  - cbn [foldl]. pose proof (drain_session_step_spec out pbs sid) as Hstep.
    destruct (drain_session_step (out, pbs) sid) as [out1 pbs1].
    destruct Hstep as [Hout1 Hpbs1]. specialize (Hsids out1 pbs1).
    destruct (foldl drain_session_step (out1, pbs1) sids) as [out' pbs'].
    destruct Hsids as [Hout' Hpbs']. split.
    + intros c. rewrite Hout', Hout1, elem_of_app, list_elem_of_filter. split.
      * intros [[? | [Hst Hc]] | (sid' & Hsid' & Hc & Hst)].
        -- by left.
        -- right. exists sid. split_and!; [apply list_elem_of_here | done..].
        -- right. exists sid'. rewrite Hpbs1 in Hc. case_decide as Heq.
           ++ apply list_elem_of_filter in Hc as [Hno _]. subst sid'. congruence.
           ++ split_and!; [by apply list_elem_of_further | done..].
      * intros [? | (sid' & Hsid' & Hc & Hst)]; [by left; left |].
        destruct (decide (sid' = sid)) as [-> | Hne]; [by left; right |].
        right. exists sid'. apply elem_of_cons in Hsid' as [? | Hsid']; [done |].
        rewrite Hpbs1, decide_False by done. done.
    + intros sid'. rewrite Hpbs', !Hpbs1.
      destruct (decide (sid' = sid)) as [-> | Hne].
      * rewrite (decide_True (P := sid ∈ sid :: sids)) by apply list_elem_of_here.
        case_decide; [| done]. rewrite list_filter_filter.
        apply list_filter_iff. intros c. tauto.
      * destruct (decide (sid' ∈ sids)) as [Hin | Hnin].
        -- by rewrite decide_True by (by apply list_elem_of_further).
        -- rewrite decide_False; [done |]. rewrite elem_of_cons. tauto.
Qed.

(** A turn of the loop over a queue that holds nothing stamped for its id
    changes neither the reply nor the queues. *)
Lemma drain_sessions_clean sids : ∀ out pbs,
  (∀ sid c, sid ∈ sids → c ∈ default [] (pbs !! sid) →
            stamped_for sid c = false) →
  foldl drain_session_step (out, pbs) sids = (out, pbs).
Proof.
  induction sids as [| sid sids Hsids]; intros out pbs Hclean; [done |].
  cbn [foldl].
  assert (drain_session_step (out, pbs) sid = (out, pbs)) as ->.
  { unfold drain_session_step.
    destruct (default [] (pbs !! sid)) as [| c q] eqn:Hq; [done |].
    assert (Hnone : filter (λ c, stamped_for sid c = true) (c :: q) = []).
    { apply filter_none. intros x Hx.
      rewrite (Hclean sid x); [done | apply list_elem_of_here |].
      by rewrite Hq. }
    rewrite Hnone, app_nil_r. f_equal.
    apply insert_id. destruct (pbs !! sid) as [q' |] eqn:Hl; [| done].
    simpl in Hq. subst q'. f_equal. symmetry.
    apply filter_all. intros x _. apply not_elem_of_nil. }
  apply Hsids. intros sid' c Hsid'. apply Hclean. by apply list_elem_of_further.
Qed.

Lemma student_active_sessions_spec now store student :
  _student_active_sessions now store student
  = (s_id <$> relevant_sessions (_reconcile_active_sessions now store) student,
     _reconcile_active_sessions now store).
Proof.
  unfold _student_active_sessions, _active_session_ids,
    _ensure_sessions_students, ensure_keys.
  by rewrite reconcile_idempotent.
Qed.

Lemma polled_sessions_elem_of now store student sid :
  sid ∈ polled_sessions now store student ↔
  ∃ s, s ∈ sessions store ∧ s_id s = sid ∧
       sid ∈ (_active_session_ids now store).1 ∧ student ∈ s_students s.
Proof.
  unfold polled_sessions. rewrite student_active_sessions_spec. simpl.
  rewrite list_elem_of_fmap. unfold relevant_sessions, enrolled.
  split.
  - intros (s & -> & Hs). apply list_elem_of_filter in Hs as [Hs Hin].
    apply andb_true_iff in Hs as [H1 H2].
    apply bool_decide_eq_true in H1, H2. eauto 6.
  - intros (s & Hin & <- & Hact & Hstu). exists s. split; [done |].
    apply list_elem_of_filter. split; [| done].
    apply andb_true_iff. by rewrite !bool_decide_eq_true.
Qed.

Lemma drain_per_student_spec d student :
  drain_per_student d student
  = (student_queue d student,
     match student_queue d student with
     | [] => d
     | _ :: _ =>
         set_pending_per_student (<[student := []]> (pending_per_student d)) d
     end).
Proof.
  unfold drain_per_student, student_queue.
  by destruct (default [] (pending_per_student d !! student)).
Qed.

Lemma drained_student_queue d student :
  student_queue (drain_per_student d student).2 student = [].
Proof.
  rewrite drain_per_student_spec. simpl.
  destruct (student_queue d student) eqn:Hq; [done |].
  unfold student_queue. simpl. by rewrite lookup_insert_eq.
Qed.

Lemma api_commands_get_spec now disk student :
  let d1 := (drain_per_student disk student).2 in
  let d2 := _reconcile_active_sessions now d1 in
  let r :=
    foldl drain_session_step
      (student_queue disk student, pending_by_session d2)
      (polled_sessions now d1 student) in
  api_commands_get now disk student = (r.1, set_pending_by_session r.2 d2).
Proof.
  cbv zeta. unfold api_commands_get, polled_sessions,
    _ensure_sessions_students, ensure_keys.
  rewrite drain_per_student_spec. cbn [fst snd].
  rewrite student_active_sessions_spec. cbn [fst snd].
  by destruct (foldl drain_session_step _ _).
Qed.

Lemma store_eta (d : Store) :
  {| sessions := sessions d; active_sessions := active_sessions d;
     pending_by_session := pending_by_session d;
     pending_per_student := pending_per_student d;
     presence := presence d; history := history d;
     screenshots := screenshots d;
     extension_enabled := extension_enabled d |} = d.
Proof. by destruct d. Qed.

(** A second poll at the same instant finds nothing and writes back the
    store it read. *)
Lemma api_commands_get_again now disk student :
  let after := (api_commands_get now disk student).2 in
  api_commands_get now after student = ([], after).
Proof.
  cbv zeta. rewrite (api_commands_get_spec now disk). cbv zeta. cbn [snd].
  set (d1 := (drain_per_student disk student).2).
  set (d2 := _reconcile_active_sessions now d1).
  set (sids := polled_sessions now d1 student).
  pose proof (drain_sessions_spec sids (student_queue disk student)
                (pending_by_session d2)) as Hfold.
  destruct (foldl drain_session_step _ sids) as [out pbs]. cbn [snd].
  destruct Hfold as [_ Hpbs].
  set (after := set_pending_by_session pbs d2).
  assert (Hq : student_queue after student = []).
  { subst after d2. unfold student_queue. simpl.
    apply (drained_student_queue disk student). }
  assert (Hrec : _reconcile_active_sessions now after = after).
  { subst after d2. unfold _reconcile_active_sessions at 1. simpl.
    change (map_fold _ _ _)
      with (active_sessions
              (_reconcile_active_sessions now (_reconcile_active_sessions now d1))).
    by rewrite reconcile_idempotent. }
  assert (Hsids : polled_sessions now after student = sids).
  { unfold polled_sessions. rewrite student_active_sessions_spec, Hrec.
    subst sids. unfold polled_sessions.
    by rewrite student_active_sessions_spec. }
  rewrite (api_commands_get_spec now after). cbv zeta.
  rewrite drain_per_student_spec, Hq. cbn [snd]. rewrite Hsids, Hrec.
  rewrite drain_sessions_clean.
  - cbn [fst snd]. by f_equal.
  - intros sid c Hsid Hc. subst after. simpl in Hc.
    rewrite Hpbs, decide_True in Hc by done.
    by apply list_elem_of_filter in Hc as [? _].
Qed.

Lemma drain_sessions_prefix sids : ∀ out pbs,
  ∃ more, (foldl drain_session_step (out, pbs) sids).1 = out ++ more.
Proof.
  induction sids as [| sid sids Hsids]; intros out pbs.
  - exists []. by rewrite app_nil_r.
  - cbn [foldl]. pose proof (drain_session_step_spec out pbs sid) as Hstep.
    destruct (drain_session_step (out, pbs) sid) as [out1 pbs1].
    destruct Hstep as [-> _].
    destruct (Hsids (out ++ filter (λ c, stamped_for sid c = true)
                              (default [] (pbs !! sid))) pbs1) as [more ->].
    rewrite <- app_assoc. eauto.
Qed.

Lemma polled_sessions_after_drain now disk student :
  polled_sessions now (drain_per_student disk student).2 student
  = polled_sessions now disk student.
Proof.
  unfold polled_sessions. rewrite !student_active_sessions_spec.
  rewrite drain_per_student_spec. cbn [fst snd].
  by destruct (student_queue disk student).
Qed.

(** C5. The per-student drain hands out the whole one-shot queue of the
    student and leaves it empty, touching nothing else in the store; a
    second drain returns the empty list and leaves the store as it is.
    The handler [GET /api/commands/<student>] starts its reply with that
    whole queue, and a second poll at the same instant returns the empty
    list and writes back the store it read. *)
Theorem C5_drain_per_student (now : Instant) (disk : Store) (student : string) :
  let d1 := (drain_per_student disk student).2 in
  let after := (api_commands_get now disk student).2 in
  (drain_per_student disk student).1 = student_queue disk student ∧
  student_queue d1 student = [] ∧
  delete student (pending_per_student d1)
  = delete student (pending_per_student disk) ∧
  set_pending_per_student (pending_per_student disk) d1 = disk ∧
  drain_per_student d1 student = ([], d1) ∧
  (∃ from_sessions,
     (api_commands_get now disk student).1
     = student_queue disk student ++ from_sessions) ∧
  student_queue after student = [] ∧
  api_commands_get now after student = ([], after).
Proof.
  intros d1 after. split_and!.
  - by rewrite drain_per_student_spec.
  - apply drained_student_queue.
  - subst d1. rewrite drain_per_student_spec. cbn [snd].
    destruct (student_queue disk student); [done |]. simpl.
    apply delete_insert_eq.
  - subst d1. rewrite drain_per_student_spec. cbn [snd].
    destruct (student_queue disk student);
      unfold set_pending_per_student; simpl; apply store_eta.
  - rewrite (drain_per_student_spec d1). subst d1.
    by rewrite (drained_student_queue disk student).
  - rewrite api_commands_get_spec. cbv zeta. cbn [fst]. apply drain_sessions_prefix.
  - subst after. rewrite api_commands_get_spec. cbv zeta. cbn [snd].
    apply (drained_student_queue disk student).
  - apply api_commands_get_again.
Qed.

(** The two-poll example of the specification. *)
Example poll_twice :
  let sent :=
    (api_command (at_offset 10) teacher (oneoff_store ∅)
       {| b_session := Some "sess_1"; b_session_id := None;
          b_command := Some notify_hi; b_student := Some "alice" |}).2 in
  let first := api_commands_get (at_offset 11) sent "alice" in
  let second := api_commands_get (at_offset 12) first.2 "alice" in
  first.1 = [stamp (at_offset 10) "sess_1" notify_hi;
             stamp (at_offset 10) "sess_1" notify_hi] ∧
  second = ([], first.2).
Proof. vm_compute. done. Qed.

(** ** Stamps that do not match the queue *)

(** C6 (amended). A command in a session queue whose stamp, as [str]
    renders it, differs from the id of the queue is never handed out from
    that queue: a poll delivers the student's one-shot commands and, from
    each queue of an active session enrolling the student, the commands
    stamped with that queue's id, nothing else.  Such a command is not
    removed either: the poll removes the delivered commands only, so every
    command whose stamp differs from its queue's id is still in that queue
    afterwards. *)
Theorem C6_mismatched_stamp_kept (now : Instant) (disk : Store)
    (student : string) :
  let polled := polled_sessions now disk student in
  let out := (api_commands_get now disk student).1 in
  let after := (api_commands_get now disk student).2 in
  (∀ c, c ∈ out ↔
        c ∈ student_queue disk student ∨
        ∃ sid, sid ∈ polled ∧ c ∈ session_queue disk sid ∧
               py_str (cmd_session_id c) = sid) ∧
  (∀ sid, session_queue after sid
          = if decide (sid ∈ polled)
            then filter (λ c, stamped_for sid c = false) (session_queue disk sid)
            else session_queue disk sid) ∧
  (∀ sid c, c ∈ session_queue disk sid →
            py_str (cmd_session_id c) ≠ sid →
            c ∈ session_queue after sid).
Proof.
  intros polled out after.
  assert (Hqueues : ∀ sid, session_queue after sid
            = if decide (sid ∈ polled)
              then filter (λ c, stamped_for sid c = false) (session_queue disk sid)
              else session_queue disk sid).
  { intros sid. subst after polled. rewrite api_commands_get_spec. cbv zeta.
    cbn [snd]. rewrite polled_sessions_after_drain.
    pose proof (drain_sessions_spec (polled_sessions now disk student)
      (student_queue disk student)
      (pending_by_session
         (_reconcile_active_sessions now (drain_per_student disk student).2)))
      as Hfold.
    destruct (foldl drain_session_step _ _) as [o pbs]. destruct Hfold as [_ Hpbs].
    unfold session_queue. cbn [snd set_pending_by_session pending_by_session].
    rewrite Hpbs. rewrite drain_per_student_spec. cbn [snd].
    by destruct (student_queue disk student). }
  split_and!.
  - intros c. subst out polled. rewrite api_commands_get_spec. cbv zeta.
    cbn [fst]. rewrite polled_sessions_after_drain.
    pose proof (drain_sessions_spec (polled_sessions now disk student)
      (student_queue disk student)
      (pending_by_session
         (_reconcile_active_sessions now (drain_per_student disk student).2)))
      as Hfold.
    destruct (foldl drain_session_step _ _) as [o pbs]. destruct Hfold as [Hout _].
    cbn [fst]. rewrite Hout.
    assert (Hsame : pending_by_session
              (_reconcile_active_sessions now (drain_per_student disk student).2)
            = pending_by_session disk).
    { rewrite drain_per_student_spec. cbn [snd].
      by destruct (student_queue disk student). }
    rewrite Hsame. unfold session_queue, stamped_for.
    by setoid_rewrite bool_decide_eq_true.
  - done.
  - intros sid c Hc Hne. rewrite Hqueues. case_decide; [| done].
    apply list_elem_of_filter. split; [| done].
    unfold stamped_for. by apply bool_decide_eq_false.
Qed.

Lemma C6_mismatched_stamp_witness :
  stray_command ∈
    session_queue (api_commands_get monday_noon stray_store "alice").2 "sess_1".
Proof.
  destruct (C6_mismatched_stamp_kept monday_noon stray_store "alice")
    as (_ & _ & H).
  apply H; [apply list_elem_of_here | discriminate].
Defined.

(** C6 as stated fails on the removal: the command stamped for [sess_2]
    sits in the queue of [sess_1]; [alice], enrolled in the active
    [sess_1], polls; nothing is delivered and the command is still in the
    queue. *)
Lemma C6_counterexample :
  "sess_1" ∈ polled_sessions monday_noon stray_store "alice" ∧
  session_queue stray_store "sess_1" = [stray_command] ∧
  cmd_session_id stray_command ≠ Some "sess_1" ∧
  (api_commands_get monday_noon stray_store "alice").1 = [] ∧
  session_queue (api_commands_get monday_noon stray_store "alice").2 "sess_1"
  = [stray_command].
Proof.
  split_and!; [| reflexivity | discriminate | by vm_compute | by vm_compute].
  assert (polled_sessions monday_noon stray_store "alice" = ["sess_1"]) as ->
    by (by vm_compute).
  apply list_elem_of_here.
Qed.

(** ** Texts *)

(** [str.strip] removes the blanks of Unicode, [int] skips those outside
    ASCII and the six of C, and reads every decimal digit. *)
Example text_primitives :
  let nbsp := 0xA0%N in
  py_strip (utf8_encode [nbsp; 0x3000]%N) = "" ∧
  py_strip (utf8_encode [nbsp; 0x62; 0x6F; 0x62; 0x1C]%N) = "bob" ∧
  py_lower (utf8_encode [0xC9; 0x43; 0x4F; 0x4C; 0x45]%N)
  = utf8_encode [0xE9; 0x63; 0x6F; 0x6C; 0x65]%N ∧
  py_lower (utf8_encode [0x130]%N) = utf8_encode [0x69; 0x307]%N ∧
  py_lower (utf8_encode [0x39F; 0x394; 0x39F; 0x3A3; 0x20; 0x3A3]%N)
  = utf8_encode [0x3BF; 0x3B4; 0x3BF; 0x3C2; 0x20; 0x3C3]%N ∧
  py_int (utf8_encode [0x1C; 0x35]%N) = None ∧
  py_int (utf8_encode [nbsp; 0x35; 0x0B]%N) = Some 5 ∧
  py_int (utf8_encode [0x2D; 0x663; 0x5F; 0xFF14]%N) = Some (-34) ∧
  py_int "1__0" = None ∧
  py_prefix 2 (utf8_encode [0xC9; 0x3A3; 0x41]%N) = utf8_encode [0xC9; 0x3A3]%N.
Proof. by vm_compute. Qed.

(** ** Weekly schedule entries *)

Lemma dt_le_day_us a b :
  valid_clock a → valid_clock b → dt_le a b = true ↔ day_us a ≤ day_us b.
Proof.
  destruct a as [[[h1 m1] s1] u1], b as [[[h2 m2] s2] u2].
  unfold valid_clock, dt_le, day_us. intros Ha Hb.
  repeat (rewrite orb_true_iff || rewrite andb_true_iff).
  rewrite !Z.ltb_lt, !Z.eqb_eq, Z.leb_le. lia.
Qed.

Lemma dt_le_trans a b c : dt_le a b = true → dt_le b c = true → dt_le a c = true.
Proof.
  destruct a as [[[h1 m1] s1] u1], b as [[[h2 m2] s2] u2],
    c as [[[h3 m3] s3] u3].
  unfold dt_le.
  repeat (rewrite orb_true_iff || rewrite andb_true_iff).
  rewrite !Z.ltb_lt, !Z.eqb_eq, !Z.leb_le. lia.
Qed.

Lemma replace_hm_Some h m t :
  replace_hm h m = Some t ↔ 0 ≤ h ≤ 23 ∧ 0 ≤ m ≤ 59 ∧ t = (h, m, 0, 0).
Proof.
  unfold replace_hm. repeat case_bool_decide; simpl; split;
    try intros [= <-]; try intros (? & ? & ->); try done; lia.
Qed.

(** The matcher, case by case on what the entry holds. *)
Lemma weekly_match_true entry now :
  _weekly_match entry now = true ↔
  weekday now ∈ default [] (w_days entry) ∧
  ∃ sh sm eh em,
    parse_hm (default "00:00" (w_start entry)) = Some (sh, sm) ∧
    parse_hm (default "23:59" (w_end entry)) = Some (eh, em) ∧
    0 ≤ sh ≤ 23 ∧ 0 ≤ sm ≤ 59 ∧ 0 ≤ eh ≤ 23 ∧ 0 ≤ em ≤ 59 ∧
    dt_le (sh, sm, 0, 0) (clock now) = true ∧
    dt_le (clock now) (eh, em, 0, 0) = true.
Proof.
  unfold _weekly_match. case_bool_decide as Hday; [| simpl; naive_solver].
  destruct (parse_hm (default "00:00" (w_start entry))) as [[sh sm] |];
    [| simpl; naive_solver].
  destruct (parse_hm (default "23:59" (w_end entry))) as [[eh em] |];
    [| simpl; naive_solver].
  cbn [mbind option_bind].
  destruct (replace_hm sh sm) as [t1 |] eqn:H1.
  2:{ simpl. split; [done |].
      intros (_ & sh' & sm' & eh' & em' & Hs & He & ? & ? & ? & ? & _).
      simplify_eq.
      assert (replace_hm sh' sm' = Some (sh', sm', 0, 0))
        by (apply replace_hm_Some; repeat split; (lia || done)).
      congruence. }
  destruct (replace_hm eh em) as [t2 |] eqn:H2.
  2:{ simpl. split; [done |].
      intros (_ & sh' & sm' & eh' & em' & Hs & He & ? & ? & ? & ? & _).
      simplify_eq.
      assert (replace_hm eh' em' = Some (eh', em', 0, 0))
        by (apply replace_hm_Some; repeat split; (lia || done)).
      congruence. }
  apply replace_hm_Some in H1 as (? & ? & ->), H2 as (? & ? & ->).
  cbn [mbind option_bind default]. unfold id. rewrite andb_true_iff. split.
  - intros [? ?]. split; [done |]. exists sh, sm, eh, em.
    repeat split; (done || lia).
  - intros (_ & sh' & sm' & eh' & em' & Hs & He & _ & _ & _ & _ & ? & ?).
    by simplify_eq.
Qed.

(** C9 (amended). For an entry whose start and end texts parse as H:M
    within clock range, the weekly matcher returns true iff the weekday of
    the instant is in the day set and its time of day lies within
    [start:00, end:00], both ends included.  When the end is earlier than
    the start it returns false at every instant.  It returns false, never
    raising, when a start or end text is present but does not parse or is
    out of range, and when the day set is missing.  A missing start or end
    is not a reason to return false: it is read as 00:00 or 23:59. *)
Theorem C9_weekly_match (entry : WeeklyEntry) (now : Instant) :
  (∀ sh sm eh em,
     parse_hm (start_text entry) = Some (sh, sm) →
     parse_hm (end_text entry) = Some (eh, em) →
     0 ≤ sh ≤ 23 → 0 ≤ sm ≤ 59 → 0 ≤ eh ≤ 23 → 0 ≤ em ≤ 59 →
     valid_clock (clock now) →
     (_weekly_match entry now = true ↔
      weekday now ∈ default [] (w_days entry) ∧
      day_us (sh, sm, 0, 0) ≤ day_us (clock now) ≤ day_us (eh, em, 0, 0))) ∧
  (∀ sh sm eh em,
     parse_hm (start_text entry) = Some (sh, sm) →
     parse_hm (end_text entry) = Some (eh, em) →
     eh * 60 + em < sh * 60 + sm →
     _weekly_match entry now = false) ∧
  (parse_hm (start_text entry) = None → _weekly_match entry now = false) ∧
  (parse_hm (end_text entry) = None → _weekly_match entry now = false) ∧
  (∀ h m, parse_hm (start_text entry) = Some (h, m) →
          ¬ (0 ≤ h ≤ 23 ∧ 0 ≤ m ≤ 59) → _weekly_match entry now = false) ∧
  (∀ h m, parse_hm (end_text entry) = Some (h, m) →
          ¬ (0 ≤ h ≤ 23 ∧ 0 ≤ m ≤ 59) → _weekly_match entry now = false) ∧
  (w_days entry = None → _weekly_match entry now = false) ∧
  _weekly_match entry now
  = _weekly_match {| w_days := w_days entry;
                     w_start := Some (start_text entry);
                     w_end := Some (end_text entry) |} now.
Proof.
  unfold start_text, end_text. split_and!.
  - intros sh sm eh em Hs He ? ? ? ? Hnow. rewrite weekly_match_true, Hs, He.
    rewrite <- !dt_le_day_us by (done || (unfold valid_clock; lia)).
    split.
    + intros (? & sh' & sm' & eh' & em' & ? & ? & _ & _ & _ & _ & ? & ?).
      by simplify_eq.
    + intros (? & ? & ?). split; [done |]. exists sh, sm, eh, em.
      repeat split; (done || lia).
  - intros sh sm eh em Hs He Hlt.
    destruct (_weekly_match entry now) eqn:E; [| done].
    apply weekly_match_true in E
      as (_ & sh' & sm' & eh' & em' & Hs' & He' & ? & ? & ? & ? & H1 & H2).
    rewrite Hs in Hs'. rewrite He in He'. simplify_eq.
    pose proof (dt_le_trans _ _ _ H1 H2) as Hle.
    apply dt_le_day_us in Hle; unfold valid_clock, day_us in *; lia.
  - intros Hs. destruct (_weekly_match entry now) eqn:E; [| done].
    apply weekly_match_true in E as (_ & ? & ? & ? & ? & Hs' & _). congruence.
  - intros He. destruct (_weekly_match entry now) eqn:E; [| done].
    apply weekly_match_true in E as (_ & ? & ? & ? & ? & _ & He' & _). congruence.
  - intros h m Hs Hbad. destruct (_weekly_match entry now) eqn:E; [| done].
    apply weekly_match_true in E
      as (_ & sh' & sm' & eh' & em' & Hs' & _ & ? & ? & _).
    rewrite Hs in Hs'. simplify_eq. tauto.
  - intros h m He Hbad. destruct (_weekly_match entry now) eqn:E; [| done].
    apply weekly_match_true in E
      as (_ & sh' & sm' & eh' & em' & _ & He' & _ & _ & ? & ? & _).
    rewrite He in He'. simplify_eq. tauto.
  - intros Hdays. destruct (_weekly_match entry now) eqn:E; [| done].
    apply weekly_match_true in E as (Hin & _). rewrite Hdays in Hin.
    by apply elem_of_nil in Hin.
  - done.
Qed.

Lemma C9_weekly_match_witness : _weekly_match school_day monday_noon = true.
Proof.
  destruct (C9_weekly_match school_day monday_noon) as (H & _).
  apply (H 9 0 15 30); try reflexivity; try lia.
  - unfold valid_clock. simpl. lia.
  - split; [| simpl; lia]. simpl. repeat constructor.
Defined.

Example weekly_end_is_last_instant :
  let at_1530 s :=
    {| weekday := 0; hour := 15; minute := 30; second := s; microsecond := 0;
       timestamp := 0 |} in
  _weekly_match school_day (at_1530 0) = true ∧
  _weekly_match school_day (at_1530 1) = false.
Proof. by vm_compute. Qed.

Example weekly_unparseable_is_false :
  let with_start s :=
    {| w_days := Some [0]; w_start := Some s; w_end := Some "15:30" |} in
  _weekly_match (with_start "9am") monday_noon = false ∧
  _weekly_match (with_start "09:00:00") monday_noon = false ∧
  _weekly_match (with_start "24:00") monday_noon = false ∧
  _weekly_match (with_start "16:00") monday_noon = false.
Proof. by vm_compute. Qed.

(** What [int] accepts, the matcher accepts: blanks around a piece, a
    sign, an underscore between digits; a control character of the range
    28 to 31, which [str.strip] would remove, makes the text unparseable. *)
Example weekly_start_as_int_reads_it :
  let with_start s :=
    {| w_days := Some [0]; w_start := Some s; w_end := Some "15:30" |} in
  _weekly_match (with_start " 9 : +0_0 ") monday_noon = true ∧
  _weekly_match (with_start (utf8_encode [0x1C]%N +:+ "09:00")) monday_noon
  = false.
Proof. by vm_compute. Qed.

(** C9 as stated fails for an entry with a missing field: with no [end]
    the matcher does not return false, it matches until 23:59. *)
Lemma C9_counterexample :
  w_end open_ended = None ∧ _weekly_match open_ended monday_noon = true.
Proof. by vm_compute. Qed.

(** ** Guest identities *)

Lemma py_startswith_spec t : ∀ s,
  py_startswith s t = true ↔ ∃ post, s = t +:+ post.
Proof.
  induction t as [| b t Ht]; intros s.
  - destruct s; simpl; (split; [by eexists | done]).
  - destruct s as [| a s]; simpl.
    + split; [done | by intros [post ?]].
    + rewrite andb_true_iff, bool_decide_eq_true, Ht. split.
      * intros [-> [post ->]]. eauto.
      * intros [post [= -> ->]]. eauto.
Qed.

Lemma py_in_unfold t s :
  py_in t s
  = py_startswith s t ||
    match s with String _ r => py_in t r | EmptyString => false end.
Proof. by destruct s. Qed.

Lemma py_in_spec t s :
  py_in t s = true ↔ ∃ pre post, s = pre +:+ t +:+ post.
Proof.
  split.
  - induction s as [| a s Hs]; rewrite py_in_unfold, orb_true_iff.
    + intros [H | H]; [| done]. apply py_startswith_spec in H as [post ->].
      by exists "", post.
    + intros [H | H].
      * apply py_startswith_spec in H as [post ->]. by exists "", post.
      * destruct (Hs H) as (pre & post & ->). by exists (String a pre), post.
  - intros (pre & post & ->). induction pre as [| a pre Hpre].
    + rewrite py_in_unfold. apply orb_true_iff. left.
      apply py_startswith_spec. by exists post.
    + change (String a pre +:+ t +:+ post) with (String a (pre +:+ t +:+ post)).
      rewrite py_in_unfold, Hpre. apply orb_true_r.
Qed.

Lemma has_guest_token_existsb s :
  existsb (λ t, py_in t s) _GUEST_TOKENS = true ↔ has_guest_token s.
Proof.
  rewrite existsb_elem_of. unfold has_guest_token. split.
  - intros (t & Ht & Hin). apply py_in_spec in Hin as (pre & post & ->). eauto.
  - intros (t & pre & post & Ht & ->). exists t. split; [done |].
    apply py_in_spec. eauto.
Qed.

Lemma is_guest_identity_spec email name :
  _is_guest_identity email name = true ↔ guest_identity email name.
Proof.
  unfold _is_guest_identity, guest_identity. cbv zeta.
  rewrite <- !has_guest_token_existsb.
  case_bool_decide as He; [tauto |].
  destruct (existsb _ _); [tauto |].
  destruct (existsb _ _); [tauto |].
  split; [done |]. intros [? | [? | ?]]; done.
Qed.

(** C10. A heartbeat whose student identifier is classified as a guest
    identity (empty email, or email or display name holding one of the
    tokens guest, anon, anonymous, trial, temp) is answered ok with
    extension_enabled false and no session data, and the store on disk is
    left exactly as it was. *)
Theorem C10_guest_heartbeat_frame (now : Instant) (disk : Store)
    (b : HeartbeatReq) :
  guest_identity (Some (heartbeat_student b)) (hb_student_name b) →
  api_heartbeat now disk b
  = ({| r_ok := true; r_server_time := unix_seconds now;
        r_extension_enabled := false; r_sessions := None |}, disk).
Proof.
  intros Hguest. apply is_guest_identity_spec in Hguest.
  unfold api_heartbeat. fold (heartbeat_student b). by rewrite Hguest.
Qed.

Lemma C10_guest_heartbeat_witness :
  api_heartbeat monday_noon (oneoff_store ∅) guest_beat
  = ({| r_ok := true; r_server_time := 1762171200;
        r_extension_enabled := false; r_sessions := None |}, oneoff_store ∅).
Proof.
  apply (C10_guest_heartbeat_frame monday_noon (oneoff_store ∅) guest_beat).
  right; left. exists "guest", "", "42@example.org".
  split; [| reflexivity]. apply list_elem_of_here.
Defined.

(** A student id of blanks only, here a no-break space, is trimmed to the
    empty text: a guest. *)
Example heartbeat_blank_student_is_guest :
  let blank :=
    {| hb_student := Some (utf8_encode [0xA0]%N);
       hb_student_name := Some "Alice"; hb_tab := hb_tab guest_beat;
       hb_tabs := []; hb_screenshot := None; hb_tabshots := [];
       hb_shot_log := [] |} in
  (api_heartbeat monday_noon (oneoff_store ∅) blank).2 = oneoff_store ∅ ∧
  r_extension_enabled (api_heartbeat monday_noon (oneoff_store ∅) blank).1
  = false.
Proof. by vm_compute. Qed.

(** The same handler does write for a student who is not a guest. *)
Example heartbeat_records_student :
  let after := (api_heartbeat monday_noon (oneoff_store ∅) alice_beat).2 in
  is_Some (presence after !! "alice@school.org") ∧
  length (default [] (history after !! "alice@school.org")) = 1%nat.
Proof. vm_compute. split; [eauto | done]. Qed.

(** ** Roster filter *)

Lemma omap_unless {A B} (skip : A → bool) (f : A → B) (l : list A) :
  omap (λ x, if skip x then None else Some (f x)) l
  = f <$> filter (λ x, skip x = false) l.
Proof.
  induction l as [| x l Hl]; [done |]. cbn [omap list_omap].
  destruct (skip x) eqn:Hx.
  - rewrite filter_cons_False by congruence. apply Hl.
  - rewrite filter_cons_True by done. rewrite fmap_cons. f_equal. apply Hl.
Qed.

Lemma filter_list l roster :
  _filter_json_by_roster (JList l) roster
  = JList ((λ x, _filter_json_by_roster x roster) <$>
             filter (λ x, skipped roster x = false) l).
Proof.
  cbn [_filter_json_by_roster]. f_equal.
  apply (omap_unless (skipped roster) (λ x, _filter_json_by_roster x roster)).
Qed.

Lemma filter_dict kvs roster :
  _filter_json_by_roster (JDict kvs) roster
  = JDict ((λ kv, (kv.1, _filter_json_by_roster kv.2 roster)) <$> kvs).
Proof. done. Qed.

Lemma filter_keeps_strings v roster s :
  _filter_json_by_roster v roster = JStr s ↔ v = JStr s.
Proof. by destruct v. Qed.

Lemma jget_filtered k kvs roster :
  jget k ((λ kv, (kv.1, _filter_json_by_roster kv.2 roster)) <$> kvs)
  = (λ v, _filter_json_by_roster v roster) <$> jget k kvs.
Proof.
  induction kvs as [| [k' v] kvs Hkvs]; [done |]. simpl.
  by case_decide.
Qed.

(** Filtering an object does not change the identifier it carries. *)
Lemma student_id_of_filtered x roster :
  student_id_of (_filter_json_by_roster x roster) = student_id_of x.
Proof.
  destruct x as [| | | | l | kvs]; try done.
  rewrite filter_dict. unfold student_id_of.
  induction _STUDENT_ID_KEYS as [| k ks Hks]; [done |]. simpl.
  rewrite jget_filtered, Hks.
  destruct (jget k kvs) as [v |]; [| done]. simpl.
  destruct v; done.
Qed.

Lemma filter_sound doc roster : ∀ x sid,
  listed_in x (_filter_json_by_roster doc roster) →
  student_id_of x = Some sid →
  roster ≠ ∅ ∧ sid ∈ roster.
Proof.
  induction doc as [| | | | l Hl | kvs Hkvs] using json_ind; intros x sid Hin Hsid;
    try (by inversion Hin).
  - rewrite filter_list in Hin. rewrite Forall_forall in Hl.
    inversion Hin as [l' Hx | y l' Hy Hdeep |]; subst.
    + apply list_elem_of_fmap in Hx as (y & -> & Hy).
      apply list_elem_of_filter in Hy as [Hkept Hy].
      rewrite student_id_of_filtered in Hsid.
      unfold skipped in Hkept. rewrite Hsid in Hkept.
      apply orb_false_iff in Hkept as [Hne Hmem].
      apply bool_decide_eq_false in Hne.
      apply negb_false_iff, bool_decide_eq_true in Hmem. done.
    + apply list_elem_of_fmap in Hy as (z & -> & Hz).
      apply list_elem_of_filter in Hz as [_ Hz]. by apply (Hl z Hz x).
  - rewrite filter_dict in Hin. rewrite Forall_forall in Hkvs.
    inversion Hin as [| | k v kvs' Hkv Hdeep]; subst.
    apply list_elem_of_fmap in Hkv as ([k' v'] & [= -> ->] & Hkv').
    by apply (Hkvs (k', v') Hkv' x).
Qed.

Lemma skipped_is_object roster x :
  skipped roster x = true → ∃ kvs, x = JDict kvs.
Proof. destruct x; try done. eauto. Qed.

Lemma session_roster_unknown store sid :
  sid ∉ s_id <$> sessions store → session_roster store sid = ∅.
Proof.
  intros Hsid. unfold session_roster.
  destruct (list_find _ _) as [[i s] |] eqn:Hfind; [| done].
  apply list_find_Some in Hfind as (Hi & <- & _).
  exfalso. apply Hsid, list_elem_of_fmap. exists s. split; [done |].
  by apply list_elem_of_lookup_2 in Hi.
Qed.

(** ** The filter under a bounded stack, and the after-request hook *)

Lemma mapM_all_Some {A B} (f : A → option B) (g : A → B) (l : list A) :
  (∀ x, x ∈ l → f x = Some (g x)) → mapM f l = Some (g <$> l).
Proof.
  intros Hall. apply mapM_Some_2, Forall2_fmap_r, Forall_Forall2_diag,
    Forall_forall. done.
Qed.

Lemma json_depth_element x l :
  x ∈ l → (json_depth x ≤ foldr (λ x d, Nat.max (json_depth x) d) 0 l)%nat.
Proof.
  induction l as [| y l Hl]; intros Hx; [by apply elem_of_nil in Hx |].
  simpl. apply elem_of_cons in Hx as [-> | Hx]; [lia |].
  specialize (Hl Hx). lia.
Qed.

Lemma json_depth_value (kv : string * json) kvs :
  kv ∈ kvs →
  (json_depth kv.2 ≤ foldr (λ kv d, Nat.max (json_depth kv.2) d) 0 kvs)%nat.
Proof.
  induction kvs as [| y l Hl]; intros Hx; [by apply elem_of_nil in Hx |].
  simpl. apply elem_of_cons in Hx as [-> | Hx]; [lia |].
  specialize (Hl Hx). lia.
Qed.

(** With a frame for every level of the value no call raises, and the
    bounded run is the filter itself. *)
Lemma filter_within_enough roster : ∀ frames obj,
  (json_depth obj ≤ frames)%nat →
  filter_within frames obj roster = Some (_filter_json_by_roster obj roster).
Proof.
  induction frames as [| n Hn]; intros obj Hdepth.
  - destruct obj; simpl in Hdepth; lia.
  - cbn [filter_within]. f_equal.
    destruct obj as [| | | | l | kvs]; try done.
    + rewrite filter_list. cbn [filter_body].
      rewrite (mapM_all_Some _ (λ x, _filter_json_by_roster x roster)); [done |].
      intros x Hx. apply Hn. apply list_elem_of_filter in Hx as [_ Hx].
      apply json_depth_element in Hx. simpl in Hdepth. lia.
    + rewrite filter_dict. cbn [filter_body].
      rewrite (mapM_all_Some _
                 (λ kv, (kv.1, _filter_json_by_roster kv.2 roster))); [done |].
      intros kv Hkv. rewrite Hn; [done |].
      apply json_depth_value in Hkv. simpl in Hdepth. lia.
Qed.

Lemma session_scoping_after_scoped frames ctx resp :
  roster_scoped ctx resp →
  _session_scoping_after frames ctx resp
  = match json_loads (data resp) with
    | None => resp
    | Some doc =>
        match filter_within frames doc (g_session_students ctx) with
        | None => resp
        | Some filtered =>
            {| mimetype := mimetype resp; data := JsonText filtered |}
        end
    end.
Proof.
  intros (Hsid & Hmime & Hpath). unfold _session_scoping_after.
  by rewrite !bool_decide_eq_true_2, Hpath by done.
Qed.

(** The hook on a JSON reply whose nesting fits the stack: the body becomes
    the filtered document. *)
Lemma session_scoping_after_filters frames ctx resp doc :
  roster_scoped ctx resp → data resp = JsonText doc →
  (json_depth doc ≤ frames)%nat →
  _session_scoping_after frames ctx resp
  = {| mimetype := mimetype resp;
       data := JsonText (_filter_json_by_roster doc (g_session_students ctx)) |}.
Proof.
  intros Hscoped Hdata Hdepth. rewrite session_scoping_after_scoped by done.
  rewrite Hdata. simpl. by rewrite filter_within_enough.
Qed.

Lemma first_student_key_None keys kvs :
  first_student_key keys kvs = None ↔
  ∀ k s, k ∈ keys → jget k kvs ≠ Some (JStr s).
Proof.
  induction keys as [| k ks Hks]; simpl.
  - split; [| done]. intros _ k s Hk. by apply elem_of_nil in Hk.
  - split.
    + intros Hnone k' s Hk'. apply elem_of_cons in Hk' as [-> | Hk'].
      * destruct (jget k kvs) as [[] |]; done.
      * apply Hks; [| done]. destruct (jget k kvs) as [[] |]; done.
    + intros Hall.
      assert (Hrest : first_student_key ks kvs = None).
      { apply Hks. intros k' s Hk'. apply Hall. by right. }
      destruct (jget k kvs) as [[| | | s | |] |] eqn:Hk; try done.
      exfalso. apply (Hall k s); [by left | done].
Qed.

(** The filter does not deepen a value. *)
Lemma json_depth_filtered roster : ∀ obj,
  (json_depth (_filter_json_by_roster obj roster) ≤ json_depth obj)%nat.
Proof.
  induction obj as [| | | | l Hl | kvs Hkvs] using json_ind; try done.
  - rewrite filter_list. cbn [json_depth]. apply le_n_S.
    induction Hl as [| x l Hx _ IH]; [done |].
    rewrite filter_cons. cbn [foldr]. case_decide.
    + rewrite fmap_cons. cbn [foldr]. lia.
    + lia.
  - rewrite filter_dict. cbn [json_depth]. apply le_n_S.
    induction Hkvs as [| [k v] kvs Hv _ IH]; [done |].
    rewrite fmap_cons. cbn [foldr fst snd] in *. lia.
Qed.

(** C7 (amended). On a session-scoped JSON response whose nesting the
    stack holds (twice its depth in frames suffices on every CPython), the
    after-request hook replaces the body by the filtered document, which is
    what [_filter_json_by_roster] returns.  In it, every list at any depth
    has lost exactly the objects that carry a student identifier (the value
    of the first of the keys student, email, id, user, student_id held with
    a string value) when the roster is empty or lacks the identifier; the
    other elements are kept in order and filtered in turn, values that are
    not objects are never removed and scalars come out unchanged.  So no
    object left in a list carries an identifier string outside the roster,
    and an empty roster (also the roster of an unknown session) drops every
    object with an identifier string.  An object whose identifier keys hold
    no string, a number for instance, is kept whatever the roster. *)
Theorem C7_roster_filter (frames : nat) (ctx : RequestCtx) (resp : Response)
    (doc : json) :
  roster_scoped ctx resp →
  data resp = JsonText doc →
  (2 * json_depth doc ≤ frames)%nat →
  let roster := g_session_students ctx in
  let out := _filter_json_by_roster doc roster in
  filter_within frames doc roster = Some out ∧
  _session_scoping_after frames ctx resp
  = {| mimetype := mimetype resp; data := JsonText out |} ∧
  (∀ x sid, listed_in x out → student_id_of x = Some sid →
            roster ≠ ∅ ∧ sid ∈ roster) ∧
  (∀ l, _filter_json_by_roster (JList l) roster
        = JList ((λ x, _filter_json_by_roster x roster) <$>
                   filter (λ x, skipped roster x = false) l)) ∧
  (∀ x, skipped roster x = true ↔
        ∃ sid, student_id_of x = Some sid ∧ (roster = ∅ ∨ sid ∉ roster)) ∧
  (∀ x, skipped roster x = true → ∃ kvs, x = JDict kvs) ∧
  (∀ kvs, (∀ k s, k ∈ _STUDENT_ID_KEYS → jget k kvs ≠ Some (JStr s)) →
          skipped roster (JDict kvs) = false) ∧
  (∀ kvs, _filter_json_by_roster (JDict kvs) roster
          = JDict ((λ kv, (kv.1, _filter_json_by_roster kv.2 roster)) <$> kvs)) ∧
  _filter_json_by_roster JNull roster = JNull ∧
  (∀ b, _filter_json_by_roster (JBool b) roster = JBool b) ∧
  (∀ n, _filter_json_by_roster (JNum n) roster = JNum n) ∧
  (∀ s, _filter_json_by_roster (JStr s) roster = JStr s) ∧
  (∀ l, doc = JList l → roster = ∅ →
        Forall (λ x, is_Some (student_id_of x)) l → out = JList []) ∧
  (∀ store sid, sid ∉ s_id <$> sessions store → session_roster store sid = ∅).
Proof.
  intros Hscoped Hdata Hdepth roster out.
  assert (Hwithin : filter_within frames doc roster = Some out).
  { apply filter_within_enough. lia. }
  split_and!; try done.
  - rewrite session_scoping_after_scoped by done.
    rewrite Hdata. cbn [json_loads]. fold roster. by rewrite Hwithin.
  - apply filter_sound.
  - intros l. apply filter_list.
  - intros x. unfold skipped. destruct (student_id_of x) as [sid |].
    + rewrite orb_true_iff, bool_decide_eq_true, negb_true_iff,
        bool_decide_eq_false.
      split; [eauto | by intros (? & [= <-] & ?)].
    + split; [done | by intros (? & ? & _)].
  - apply skipped_is_object.
  - intros kvs Hkeys. unfold skipped. cbn [student_id_of].
    apply first_student_key_None in Hkeys. by rewrite Hkeys.
  - intros l -> Hroster Hl. unfold out. rewrite filter_list. f_equal.
    rewrite filter_none; [done |]. intros x Hx.
    rewrite Forall_forall in Hl. destruct (Hl x Hx) as [sid Hsid].
    unfold skipped. rewrite Hsid, Hroster. by rewrite bool_decide_eq_true_2.
  - apply session_roster_unknown.
Qed.

(** The scenario of the specification: entries for s1, s2, s3 on the board
    of a session with roster {s1, s2} come out as the entries for s1 and
    s2. *)
Lemma C7_roster_filter_witness :
  _session_scoping_after recursion_limit board_ctx three_entries_response
  = {| mimetype := "application/json";
       data := JsonText (JList [entry_for "s1"; entry_for "s2"]) |}.
Proof.
  assert (Hscoped : roster_scoped board_ctx three_entries_response).
  { split_and!; [by eexists | reflexivity | reflexivity]. }
  assert (Hdepth : (2 * json_depth
                          (JList [entry_for "s1"; entry_for "s2";
                                  entry_for "s3"])
                    ≤ recursion_limit)%nat).
  { apply (bool_decide_unpack _). vm_compute. exact I. }
  destruct (C7_roster_filter recursion_limit board_ctx three_entries_response
              (JList [entry_for "s1"; entry_for "s2"; entry_for "s3"])
              Hscoped eq_refl Hdepth) as (_ & H & _).
  rewrite H. vm_compute. reflexivity.
Defined.

(** On the board of a session the store does not know, the same entries
    are all dropped. *)
Example roster_filter_unknown_session :
  session_roster (oneoff_store ∅) "sess_404" = ∅ ∧
  _session_scoping_after recursion_limit unknown_board_ctx
    three_entries_response
  = {| mimetype := "application/json"; data := JsonText (JList []) |}.
Proof. by vm_compute. Qed.

(** C7 as stated fails: an entry that carries the key student with a
    number is an object with a conventional identifier key whose
    identifier is not in the roster, yet the filter keeps it, also on the
    board of a session whose roster is empty; of the two entries below
    only the one with an identifier string is dropped. *)
Lemma C7_counterexample :
  let resp := {| mimetype := "application/json";
                 data := JsonText (JList [numbered_entry; entry_for "s3"]) |} in
  jget "student" [("student", JNum 7); ("url", JStr "https://a.com/")]
  = Some (JNum 7) ∧
  g_session_students unknown_board_ctx = ∅ ∧
  roster_scoped unknown_board_ctx resp ∧
  _session_scoping_after recursion_limit unknown_board_ctx resp
  = {| mimetype := "application/json";
       data := JsonText (JList [numbered_entry]) |} ∧
  _session_scoping_after recursion_limit board_ctx resp
  = {| mimetype := "application/json";
       data := JsonText (JList [numbered_entry]) |}.
Proof.
  cbv zeta. split_and!.
  - reflexivity.
  - reflexivity.
  - split_and!; [by eexists | reflexivity | reflexivity].
  - by vm_compute.
  - by vm_compute.
Qed.

Lemma wrap_not_student k doc :
  student_id_of doc = None → student_id_of (wrap k doc) = None.
Proof. by destruct k. Qed.

Lemma listed_in_wrap x k doc : listed_in x doc → listed_in x (wrap k doc).
Proof.
  induction k as [| k Hk]; intros Hx; [done |]. simpl.
  apply (listed_in_element x (wrap k doc)); [apply list_elem_of_here | auto].
Qed.

(** A value whose filtering needs a nested call, reached with the last
    frame: every enclosing call returns normally, and what comes out is the
    whole value, unfiltered. *)
Lemma filter_within_overflow roster inner : ∀ k,
  student_id_of inner = None →
  filter_body (λ _, None) inner roster = None →
  filter_within (S k) (wrap k inner) roster = Some (wrap k inner).
Proof.
  intros k Hinner Hraise. induction k as [| k Hk].
  - cbn [filter_within wrap]. f_equal.
    change (λ x, filter_within 0 x roster) with (λ _ : json, @None json).
    by rewrite Hraise.
  - cbn [wrap]. cbn [filter_within]. f_equal. cbn [filter_body].
    rewrite filter_cons_True.
    2:{ unfold skipped. by rewrite wrap_not_student. }
    rewrite filter_nil. cbn [mapM]. cbn [filter_within] in Hk. by rewrite Hk.
Qed.

(** C8 (amended). An internal error while the outbound roster filter runs
    is swallowed and the affected value goes out unfiltered; nothing empty
    is put in its place.  A call of [_filter_json_by_roster] whose block
    raises returns its argument unchanged, so a value reached with the
    last stack frame comes out whole however deep it sits; and when the
    body does not parse, or the error escapes the filter, the hook returns
    the response as the handler produced it. *)
Theorem C8_filter_errors_fail_open (frames : nat) (ctx : RequestCtx)
    (resp : Response) :
  let roster := g_session_students ctx in
  (∀ obj, filter_body (λ x, filter_within frames x roster) obj roster = None →
          filter_within (S frames) obj roster = Some obj) ∧
  (∀ inner, student_id_of inner = None →
            filter_body (λ _, None) inner roster = None →
            filter_within (S frames) (wrap frames inner) roster
            = Some (wrap frames inner)) ∧
  (json_loads (data resp) = None →
   _session_scoping_after frames ctx resp = resp) ∧
  (∀ doc, json_loads (data resp) = Some doc →
          filter_within frames doc roster = None →
          _session_scoping_after frames ctx resp = resp) ∧
  (∀ inner, roster_scoped ctx resp →
            data resp = JsonText (wrap frames inner) →
            student_id_of inner = None →
            filter_body (λ _, None) inner roster = None →
            _session_scoping_after (S frames) ctx resp = resp).
Proof.
  intros roster. split_and!.
  - intros obj Hraise. cbn [filter_within]. by rewrite Hraise.
  - intros inner. apply filter_within_overflow.
  - intros Hload. unfold _session_scoping_after. rewrite Hload.
    by destruct (andb _ _).
  - intros doc Hload Hraise. unfold _session_scoping_after.
    fold roster. rewrite Hload, Hraise. by destruct (andb _ _).
  - intros inner Hscoped Hdata Hinner Hraise.
    rewrite session_scoping_after_scoped by done. rewrite Hdata. cbn [json_loads].
    fold roster. rewrite filter_within_overflow by done.
    destruct resp as [mt body]. simpl in *. by subst body.
Qed.

Lemma C8_filter_errors_witness :
  _session_scoping_after recursion_limit board_ctx deep_response
  = deep_response.
Proof.
  destruct (C8_filter_errors_fail_open 999 board_ctx deep_response)
    as (_ & _ & _ & _ & H).
  apply (H two_entries); [| reflexivity | reflexivity | reflexivity].
  split_and!; [by eexists | reflexivity | reflexivity].
Defined.

(** C8 as stated fails: the filter runs out of stack on the innermost
    list, the error is caught, and the caller receives the payload as it
    was, the entry of s3 included, not an empty result.  With stack to
    spare the same entries are filtered. *)
Lemma C8_counterexample :
  filter_within 0 (entry_for "s1") (g_session_students board_ctx) = None ∧
  filter_body (λ x, filter_within 0 x (g_session_students board_ctx))
    two_entries (g_session_students board_ctx) = None ∧
  _session_scoping_after recursion_limit board_ctx deep_response
  = deep_response ∧
  listed_in (entry_for "s3") (wrap 999 two_entries) ∧
  ("s3" ∉ g_session_students board_ctx) ∧
  data deep_response ≠ JsonText (JList []) ∧
  _filter_json_by_roster two_entries (g_session_students board_ctx)
  = JList [entry_for "s1"].
Proof.
  split_and!.
  - reflexivity.
  - reflexivity.
  - by vm_compute.
  - apply listed_in_wrap, listed_here. set_solver.
  - apply (bool_decide_unpack _). by vm_compute.
  - discriminate.
  - by vm_compute.
Qed.

(** * Further properties *)

(** ** Session lifecycle *)

Lemma sessions_by_id_fmap (f : Session → Session) l sid :
  (∀ s, s_id (f s) = s_id s) →
  sessions_by_id (f <$> l) !! sid = f <$> sessions_by_id l !! sid.
Proof.
  intros Hid. induction l as [| s l Hl] using rev_ind; [done |].
  rewrite fmap_app. cbn [fmap list_fmap].
  rewrite !sessions_by_id_snoc, Hid.
  destruct (decide (s_id s = sid)) as [<- | Hne].
  - by rewrite !lookup_insert_eq.
  - by rewrite !lookup_insert_ne.
Qed.

Lemma sessions_by_id_filter_ne l sid sid' :
  sid ≠ sid' →
  sessions_by_id (filter (λ s, s_id s ≠ sid) l) !! sid'
  = sessions_by_id l !! sid'.
Proof.
  intros Hne. induction l as [| s l Hl] using rev_ind; [done |].
  rewrite filter_app, sessions_by_id_snoc.
  destruct (decide (s_id s = sid)) as [Heq | Hother].
  - rewrite filter_cons_False by (intros H; by apply H).
    rewrite filter_nil, app_nil_r, Hl, lookup_insert_ne by congruence. done.
  - rewrite filter_cons_True by done. rewrite filter_nil, sessions_by_id_snoc.
    destruct (decide (s_id s = sid')) as [<- | Hne'].
    + by rewrite !lookup_insert_eq.
    + by rewrite !lookup_insert_ne.
Qed.

Lemma sessions_by_id_without l sid :
  sessions_by_id (filter (λ s, s_id s ≠ sid) l) !! sid = None.
Proof.
  apply sessions_by_id_None. intros Hin.
  apply list_elem_of_fmap in Hin as (s & Hid & Hs).
  apply list_elem_of_filter in Hs as [Hne _]. by apply Hne.
Qed.

Lemma sessions_by_id_known l sid :
  sid ∈ s_id <$> l → is_Some (sessions_by_id l !! sid).
Proof.
  intros Hin. destruct (sessions_by_id l !! sid) eqn:E; [eauto |].
  by apply sessions_by_id_None in E.
Qed.

Lemma mark_manual_lookup l sid m sid' :
  sessions_by_id (mark_manual sid m l) !! sid'
  = (λ s, if decide (s_id s = sid) then set_manual m s else s)
      <$> sessions_by_id l !! sid'.
Proof.
  apply sessions_by_id_fmap. intros s. by case_decide.
Qed.

Lemma mark_manual_ids l sid m : s_id <$> mark_manual sid m l = s_id <$> l.
Proof.
  unfold mark_manual. rewrite <- list_fmap_compose. apply list_fmap_ext.
  intros i s _. simpl. by case_decide.
Qed.

(** X1. Reconciliation is idempotent at a fixed instant: a second
    [GET /api/sessions/active] right after the first returns the same
    active set and saves the same store, and a pass changes the active set
    only. *)
Theorem sessions_active_stable (now : Instant) (disk : Store) :
  let first := api_sessions_active now disk in
  api_sessions_active now first.2 = first ∧
  set_active_sessions (active_sessions disk) first.2 = disk.
Proof.
  cbv zeta. unfold api_sessions_active, _ensure_sessions_students, ensure_keys.
  cbn [fst snd]. rewrite reconcile_idempotent. split; [done |].
  unfold _reconcile_active_sessions, set_active_sessions. simpl.
  apply store_eta.
Qed.

(** X2. Starting a session that exists answers ok, puts its id in the
    active set at once and keeps it there through every later
    reconciliation pass, whatever the instant and the schedule; the
    command queues are not touched.  Starting an id no session has answers
    404 and leaves the store as it was. *)
Theorem session_start_persists (disk : Store) (sid : string) :
  let resp := (api_session_start disk sid).1 in
  let after := (api_session_start disk sid).2 in
  (sid ∉ s_id <$> sessions disk →
   resp = reply_error 404 "not found" ∧ after = disk) ∧
  (sid ∈ s_id <$> sessions disk →
   resp = reply_ok ∧
   sid ∈ active_sessions after ∧
   (∀ now, sid ∈ active_sessions (_reconcile_active_sessions now after)) ∧
   pending_by_session after = pending_by_session disk ∧
   pending_per_student after = pending_per_student disk).
Proof.
  cbv zeta. unfold api_session_start, _ensure_sessions_students, ensure_keys.
  split; intros Hsid.
  - by rewrite bool_decide_eq_false_2.
  - rewrite bool_decide_eq_true_2 by done. cbn [negb fst snd].
    split_and!; try done.
    + simpl. set_solver.
    + intros now. rewrite reconcile_active. cbn [sessions set_sessions].
      rewrite mark_manual_lookup.
      destruct (sessions_by_id_known _ _ Hsid) as [sess Hsess].
      cbn [sessions set_active_sessions] in *. rewrite Hsess. cbn [fmap option_fmap option_map].
      apply sessions_by_id_Some in Hsess as [_ Hid].
      rewrite decide_True by done. right. split; [done |].
      simpl. set_solver.
Qed.

Lemma session_start_persists_witness :
  "sess_1" ∈ active_sessions
    (_reconcile_active_sessions (at_offset 700)
       (api_session_start (oneoff_store ∅) "sess_1").2).
Proof.
  destruct (session_start_persists (oneoff_store ∅) "sess_1") as [_ H].
  apply H. simpl. apply list_elem_of_here.
Defined.

Lemma NoDup_ids_filter (P : Session → Prop) `{!∀ s, Decision (P s)} l :
  NoDup (s_id <$> l) → NoDup (s_id <$> filter P l).
Proof.
  intros Hnd. apply (sublist_NoDup _ (s_id <$> l)); [done |].
  apply fmap_sublist, sublist_filter.
Qed.

Lemma scheduled_set_manual now m s :
  _session_is_scheduled_active now (set_manual m s)
  = _session_is_scheduled_active now s.
Proof. done. Qed.

(** X3. Ending a session takes its id out of the active set at once and
    clears the manual flag, so from then on a reconciliation pass has the id
    active exactly when the session's schedule matches at that instant: the
    end cancels the manual override, not a running schedule window. *)
Theorem session_end_leaves_schedule (disk : Store) (sid : string) :
  let after := (api_session_end disk sid).2 in
  (api_session_end disk sid).1 = reply_ok ∧
  (sid ∉ active_sessions after) ∧
  (∀ now, sid ∈ active_sessions (_reconcile_active_sessions now after) ↔
          ∃ sess, sessions_by_id (sessions disk) !! sid = Some sess ∧
                  _session_is_scheduled_active now sess = true) ∧
  (∀ other, other ≠ sid →
            (other ∈ active_sessions after ↔ other ∈ active_sessions disk)) ∧
  pending_by_session after = pending_by_session disk.
Proof.
  cbv zeta. unfold api_session_end, _ensure_sessions_students, ensure_keys.
  cbn [fst snd]. split_and!; try done.
  - simpl. set_solver.
  - intros now. rewrite reconcile_active. cbn [sessions set_sessions].
    rewrite mark_manual_lookup. cbn [sessions set_active_sessions].
    destruct (sessions_by_id (sessions disk) !! sid) as [sess |] eqn:Hsess;
      cbn [fmap option_fmap option_map].
    + apply sessions_by_id_Some in Hsess as [_ Hid].
      rewrite decide_True by done. rewrite scheduled_set_manual. simpl.
      split.
      * intros [? | [? _]]; [eauto | done].
      * intros (? & [= <-] & ?). by left.
    + simpl. split; [set_solver | by intros (? & ? & _)].
  - intros other Hne. simpl. set_solver.
Qed.

Lemma session_end_leaves_schedule_witness :
  ("sess_1" ∉ active_sessions
                (api_session_end (oneoff_store {["sess_1"]}) "sess_1").2) ∧
  "sess_1" ∈ active_sessions
               (_reconcile_active_sessions (at_offset 10)
                  (api_session_end (oneoff_store {["sess_1"]}) "sess_1").2).
Proof.
  destruct (session_end_leaves_schedule (oneoff_store {["sess_1"]}) "sess_1")
    as (_ & Hout & Hback & _).
  split; [exact Hout |].
  apply Hback. exists oneoff_session. split; reflexivity.
Defined.

(** X4. [POST /api/sessions] stores the new session as the only one with
    its id, replacing any session that had it and keeping the others, so
    distinct ids stay distinct; the others keep their order and the new
    session comes last.  It does not touch the active set: a
    session created with [manual: true] whose id was not active and whose
    schedule does not match stays inactive through reconciliation. *)
Theorem session_create_replaces (fresh : string) (disk : Store)
    (body : SessionBody) :
  let sess := (api_sessions_post fresh disk body).1 in
  let after := (api_sessions_post fresh disk body).2 in
  sess = new_session fresh body ∧
  sessions after
  = filter (λ s, s_id s ≠ s_id sess) (sessions disk) ++ [sess] ∧
  last (sessions after) = Some sess ∧
  sessions_by_id (sessions after) !! s_id sess = Some sess ∧
  (∀ s, s ∈ sessions after → s_id s = s_id sess → s = sess) ∧
  (∀ s, s_id s ≠ s_id sess → (s ∈ sessions after ↔ s ∈ sessions disk)) ∧
  (NoDup (s_id <$> sessions disk) → NoDup (s_id <$> sessions after)) ∧
  active_sessions after = active_sessions disk ∧
  (∀ now, s_id sess ∉ active_sessions disk →
          _session_is_scheduled_active now sess = false →
          s_id sess ∉ active_sessions (_reconcile_active_sessions now after)).
Proof.
  cbv zeta. unfold api_sessions_post, _ensure_sessions_students, ensure_keys.
  cbn [fst snd]. set (sess := new_session fresh body).
  cbn [sessions set_sessions active_sessions].
  split_and!; try done.
  - apply last_snoc.
  - by rewrite sessions_by_id_snoc, lookup_insert_eq.
  - intros s Hs Hid. apply elem_of_app in Hs as [Hs | Hs].
    + apply list_elem_of_filter in Hs as [Hne _]. done.
    + by apply list_elem_of_singleton in Hs.
  - intros s Hne. rewrite elem_of_app, list_elem_of_filter, list_elem_of_singleton.
    split; [| by left]. intros [[_ ?] | ->]; done.
  - intros Hnd. rewrite fmap_app. apply NoDup_app. split_and!.
    + by apply NoDup_ids_filter.
    + intros x Hx Hx'. apply list_elem_of_singleton in Hx'. subst x.
      apply list_elem_of_fmap in Hx as (s & Hid & Hs).
      apply list_elem_of_filter in Hs as [Hne _]. by apply Hne.
    + apply NoDup_singleton.
  - intros now Hout Hsched. rewrite reconcile_active.
    cbn [sessions set_sessions active_sessions].
    rewrite sessions_by_id_snoc, lookup_insert_eq, Hsched.
    intros [? | [_ ?]]; done.
Qed.

Lemma session_create_replaces_witness :
  "sess_9" ∉ active_sessions
    (_reconcile_active_sessions monday_noon
       (api_sessions_post "sess_0000" (manual_store ∅) manual_body).2).
Proof.
  destruct (session_create_replaces "sess_0000" (manual_store ∅) manual_body)
    as (_ & _ & _ & _ & _ & _ & _ & _ & H).
  apply H; [apply not_elem_of_empty | reflexivity].
Defined.

(** X5. Deleting a session removes every session with the id and takes the
    id out of the active set for good: no reconciliation pass brings it
    back, a later lookup answers 404 and a send to it is refused as not
    active.  The other sessions stay, and so do both queue maps: the
    commands queued for the deleted session are not discarded. *)
Theorem session_delete_keeps_queue (disk : Store) (sid : string) :
  let after := api_session_item_delete disk sid in
  (sid ∉ s_id <$> sessions after) ∧
  (∀ s, s_id s ≠ sid → (s ∈ sessions after ↔ s ∈ sessions disk)) ∧
  (∀ now, sid ∉ active_sessions (_reconcile_active_sessions now after)) ∧
  api_session_item_get after sid = None ∧
  (∀ now u b, command_sid b = Some sid → is_staff u = true →
     api_command now u after b
     = (reply_error 409 "session not active", after)) ∧
  pending_by_session after = pending_by_session disk ∧
  pending_per_student after = pending_per_student disk.
Proof.
  cbv zeta. unfold api_session_item_delete, _ensure_sessions_students,
    ensure_keys.
  set (after := set_active_sessions _ _).
  assert (Hgone : sid ∉ s_id <$> sessions after).
  { subst after. simpl. intros Hin.
    apply list_elem_of_fmap in Hin as (s & Hid & Hs).
    apply list_elem_of_filter in Hs as [Hne _]. by apply Hne. }
  assert (Hout : ∀ now,
            sid ∉ active_sessions (_reconcile_active_sessions now after)).
  { intros now. rewrite reconcile_active.
    rewrite (proj2 (sessions_by_id_None _ _) Hgone).
    subst after. simpl. set_solver. }
  split_and!; try done.
  - intros s Hne. subst after. simpl. rewrite list_elem_of_filter. tauto.
  - unfold api_session_item_get, _ensure_sessions_students, ensure_keys.
    destruct (list_find _ _) as [[i s] |] eqn:Hfind; [| done].
    apply list_find_Some in Hfind as (Hi & Hid & _).
    exfalso. apply Hgone, list_elem_of_fmap. exists s.
    split; [done | by apply list_elem_of_lookup_2 in Hi].
  - intros now u b Hsid Hstaff. unfold api_command.
    unfold command_sid in Hsid. rewrite Hstaff, Hsid. simpl.
    rewrite bool_decide_eq_false_2; [done |]. apply Hout.
Qed.

Lemma session_delete_keeps_queue_witness :
  api_command monday_noon teacher
    (api_session_item_delete stray_store "sess_1") send_hi
  = (reply_error 409 "session not active",
     api_session_item_delete stray_store "sess_1") ∧
  session_queue (api_session_item_delete stray_store "sess_1") "sess_1"
  = [stray_command].
Proof.
  destruct (session_delete_keeps_queue stray_store "sess_1")
    as (_ & _ & _ & _ & H & Hq & _).
  split; [by apply H |].
  unfold session_queue. rewrite Hq. reflexivity.
Defined.

Lemma patch_first_ids sid p l : s_id <$> patch_first sid p l = s_id <$> l.
Proof.
  induction l as [| s l Hl]; [done |]. simpl.
  case_decide; [done |]. by rewrite fmap_cons, Hl.
Qed.

Lemma patch_first_unknown sid p l :
  sid ∉ s_id <$> l → patch_first sid p l = l.
Proof.
  induction l as [| s l Hl]; intros Hsid; [done |]. simpl.
  rewrite fmap_cons, not_elem_of_cons in Hsid. destruct Hsid as [Hne Hsid].
  rewrite decide_False by done. by rewrite Hl.
Qed.

Lemma patch_first_elem_of sid p l s :
  NoDup (s_id <$> l) →
  s ∈ patch_first sid p l ↔
  (s_id s ≠ sid ∧ s ∈ l) ∨
  (∃ old, old ∈ l ∧ s_id old = sid ∧ s = apply_patch p old).
Proof.
  induction l as [| x l Hl]; intros Hnd.
  - simpl. split; [by intros ?%elem_of_nil |].
    intros [[_ H] | (? & H & _)]; by apply elem_of_nil in H.
  - rewrite fmap_cons in Hnd. apply NoDup_cons in Hnd as [Hx Hnd].
    simpl. case_decide as Hid.
    + rewrite !elem_of_cons. split.
      * intros [-> | Hs].
        -- right. exists x. rewrite elem_of_cons. eauto.
        -- left. split; [| by right]. intros Heq. apply Hx.
           rewrite Hid, <- Heq. by apply list_elem_of_fmap_2.
      * intros [[Hne [-> | Hs]] | (old & Hold & Hoid & ->)]; [done | by right |].
        apply elem_of_cons in Hold as [-> | Hold]; [by left |].
        exfalso. apply Hx. rewrite Hid, <- Hoid. by apply list_elem_of_fmap_2.
    + rewrite !elem_of_cons, Hl by done. split.
      * intros [-> | [[? ?] | (old & ? & ? & ->)]]; [by left; eauto | by left; eauto |].
        right. exists old. rewrite elem_of_cons. eauto.
      * intros [[Hne [-> | Hs]] | (old & Hold & Hoid & ->)]; [by left | by right; left |].
        apply elem_of_cons in Hold as [-> | Hold]; [done |].
        right. right. eauto.
Qed.

(** X6. [PUT /api/sessions/<sid>] never changes a session id, the active
    set or a queue, and a PUT to an id no session has changes nothing at
    all.  With distinct ids the sessions afterwards are the old ones with
    another id plus the patched session; so a PUT of [manual] alone neither
    activates nor deactivates the session until a reconciliation pass. *)
Theorem session_put_patches_in_place (disk : Store) (sid : string)
    (body : SessionPatch) :
  let after := api_session_item_put disk sid body in
  s_id <$> sessions after = s_id <$> sessions disk ∧
  active_sessions after = active_sessions disk ∧
  pending_by_session after = pending_by_session disk ∧
  (sid ∉ s_id <$> sessions disk → after = disk) ∧
  (NoDup (s_id <$> sessions disk) →
   ∀ s, s ∈ sessions after ↔
        (s_id s ≠ sid ∧ s ∈ sessions disk) ∨
        (∃ old, old ∈ sessions disk ∧ s_id old = sid ∧
                s = apply_patch body old)).
Proof.
  cbv zeta. unfold api_session_item_put, _ensure_sessions_students, ensure_keys.
  cbn [sessions set_sessions active_sessions pending_by_session].
  split_and!; try done.
  - apply patch_first_ids.
  - intros Hsid. rewrite patch_first_unknown by done.
    unfold set_sessions. apply store_eta.
  - intros Hnd s. by apply patch_first_elem_of.
Qed.

Lemma session_put_patches_in_place_witness :
  api_session_item_put (manual_store ∅) "sess_7"
    {| sp_students := None; sp_controls := None; sp_schedule := None;
       sp_manual := Some true |}
  = manual_store ∅.
Proof.
  destruct (session_put_patches_in_place (manual_store ∅) "sess_7"
              {| sp_students := None; sp_controls := None;
                 sp_schedule := None; sp_manual := Some true |})
    as (_ & _ & _ & H & _).
  apply H. simpl. intros Hin. apply list_elem_of_singleton in Hin. discriminate.
Defined.

(** ** Sends and polls *)

Lemma api_command_accepted now u disk b sid cmd :
  is_staff u = true → command_sid b = Some sid →
  sid ∈ (_active_session_ids now disk).1 →
  b_command b = Some cmd → is_Some (cmd_type cmd) →
  api_command now u disk b
  = (reply_ok,
     let c := stamp now sid cmd in
     let d := _enqueue_session_cmd (_reconcile_active_sessions now disk) sid c in
     let target := py_strip (default "" (b_student b)) in
     if bool_decide (target = "") then d else push_one_shot d target c).
Proof.
  intros Hu Hsid Hact Hcmd Htype. unfold api_command, command_sid in *.
  rewrite Hu, Hsid, Hcmd.
  unfold _active_session_ids, _ensure_sessions_students, ensure_keys in *.
  cbn [fst negb] in *. rewrite bool_decide_eq_true_2 by done. cbn [negb].
  assert (empty_dict cmd = false) as ->.
  { unfold empty_dict. apply bool_decide_eq_false. intros ->.
    by destruct Htype. }
  rewrite bool_decide_eq_true_2 by done. cbn [negb orb]. done.
Qed.

Lemma push_one_shot_session_queue d student c sid :
  session_queue (push_one_shot d student c) sid = session_queue d sid.
Proof. done. Qed.

Lemma push_one_shot_student_queue d student c :
  student_queue (push_one_shot d student c) student
  = py_last_n 50 (student_queue d student ++ [c]).
Proof.
  unfold student_queue, push_one_shot. cbn [pending_per_student
    set_pending_per_student]. by rewrite lookup_insert_eq.
Qed.

Lemma drain_session_step_app out pbs sid :
  drain_session_step (out, pbs) sid
  = (out ++ (drain_session_step ([], pbs) sid).1,
     (drain_session_step ([], pbs) sid).2).
Proof.
  unfold drain_session_step.
  destruct (default [] (pbs !! sid)); cbn [fst snd]; [by rewrite app_nil_r | done].
Qed.

Lemma drain_sessions_app sids : ∀ out pbs,
  foldl drain_session_step (out, pbs) sids
  = (out ++ (foldl drain_session_step ([], pbs) sids).1,
     (foldl drain_session_step ([], pbs) sids).2).
Proof.
  induction sids as [| sid sids Hsids]; intros out pbs.
  - cbn [foldl fst snd]. by rewrite app_nil_r.
  - cbn [foldl]. rewrite (drain_session_step_app out).
    destruct (drain_session_step ([], pbs) sid) as [t pbs1]. cbn [fst snd].
    rewrite (Hsids (out ++ t)), (Hsids t). cbn [fst snd].
    by rewrite app_assoc.
Qed.

(** The reply of a poll: the student's one-shot queue, then what the active
    sessions enrolling the student hold under their own stamp. *)
Lemma api_commands_get_split now disk student :
  ∃ more,
    (api_commands_get now disk student).1 = student_queue disk student ++ more ∧
    ∀ c, c ∈ more ↔
         ∃ sid, sid ∈ polled_sessions now disk student ∧
                c ∈ session_queue disk sid ∧ stamped_for sid c = true.
Proof.
  rewrite api_commands_get_spec. cbv zeta. cbn [fst].
  rewrite polled_sessions_after_drain, drain_sessions_app. cbn [fst].
  eexists. split; [done |]. intros c.
  pose proof (drain_sessions_spec (polled_sessions now disk student) []
    (pending_by_session
       (_reconcile_active_sessions now (drain_per_student disk student).2)))
    as Hfold.
  destruct (foldl drain_session_step _ _) as [o pbs]. destruct Hfold as [Hout _].
  cbn [fst]. rewrite Hout.
  assert (Hsame : pending_by_session
            (_reconcile_active_sessions now (drain_per_student disk student).2)
          = pending_by_session disk).
  { rewrite drain_per_student_spec. cbn [snd].
    by destruct (student_queue disk student). }
  rewrite Hsame. unfold session_queue. split.
  - intros [Hnil | H]; [by apply elem_of_nil in Hnil | done].
  - by right.
Qed.

Lemma api_commands_get_out now disk student c :
  c ∈ (api_commands_get now disk student).1 ↔
  c ∈ student_queue disk student ∨
  ∃ sid, sid ∈ polled_sessions now disk student ∧
         c ∈ session_queue disk sid ∧ stamped_for sid c = true.
Proof.
  destruct (api_commands_get_split now disk student) as (more & -> & Hmore).
  by rewrite elem_of_app, Hmore.
Qed.

Lemma api_commands_get_queue now disk student sid :
  session_queue (api_commands_get now disk student).2 sid
  = if decide (sid ∈ polled_sessions now disk student)
    then filter (λ c, stamped_for sid c = false) (session_queue disk sid)
    else session_queue disk sid.
Proof.
  rewrite api_commands_get_spec. cbv zeta.
  cbn [snd]. rewrite polled_sessions_after_drain.
  pose proof (drain_sessions_spec (polled_sessions now disk student)
    (student_queue disk student)
    (pending_by_session
       (_reconcile_active_sessions now (drain_per_student disk student).2)))
    as Hfold.
  destruct (foldl drain_session_step _ _) as [o pbs]. destruct Hfold as [_ Hpbs].
  unfold session_queue. cbn [snd set_pending_by_session pending_by_session].
  rewrite Hpbs. rewrite drain_per_student_spec. cbn [snd].
  by destruct (student_queue disk student).
Qed.

Lemma api_commands_get_student_queue now disk student other :
  student_queue (api_commands_get now disk student).2 other
  = if decide (other = student) then [] else student_queue disk other.
Proof.
  rewrite api_commands_get_spec. cbv zeta. cbn [snd].
  unfold student_queue. cbn [set_pending_by_session pending_per_student].
  change (pending_per_student (_reconcile_active_sessions now ?d))
    with (pending_per_student d).
  case_decide as Heq.
  - subst other. apply (drained_student_queue disk student).
  - rewrite drain_per_student_spec. cbn [snd].
    destruct (student_queue disk student); [done |].
    cbn [set_pending_per_student pending_per_student].
    by rewrite lookup_insert_ne.
Qed.

Lemma stamped_for_stamp now sid cmd sid' :
  stamped_for sid' (stamp now sid cmd) = true ↔ sid' = sid.
Proof. unfold stamped_for. rewrite bool_decide_eq_true. simpl. naive_solver. Qed.

Lemma last_elem_of {A} (l : list A) x : last l = Some x → x ∈ l.
Proof.
  intros H. apply last_Some in H as [l' ->]. apply elem_of_app. right.
  apply list_elem_of_here.
Qed.

(** X7. A command a teacher sends to an active session is stamped and put
    last in the session queue; the first enrolled student who polls while
    the session is active receives it, and that poll takes it out of the
    queue: a later poll, by any student at any instant, does not deliver it
    unless the student's own one-shot queue holds it.  A session command is
    thus consumed by the first poller, not broadcast to the roster. *)
Theorem command_goes_to_first_poller (now : Instant) (u : option User)
    (disk : Store) (b : CommandReq) (sid : string) (cmd : Command) :
  is_staff u = true →
  command_sid b = Some sid →
  sid ∈ (_active_session_ids now disk).1 →
  b_command b = Some cmd →
  is_Some (cmd_type cmd) →
  let sent := (api_command now u disk b).2 in
  let c := stamp now sid cmd in
  (api_command now u disk b).1 = reply_ok ∧
  last (session_queue sent sid) = Some c ∧
  ∀ now1 student,
    sid ∈ polled_sessions now1 sent student →
    let polled := api_commands_get now1 sent student in
    c ∈ polled.1 ∧
    (∀ c', c' ∈ session_queue polled.2 sid → stamped_for sid c' = false) ∧
    ∀ now2 other,
      c ∉ student_queue polled.2 other →
      c ∉ (api_commands_get now2 polled.2 other).1.
Proof.
  intros Hu Hsid Hact Hcmd Htype. cbv zeta.
  rewrite (api_command_accepted now u disk b sid cmd) by done.
  cbv zeta. cbn [fst snd].
  set (c := stamp now sid cmd).
  set (d := _enqueue_session_cmd _ sid c).
  set (sent := if bool_decide _ then d else _).
  assert (Hq : session_queue sent sid = session_queue d sid).
  { subst sent. by case_bool_decide. }
  assert (Hlast : last (session_queue sent sid) = Some c).
  { rewrite Hq. subst d. rewrite enqueue_session_queue.
    apply py_last_n_snoc. lia. }
  split_and!; [done | done |].
  intros now1 student Hpolled.
  assert (Hleft : ∀ c', c' ∈ session_queue
                     (api_commands_get now1 sent student).2 sid →
                   stamped_for sid c' = false).
  { intros c' Hc'. rewrite api_commands_get_queue, decide_True in Hc' by done.
    by apply list_elem_of_filter in Hc' as [? _]. }
  split_and!; [| done |].
  - apply api_commands_get_out. right. exists sid.
    split_and!; [done | by apply last_elem_of |].
    by apply stamped_for_stamp.
  - intros now2 other Hnone Hin.
    apply api_commands_get_out in Hin as [Hin | (sid' & _ & Hin & Hst)]; [done |].
    apply stamped_for_stamp in Hst as ->.
    apply Hleft in Hin. subst c.
    by rewrite (proj2 (stamped_for_stamp now sid cmd sid) eq_refl) in Hin.
Qed.

Lemma command_goes_to_first_poller_witness :
  stamp (at_offset 10) "sess_1" notify_hi
    ∈ (api_commands_get (at_offset 11)
         (api_command (at_offset 10) teacher (oneoff_store ∅) send_hi).2
         "alice").1 ∧
  stamp (at_offset 10) "sess_1" notify_hi
    ∉ (api_commands_get (at_offset 12)
         (api_commands_get (at_offset 11)
            (api_command (at_offset 10) teacher (oneoff_store ∅) send_hi).2
            "alice").2 "bob").1.
Proof.
  assert (Hact : "sess_1" ∈
    (_active_session_ids (at_offset 10) (oneoff_store ∅)).1).
  { apply (bool_decide_unpack _). vm_compute. exact I. }
  destruct (command_goes_to_first_poller (at_offset 10) teacher
              (oneoff_store ∅) send_hi "sess_1" notify_hi
              eq_refl eq_refl Hact eq_refl (mk_is_Some _ _ eq_refl))
    as (_ & _ & H).
  destruct (H (at_offset 11) "alice") as (Hin & _ & Hout).
  { apply (bool_decide_unpack _). vm_compute. exact I. }
  split; [exact Hin |].
  apply Hout. apply (bool_decide_unpack _). vm_compute. exact I.
Defined.

(** X8. A command sent with a target student goes to the session queue and
    to the student's one-shot queue alike.  The target receives it at the
    next poll whether or not it is enrolled in the session and whether or
    not the session is still active; a target that is enrolled and polls
    while the session is active finds the command twice in one reply. *)
Theorem targeted_command_twice (now : Instant) (u : option User)
    (disk : Store) (b : CommandReq) (sid : string) (cmd : Command) :
  is_staff u = true →
  command_sid b = Some sid →
  sid ∈ (_active_session_ids now disk).1 →
  b_command b = Some cmd →
  is_Some (cmd_type cmd) →
  py_strip (default "" (b_student b)) ≠ "" →
  let target := py_strip (default "" (b_student b)) in
  let sent := (api_command now u disk b).2 in
  let c := stamp now sid cmd in
  last (student_queue sent target) = Some c ∧
  (length (student_queue sent target) ≤ 50)%nat ∧
  ∀ now1,
    c ∈ (api_commands_get now1 sent target).1 ∧
    (sid ∈ polled_sessions now1 sent target →
     occurs_twice c (api_commands_get now1 sent target).1).
Proof.
  intros Hu Hsid Hact Hcmd Htype Htarget. cbv zeta.
  rewrite (api_command_accepted now u disk b sid cmd) by done.
  cbv zeta. cbn [snd]. rewrite bool_decide_eq_false_2 by done.
  set (c := stamp now sid cmd).
  set (d := _enqueue_session_cmd _ sid c).
  set (target := py_strip _).
  assert (Hlast : last (student_queue (push_one_shot d target c) target)
                  = Some c).
  { rewrite push_one_shot_student_queue. apply py_last_n_snoc. lia. }
  split_and!; [done | |].
  { rewrite push_one_shot_student_queue, py_last_n_length. lia. }
  intros now1. split.
  - apply api_commands_get_out. left. by apply last_elem_of.
  - intros Hpolled.
    destruct (api_commands_get_split now1 (push_one_shot d target c) target)
      as (more & -> & Hmore).
    apply last_Some in Hlast as [l1 ->].
    assert (Hin : c ∈ more).
    { apply Hmore. exists sid. split_and!; [done | |].
      - rewrite push_one_shot_session_queue. subst d.
        rewrite enqueue_session_queue. apply last_elem_of, py_last_n_snoc. lia.
      - by apply stamped_for_stamp. }
    apply list_elem_of_split in Hin as (l2 & l3 & ->).
    exists l1, l2, l3. by rewrite <- app_assoc.
Qed.

Lemma targeted_command_twice_witness :
  occurs_twice (stamp (at_offset 10) "sess_1" notify_hi)
    (api_commands_get (at_offset 11)
       (api_command (at_offset 10) teacher (oneoff_store ∅) send_to_alice).2
       "alice").1.
Proof.
  assert (Hact : "sess_1" ∈
    (_active_session_ids (at_offset 10) (oneoff_store ∅)).1).
  { apply (bool_decide_unpack _). vm_compute. exact I. }
  assert (Hne : py_strip (default "" (b_student send_to_alice)) ≠ "").
  { vm_compute. discriminate. }
  destruct (targeted_command_twice (at_offset 10) teacher
              (oneoff_store ∅) send_to_alice "sess_1" notify_hi
              eq_refl eq_refl Hact eq_refl (mk_is_Some _ _ eq_refl) Hne)
    as (_ & _ & H).
  apply (H (at_offset 11)).
  apply (bool_decide_unpack _). vm_compute. exact I.
Defined.

(** ** Stamps of queued commands *)

Lemma enqueue_well_stamped d sid c :
  stamped_for sid c = true → well_stamped d →
  well_stamped (_enqueue_session_cmd d sid c).
Proof.
  intros Hc Hd sid' c' Hin. destruct (decide (sid' = sid)) as [-> | Hne].
  - rewrite enqueue_session_queue in Hin.
    destruct (py_last_n_suffix 200 (session_queue d sid ++ [c])) as [k Hk].
    assert (Hc' : c' ∈ session_queue d sid ++ [c]).
    { rewrite Hk. apply elem_of_app. by right. }
    apply elem_of_app in Hc' as [Hc' | Hc']; [by apply Hd |].
    by apply list_elem_of_singleton in Hc' as ->.
  - unfold session_queue in Hin.
    rewrite enqueue_session_other in Hin by done. by apply Hd.
Qed.

Lemma reconcile_well_stamped now d :
  well_stamped d → well_stamped (_reconcile_active_sessions now d).
Proof. intros H. exact H. Qed.

Lemma push_one_shot_well_stamped d student c :
  well_stamped d → well_stamped (push_one_shot d student c).
Proof. intros H. exact H. Qed.

Lemma per_student_well_stamped q d :
  well_stamped d → well_stamped (set_pending_per_student q d).
Proof. intros H. exact H. Qed.

Ltac stamps :=
  repeat first
    [ assumption
    | apply reconcile_well_stamped
    | apply push_one_shot_well_stamped
    | apply per_student_well_stamped
    | apply enqueue_well_stamped; [by apply bool_decide_eq_true |] ].

Ltac handler_cases h :=
  unfold h, _active_session_ids, _ensure_sessions_students, ensure_keys;
  cbn [fst snd]; repeat case_match; cbn [fst snd].

(** X9. The send endpoints stamp what they put in a session queue with the
    id of that queue, and the one-shot endpoints do not touch the session
    queues: when every queued command carries the id of its queue, this is
    still so after any request to one of them, accepted or refused, and
    after any poll.  With such queues the poll holds nothing back: each
    queue it visits is left empty. *)
Theorem send_endpoints_keep_stamps (now : Instant) (disk : Store) :
  well_stamped disk →
  (∀ u b, well_stamped (api_command now u disk b).2) ∧
  (∀ u b, well_stamped (api_notify now u disk b).2) ∧
  (∀ u student b, well_stamped (api_commands_post now u disk student b).2) ∧
  (∀ b, well_stamped (api_open_tabs_alias now disk b).2) ∧
  (∀ u b, well_stamped (api_student_tabs_action now u disk b).2) ∧
  (∀ u b, well_stamped (api_student_open_tabs now u disk b).2) ∧
  (∀ student,
     let polled := api_commands_get now disk student in
     well_stamped polled.2 ∧
     ∀ sid, sid ∈ polled_sessions now disk student →
            session_queue polled.2 sid = []).
Proof.
  intros Hdisk. split_and!.
  - intros u b. handler_cases api_command; stamps.
  - intros u b. handler_cases api_notify; stamps.
  - intros u student b. handler_cases api_commands_post; stamps.
  - intros b. handler_cases api_open_tabs_alias; stamps.
  - intros u b. handler_cases api_student_tabs_action; stamps.
  - intros u b. handler_cases api_student_open_tabs; stamps.
  - intros student. cbv zeta. split.
    + intros sid c. rewrite api_commands_get_queue. case_decide.
      * intros [_ Hc]%list_elem_of_filter. by apply Hdisk.
      * apply Hdisk.
    + intros sid Hsid. rewrite api_commands_get_queue, decide_True by done.
      apply filter_none. intros c Hc. by rewrite (Hdisk sid c Hc).
Qed.

Lemma send_endpoints_keep_stamps_witness :
  well_stamped
    (api_command (at_offset 10) teacher (oneoff_store ∅) send_to_alice).2 ∧
  session_queue
    (api_commands_get (at_offset 11)
       (api_command (at_offset 10) teacher (oneoff_store ∅) send_to_alice).2
       "alice").2 "sess_1" = [].
Proof.
  assert (Hempty : well_stamped (oneoff_store ∅)).
  { intros sid c Hc. unfold session_queue in Hc. simpl in Hc.
    rewrite lookup_empty in Hc. by apply elem_of_nil in Hc. }
  destruct (send_endpoints_keep_stamps (at_offset 10) (oneoff_store ∅) Hempty)
    as (Hsent & _).
  split; [apply Hsent |].
  destruct (send_endpoints_keep_stamps (at_offset 11) _
              (Hsent teacher send_to_alice)) as (_ & _ & _ & _ & _ & _ & H).
  apply (H "alice"). apply (bool_decide_unpack _). vm_compute. exact I.
Defined.

(** ** One-shot commands *)

Lemma one_shot_delivered d student c :
  delivered_next_poll (push_one_shot d student c) student c.
Proof.
  unfold delivered_next_poll.
  assert (Hlast : last (student_queue (push_one_shot d student c) student)
                  = Some c).
  { rewrite push_one_shot_student_queue. apply py_last_n_snoc. lia. }
  split_and!; [done | |].
  - rewrite push_one_shot_student_queue, py_last_n_length. lia.
  - intros now1. split.
    + apply api_commands_get_out. left. by apply last_elem_of.
    + by rewrite api_commands_get_student_queue, decide_True.
Qed.

(** X10. The per-student endpoints need no session.  An accepted request to
    [/api/student/tabs_action], to [/api/open_tabs] with a student, or to
    [/api/student/open_tabs] puts its command last in the student's
    one-shot queue, which keeps the 50 newest; the student receives it at
    the next poll, at any instant, whatever sessions exist or are active,
    and that poll empties the one-shot queue.  [/api/open_tabs] accepts
    the request from any caller, provided the urls have a length (a text, a
    list or an object); for other truthy urls the handler raises and
    nothing is saved.  [/api/student/open_tabs] looks at the session only
    when the request names one, and refuses an inactive one without a
    change. *)
Theorem one_shots_need_no_session (now : Instant) (disk : Store) :
  (∀ u b,
     is_staff u = true →
     py_strip (default "" (ta_student b)) ≠ "" →
     py_strip (default "" (ta_action b)) ∈ ["restore_tabs"; "close_tabs"] →
     let student := py_strip (default "" (ta_student b)) in
     let r := api_student_tabs_action now u disk b in
     r.1 = reply_ok ∧
     delivered_next_poll r.2 student
       {| cmd_type := Some (py_strip (default "" (ta_action b)));
          cmd_session_id := None; cmd_ts := Some (unix_seconds now);
          cmd_fields := [] |} ∧
     sessions r.2 = sessions disk ∧
     active_sessions r.2 = active_sessions disk ∧
     pending_by_session r.2 = pending_by_session disk) ∧
  (∀ b urls,
     t_urls b = Some urls → json_truthy urls = true →
     py_strip (default "" (t_student b)) ≠ "" →
     let student := py_strip (default "" (t_student b)) in
     let r := api_open_tabs_alias now disk b in
     match json_len urls with
     | Some _ =>
         r.1 = reply_ok ∧
         delivered_next_poll r.2 student (open_tabs_command now urls None) ∧
         sessions r.2 = sessions disk ∧
         active_sessions r.2 = active_sessions disk ∧
         pending_by_session r.2 = pending_by_session disk
     | None => r = (internal_error, disk)
     end) ∧
  (∀ u b urls,
     is_staff u = true →
     t_urls b = Some urls → json_truthy urls = true →
     py_strip (default "" (t_student b)) ≠ "" →
     let student := py_strip (default "" (t_student b)) in
     let sid := truthy (py_or (t_session b) (t_session_id b)) in
     let r := api_student_open_tabs now u disk b in
     match sid with
     | Some s =>
         if decide (s ∈ (_active_session_ids now disk).1)
         then r.1 = reply_ok ∧
              delivered_next_poll r.2 student (open_tabs_command now urls sid) ∧
              pending_by_session r.2 = pending_by_session disk
         else r = (reply_error 409 "session not active", disk)
     | None =>
         r.1 = reply_ok ∧
         delivered_next_poll r.2 student (open_tabs_command now urls None) ∧
         active_sessions r.2 = active_sessions disk ∧
         pending_by_session r.2 = pending_by_session disk
     end).
Proof.
  split_and!.
  - intros u b Hu Hstudent Haction. cbv zeta. unfold api_student_tabs_action.
    rewrite Hu, (bool_decide_eq_false_2 _ Hstudent),
      (bool_decide_eq_true_2 _ Haction).
    cbn [negb orb fst snd]. split_and!; try done. apply one_shot_delivered.
  - intros b urls Hurls Htruthy Hstudent. cbv zeta. unfold api_open_tabs_alias.
    rewrite Hurls. cbn [default from_option id]. rewrite Htruthy.
    rewrite (bool_decide_eq_false_2 _ Hstudent).
    cbn [negb]. destruct (json_len urls); [| done].
    cbn [fst snd]. split_and!; try done. apply one_shot_delivered.
  - intros u b urls Hu Hurls Htruthy Hstudent. cbv zeta.
    unfold api_student_open_tabs.
    rewrite Hu, Hurls. cbn [default from_option id]. rewrite Htruthy.
    rewrite (bool_decide_eq_false_2 _ Hstudent). cbn [negb orb].
    destruct (truthy _) as [s |].
    + unfold _active_session_ids, _ensure_sessions_students, ensure_keys.
      cbn [fst snd]. case_decide as Hact.
      * rewrite bool_decide_eq_true_2 by done. cbn [negb fst snd].
        split_and!; try done. apply one_shot_delivered.
      * by rewrite bool_decide_eq_false_2.
    + cbn [fst snd]. split_and!; try done. apply one_shot_delivered.
Qed.

Lemma one_shots_need_no_session_witness :
  delivered_next_poll
    (api_student_tabs_action monday_noon teacher empty_store close_alice).2
    "alice"
    {| cmd_type := Some "close_tabs"; cmd_session_id := None;
       cmd_ts := Some (unix_seconds monday_noon); cmd_fields := [] |}.
Proof.
  destruct (one_shots_need_no_session monday_noon empty_store) as (H & _).
  assert (Hne : py_strip (default "" (ta_student close_alice)) ≠ "").
  { vm_compute. discriminate. }
  assert (Hact : py_strip (default "" (ta_action close_alice))
                   ∈ ["restore_tabs"; "close_tabs"]).
  { apply (bool_decide_unpack _). vm_compute. exact I. }
  destruct (H teacher close_alice eq_refl Hne Hact) as (_ & Hd & _).
  exact Hd.
Defined.

(** X11. [POST /api/commands/<student>] is refused like [/api/command]
    when the session is not active, and otherwise queues the stamped body
    twice: in the session queue, bounded by 200, and in the student's
    one-shot queue, which this endpoint, unlike the others, appends to
    without the bound of 50. *)
Theorem push_grows_one_shot_queue (now : Instant) (u : option User)
    (disk : Store) (student : string) (b : PushReq) (sid : string) :
  is_staff u = true →
  truthy (py_or (p_session b) (p_session_id b)) = Some sid →
  let r := api_commands_post now u disk student b in
  let c := pushed_command now sid b in
  (sid ∉ (_active_session_ids now disk).1 →
   r = (reply_error 409 "session not active", disk)) ∧
  (sid ∈ (_active_session_ids now disk).1 → truthy (p_type b) = None →
   r = (reply_error 400 "missing type", disk)) ∧
  (sid ∈ (_active_session_ids now disk).1 → is_Some (truthy (p_type b)) →
   r.1 = reply_ok ∧
   student_queue r.2 student = student_queue disk student ++ [c] ∧
   session_queue r.2 sid = py_last_n 200 (session_queue disk sid ++ [c]) ∧
   stamped_for sid c = true).
Proof.
  intros Hu Hsid. cbv zeta. unfold api_commands_post.
  rewrite Hu, Hsid.
  unfold _active_session_ids, _ensure_sessions_students, ensure_keys.
  cbn [negb fst snd]. split_and!.
  - intros Hout. by rewrite bool_decide_eq_false_2.
  - intros Hact Htype. rewrite bool_decide_eq_true_2 by done.
    rewrite Htype. cbn [negb].
    rewrite bool_decide_eq_false_2; [done |]. by intros [? ?].
  - intros Hact Htype. rewrite !bool_decide_eq_true_2 by done.
    cbn [negb fst snd]. split_and!; [done | | |].
    + unfold student_queue.
      cbn [set_pending_per_student pending_per_student].
      by rewrite lookup_insert_eq.
    + change (session_queue (set_pending_per_student ?q ?d) sid)
        with (session_queue d sid).
      by rewrite enqueue_session_queue.
    + by apply bool_decide_eq_true.
Qed.

Lemma push_grows_one_shot_queue_witness :
  length (student_queue
            (api_commands_post (at_offset 10) teacher
               (full_one_shots (oneoff_store ∅)) "alice" push_hi).2 "alice")
  = 51%nat.
Proof.
  assert (Hact : "sess_1" ∈
    (_active_session_ids (at_offset 10) (full_one_shots (oneoff_store ∅))).1).
  { apply (bool_decide_unpack _). vm_compute. exact I. }
  destruct (push_grows_one_shot_queue (at_offset 10) teacher
              (full_one_shots (oneoff_store ∅)) "alice" push_hi "sess_1"
              eq_refl eq_refl) as (_ & _ & H).
  destruct (H Hact (mk_is_Some _ _ eq_refl)) as (_ & -> & _).
  reflexivity.
Defined.

(** ** Heartbeats of signed-in students *)

Lemma not_guest_nonempty student name :
  _is_guest_identity (Some student) name = false → student ≠ "".
Proof. intros H ->. by vm_compute in H. Qed.

(** What the handler does past the guest gate; the branch for an empty
    student id is never taken there. *)
Lemma heartbeat_accepted now disk b :
  _is_guest_identity (Some (heartbeat_student b)) (hb_student_name b) = false →
  api_heartbeat now disk b
  = (let student := heartbeat_student b in
     let pres := update_presence now b (presence disk !! student) in
     let d1 := set_presence (<[student := pres]> (presence disk)) disk in
     let d2 :=
       set_history
         (<[student := update_timeline now (tab pres) (timeline_of disk student)]>
            (history disk)) d1 in
     let d3 :=
       match hb_shot_log b with
       | [] => d2
       | s :: log =>
           set_screenshots
             (<[student := py_last_n 200
                             (shots_of disk student
                              ++ (log_shot now <$> take 10 (s :: log)))]>
                (screenshots disk)) d2
       end in
     ({| r_ok := true; r_server_time := unix_seconds now;
         r_extension_enabled := extension_enabled disk;
         r_sessions :=
           Some ((_student_active_sessions now d3 student).1,
                 Some (_effective_state_for_student now d3 student)) |}, d3)).
Proof.
  intros Hguest. pose proof (not_guest_nonempty _ _ Hguest) as Hne.
  unfold api_heartbeat. fold (heartbeat_student b). rewrite Hguest.
  rewrite !(bool_decide_eq_false_2 _ Hne). unfold ensure_keys.
  by destruct (hb_shot_log b).
Qed.

Lemma not_guest_false email name :
  ¬ guest_identity email name → _is_guest_identity email name = false.
Proof.
  intros H. destruct (_is_guest_identity email name) eqn:Hg; [| done].
  by apply is_guest_identity_spec in Hg.
Qed.

(** X12. A heartbeat that passes the guest gate has a non-empty student id
    and writes under that id only: the sessions, the persisted active set,
    both queue maps and the extension switch are saved as they were read
    (the reconciliation done for the reply is not saved), and the presence,
    timeline and screenshot history of every other student are untouched.
    The student's presence carries the server time and the tabs sent, and
    keeps a tab shot only for a tab id among those tabs; a screenshot log
    adds at most ten entries and leaves at most 200.  The reply carries the
    stored extension switch. *)
Theorem heartbeat_touches_one_student (now : Instant) (disk : Store)
    (b : HeartbeatReq) :
  ¬ guest_identity (Some (heartbeat_student b)) (hb_student_name b) →
  let student := heartbeat_student b in
  let r := api_heartbeat now disk b in
  student ≠ "" ∧
  r_extension_enabled r.1 = extension_enabled disk ∧
  is_Some (r_sessions r.1) ∧
  sessions r.2 = sessions disk ∧
  active_sessions r.2 = active_sessions disk ∧
  pending_by_session r.2 = pending_by_session disk ∧
  pending_per_student r.2 = pending_per_student disk ∧
  extension_enabled r.2 = extension_enabled disk ∧
  (∀ other, other ≠ student →
     presence r.2 !! other = presence disk !! other ∧
     history r.2 !! other = history disk !! other ∧
     screenshots r.2 !! other = screenshots disk !! other) ∧
  (∃ pres,
     presence r.2 !! student = Some pres ∧
     last_seen pres = unix_seconds now ∧
     tabs pres = hb_tabs b ∧
     ∀ k, is_Some (tabshots pres !! k) → k ∈ open_ids (hb_tabs b)) ∧
  (hb_shot_log b = [] → screenshots r.2 = screenshots disk) ∧
  (hb_shot_log b ≠ [] →
     (length (shots_of r.2 student) ≤ 200)%nat ∧
     (length (shots_of r.2 student)
      ≤ length (shots_of disk student) + 10)%nat).
Proof.
  intros Hguest%not_guest_false. cbv zeta.
  rewrite (heartbeat_accepted now disk b Hguest). cbv zeta. cbn [fst snd].
  split_and!.
  - by apply not_guest_nonempty in Hguest.
  - done.
  - done.
  - by destruct (hb_shot_log b).
  - by destruct (hb_shot_log b).
  - by destruct (hb_shot_log b).
  - by destruct (hb_shot_log b).
  - by destruct (hb_shot_log b).
  - intros other Hne.
    destruct (hb_shot_log b); cbn [presence history screenshots set_presence
      set_history set_screenshots]; by rewrite !lookup_insert_ne.
  - eexists. split_and!.
    + destruct (hb_shot_log b); cbn [presence set_presence set_history
        set_screenshots]; apply lookup_insert_eq.
    + done.
    + done.
    + intros k [v Hk]. cbn [tabshots update_presence] in Hk.
      apply map_lookup_filter_Some in Hk as [_ Hin]. exact Hin.
  - by intros ->.
  - intros Hlog. destruct (hb_shot_log b) as [| s log]; [done |].
    unfold shots_of at 1 3. cbn [screenshots set_screenshots].
    rewrite lookup_insert_eq. cbn [default from_option id].
    rewrite py_last_n_length, length_app, length_fmap, length_take.
    fold (shots_of disk (heartbeat_student b)). split; lia.
Qed.

Lemma heartbeat_touches_one_student_witness :
  active_sessions (api_heartbeat monday_noon (oneoff_store ∅) alice_beat).2 = ∅ ∧
  "sess_1" ∈ active_sessions
               (_reconcile_active_sessions monday_noon (oneoff_store ∅)).
Proof.
  assert (Hnot : ¬ guest_identity (Some (heartbeat_student alice_beat))
                     (hb_student_name alice_beat)).
  { intros H%is_guest_identity_spec. by vm_compute in H. }
  destruct (heartbeat_touches_one_student monday_noon (oneoff_store ∅)
              alice_beat Hnot) as (_ & _ & _ & _ & Hact & _).
  split; [exact Hact |].
  apply (bool_decide_unpack _). vm_compute. exact I.
Defined.

(** ** Timeline *)

Lemma spaced_drop k tl : spaced tl → spaced (drop k tl).
Proof.
  intros H i a c Ha Hc. rewrite lookup_drop in Ha, Hc.
  apply (H (k + i)%nat); [done |]. by rewrite <- Nat.add_succ_r.
Qed.

Lemma spaced_snoc tl item :
  spaced tl →
  (∀ l, last tl = Some l →
        tl_url l ≠ tl_url item ∨ 15 ≤ tl_ts item - tl_ts l) →
  spaced (tl ++ [item]).
Proof.
  intros H Hl i a c Ha Hc.
  destruct (decide (S i < length tl)%nat) as [Hlt | Hge].
  - rewrite lookup_app_l in Ha, Hc by lia. by eapply H.
  - pose proof (lookup_lt_Some _ _ _ Hc) as Hi.
    rewrite length_app in Hi. cbn [length] in Hi.
    assert (Hlen : S i = length tl) by lia.
    rewrite lookup_app_l in Ha by lia.
    rewrite lookup_app_r in Hc by lia.
    replace (S i - length tl)%nat with 0%nat in Hc by lia.
    injection Hc as <-. apply Hl.
    rewrite last_lookup. by replace (pred (length tl)) with i by lia.
Qed.

Lemma update_timeline_cases now cur tl :
  update_timeline now cur tl = tl ∨
  ∃ item,
    update_timeline now cur tl = py_last_n 500 (tl ++ [item]) ∧
    tl_ts item = unix_seconds now ∧ tl_url item ≠ "" ∧
    ∀ l, last tl = Some l →
         tl_url l ≠ tl_url item ∨ 15 ≤ tl_ts item - tl_ts l.
Proof.
  unfold update_timeline. cbv zeta.
  destruct (andb _ _) eqn:Hadd; [| by left].
  right. eexists. split; [done |].
  apply andb_true_iff in Hadd as [Hurl Hlast].
  apply negb_true_iff, bool_decide_eq_false in Hurl.
  split_and!; [done | done |].
  intros l Hl. rewrite Hl in Hlast. cbn [tl_url tl_ts].
  apply orb_true_iff in Hlast as [Hne | Hold].
  - left. by apply negb_true_iff, bool_decide_eq_false in Hne.
  - right. by apply bool_decide_eq_true in Hold.
Qed.

(** X13. The timeline a heartbeat leaves for its student is the one it
    found, or that one with a single new item for the current tab, stamped
    with the server time and with a non-empty url, cut to its last 500
    items.  Neighbours with the same url are 15 seconds apart at least: a
    timeline with that spacing keeps it. *)
Theorem heartbeat_timeline_spaced (now : Instant) (disk : Store)
    (b : HeartbeatReq) :
  ¬ guest_identity (Some (heartbeat_student b)) (hb_student_name b) →
  let student := heartbeat_student b in
  let before := timeline_of disk student in
  let after := timeline_of (api_heartbeat now disk b).2 student in
  (spaced before → spaced after) ∧
  (length after ≤ length before `max` 500)%nat ∧
  (after = before ∨
   ∃ item, after = py_last_n 500 (before ++ [item]) ∧
           tl_ts item = unix_seconds now ∧ tl_url item ≠ "").
Proof.
  intros Hguest%not_guest_false. cbv zeta.
  rewrite (heartbeat_accepted now disk b Hguest). cbv zeta. cbn [snd].
  set (student := heartbeat_student b).
  set (before := timeline_of disk student).
  set (cur := tab _).
  assert (Hafter : ∀ d3,
    history d3 = <[student := update_timeline now cur before]> (history disk) →
    timeline_of d3 student = update_timeline now cur before).
  { intros d3 Hd3. unfold timeline_of. by rewrite Hd3, lookup_insert_eq. }
  rewrite Hafter by (by destruct (hb_shot_log b)).
  destruct (update_timeline_cases now cur before)
    as [-> | (item & -> & Hts & Hurl & Hlast)].
  { split_and!; [done | lia | by left]. }
  split_and!.
  - intros Hsp. apply spaced_drop. by apply spaced_snoc.
  - rewrite py_last_n_length, length_app. cbn [length]. lia.
  - right. by exists item.
Qed.

Lemma heartbeat_timeline_spaced_witness :
  spaced
    (timeline_of
       (api_heartbeat (at_offset 5)
          (api_heartbeat (at_offset 0) (oneoff_store ∅) alice_beat).2
          alice_beat).2 "alice@school.org").
Proof.
  assert (Hnot : ¬ guest_identity (Some (heartbeat_student alice_beat))
                     (hb_student_name alice_beat)).
  { intros H%is_guest_identity_spec. by vm_compute in H. }
  destruct (heartbeat_timeline_spaced (at_offset 0) (oneoff_store ∅)
              alice_beat Hnot) as (H0 & _).
  destruct (heartbeat_timeline_spaced (at_offset 5)
              (api_heartbeat (at_offset 0) (oneoff_store ∅) alice_beat).2
              alice_beat Hnot) as (H5 & _).
  apply H5, H0. intros i a c Ha. by destruct i.
Defined.

(** ** Extension switch *)

(** X14. [POST /api/extension/toggle] is refused with 403, without a
    change, for a caller who is not a teacher or admin.  Otherwise it
    stores the truth value of [enabled] (on when the key is absent) and
    changes nothing else; every later heartbeat that passes the guest gate
    is answered with the stored value, and a guest heartbeat with off
    whatever is stored. *)
Theorem extension_toggle_reaches_heartbeat (u : option User) (disk : Store)
    (enabled : option json) :
  let r := api_extension_toggle u disk enabled in
  let flag := from_option json_truthy true enabled in
  (is_staff u = false → r = (reply_error 403 "forbidden", disk, None)) ∧
  (is_staff u = true →
   r.1.1 = reply_ok ∧ r.2 = Some flag ∧
   r.1.2 = set_extension_enabled flag disk ∧
   ∀ now b,
     r_extension_enabled (api_heartbeat now r.1.2 b).1
     = if _is_guest_identity (Some (heartbeat_student b)) (hb_student_name b)
       then false else flag).
Proof.
  cbv zeta. unfold api_extension_toggle, ensure_keys. split.
  - by intros ->.
  - intros ->. cbn [negb fst snd]. split_and!; try done.
    intros now b. unfold api_heartbeat. fold (heartbeat_student b).
    by destruct (_is_guest_identity _ _).
Qed.

Lemma extension_toggle_reaches_heartbeat_witness :
  r_extension_enabled
    (api_heartbeat monday_noon
       (api_extension_toggle teacher (oneoff_store ∅) (Some (JBool false))).1.2
       alice_beat).1 = false.
Proof.
  destruct (extension_toggle_reaches_heartbeat teacher (oneoff_store ∅)
              (Some (JBool false))) as (_ & H).
  destruct (H eq_refl) as (_ & _ & _ & Hbeat).
  rewrite Hbeat. by vm_compute.
Defined.

(** ** The roster filter applied twice *)

Lemma skipped_filtered roster roster' x :
  skipped roster' (_filter_json_by_roster x roster) = skipped roster' x.
Proof. unfold skipped. by rewrite student_id_of_filtered. Qed.

Lemma skipped_inter roster roster' x :
  skipped (roster ∩ roster') x = skipped roster x || skipped roster' x.
Proof.
  unfold skipped. destruct (student_id_of x) as [sid |]; [| done].
  repeat case_bool_decide; simpl; try done; set_solver.
Qed.

Lemma filter_twice_list roster roster' (l : list json) :
  Forall (λ x, _filter_json_by_roster (_filter_json_by_roster x roster) roster'
               = _filter_json_by_roster x (roster ∩ roster')) l →
  (λ x, _filter_json_by_roster x roster') <$>
    filter (λ x, skipped roster' x = false)
      ((λ x, _filter_json_by_roster x roster) <$>
         filter (λ x, skipped roster x = false) l)
  = (λ x, _filter_json_by_roster x (roster ∩ roster')) <$>
      filter (λ x, skipped (roster ∩ roster') x = false) l.
Proof.
  induction 1 as [| x l Hx _ Hl]; [done |].
  rewrite !filter_cons, skipped_inter.
  destruct (skipped roster x) eqn:Hr; cbn [orb].
  - rewrite decide_False, decide_False by done. apply Hl.
  - rewrite decide_True by done. rewrite fmap_cons, filter_cons.
    rewrite skipped_filtered.
    destruct (skipped roster' x) eqn:Hr'.
    + rewrite decide_False, decide_False by done. apply Hl.
    + rewrite decide_True, decide_True by done.
      rewrite !fmap_cons, Hx. f_equal. apply Hl.
Qed.

Lemma filter_twice obj : ∀ roster roster',
  _filter_json_by_roster (_filter_json_by_roster obj roster) roster'
  = _filter_json_by_roster obj (roster ∩ roster').
Proof.
  induction obj as [| | | | l Hl | kvs Hkvs] using json_ind;
    intros roster roster'; try done.
  - rewrite !filter_list. f_equal. apply filter_twice_list.
    eapply Forall_impl; [exact Hl |]. intros x Hx. apply Hx.
  - rewrite !filter_dict. f_equal. rewrite <- list_fmap_compose.
    apply Forall_fmap_ext_1. eapply Forall_impl; [exact Hkvs |].
    intros [k v] Hv. cbn [fst snd compose] in *. f_equal. apply Hv.
Qed.

(** X15. With stack for its nesting (twice the depth in frames suffices on
    every CPython), filtering a value by one roster and then by another is
    filtering it by their intersection.  So the filter is idempotent (a
    response that went through it is a fixed point), the order of two
    boards does not matter, and filtering by a roster after the empty one,
    or the other way round, gives what the empty roster gives.  (At the
    stack bound a call returns its argument unfiltered, and the law is
    lost.) *)
Theorem roster_filter_composes (frames : nat) (obj : json)
    (roster roster' : gset string) :
  (2 * json_depth obj ≤ frames)%nat →
  let twice r1 r2 :=
    once ← filter_within frames obj r1; filter_within frames once r2 in
  twice roster roster'
  = Some (_filter_json_by_roster obj (roster ∩ roster')) ∧
  twice roster roster' = filter_within frames obj (roster ∩ roster') ∧
  twice roster roster = filter_within frames obj roster ∧
  twice roster roster' = twice roster' roster ∧
  twice roster ∅ = filter_within frames obj ∅ ∧
  twice ∅ roster = filter_within frames obj ∅.
Proof.
  intros Hdepth.
  assert (Hone : ∀ r, filter_within frames obj r
                      = Some (_filter_json_by_roster obj r)).
  { intros r. apply filter_within_enough. lia. }
  assert (Htwo : ∀ r1 r2,
            (once ← filter_within frames obj r1; filter_within frames once r2)
            = Some (_filter_json_by_roster obj (r1 ∩ r2))).
  { intros r1 r2. rewrite Hone. cbn [mbind option_bind].
    rewrite filter_within_enough, filter_twice; [done |].
    pose proof (json_depth_filtered r1 obj). lia. }
  cbv beta zeta. rewrite !Htwo, !Hone. split_and!; try done.
  - by rewrite intersection_idemp_L.
  - by rewrite (comm_L (∩) roster).
  - by replace (roster ∩ ∅) with (∅ : gset string) by set_solver.
  - by replace (∅ ∩ roster) with (∅ : gset string) by set_solver.
Qed.

Lemma roster_filter_composes_witness :
  (once ← filter_within recursion_limit
            (JList [entry_for "s1"; entry_for "s2"; entry_for "s3"])
            {["s1"; "s2"]};
   filter_within recursion_limit once {["s2"; "s3"]})
  = Some (JList [entry_for "s2"]).
Proof.
  assert (Hdepth : (2 * json_depth
                          (JList [entry_for "s1"; entry_for "s2";
                                  entry_for "s3"])
                    ≤ recursion_limit)%nat).
  { apply (bool_decide_unpack _). vm_compute. exact I. }
  destruct (roster_filter_composes recursion_limit
              (JList [entry_for "s1"; entry_for "s2"; entry_for "s3"])
              {["s1"; "s2"]} {["s2"; "s3"]} Hdepth) as (H & _).
  rewrite H. vm_compute. reflexivity.
Defined.

(** ** Inbound scoping *)

Lemma keep_enrolled_Some roster l : ∀ l',
  keep_enrolled roster l = Some l' →
  ∀ x, x ∈ l' → ∃ s, x = JStr s ∧ s ∈ roster.
Proof.
  induction l as [| y l Hl]; intros l' Hkeep x Hx.
  - injection Hkeep as <-. by apply elem_of_nil in Hx.
  - cbn [keep_enrolled] in Hkeep.
    destruct (in_roster roster y) as [b |] eqn:Hb; [| done].
    destruct (keep_enrolled roster l) as [rest |] eqn:Hrest; [| done].
    cbn in Hkeep. injection Hkeep as <-.
    destruct b; [| by apply (Hl rest)].
    apply elem_of_cons in Hx as [-> | Hx]; [| by apply (Hl rest)].
    destruct y; try done. injection Hb as Hb.
    apply bool_decide_eq_true in Hb. eauto.
Qed.

Lemma keep_enrolled_None roster l x :
  x ∈ l → unhashable x → keep_enrolled roster l = None.
Proof.
  induction l as [| y l Hl]; intros Hin Hx; [by apply elem_of_nil in Hin |].
  cbn [keep_enrolled]. apply elem_of_cons in Hin as [<- | Hin].
  - by destruct x.
  - rewrite (Hl Hin Hx). by destruct (in_roster roster y).
Qed.

Lemma jget_jset k v kvs : jget k (jset k v kvs) = Some v.
Proof.
  induction kvs as [| [k' v'] kvs Hkvs]; cbn [jset].
  - cbn [jget]. by rewrite decide_True.
  - case_decide as Hk; cbn [jget]; [by rewrite decide_True |].
    by rewrite decide_False.
Qed.

Lemma scoping_body_dict roster kvs :
  scoping_body roster (Some (JDict kvs))
  = (kvs ← match jget "students" kvs with
           | Some (JList l) =>
               l ← keep_enrolled roster l;
               Some (jset "students" (JList l) kvs)
           | _ => Some kvs
           end;
     match _extract_student_id_from_body (JDict kvs) with
     | Some sid =>
         if negb (bool_decide (roster = ∅)) && negb (bool_decide (sid ∈ roster))
         then Some Ignored
         else Some (Rewritten (JDict kvs))
     | None => Some (Rewritten (JDict kvs))
     end).
Proof. by destruct kvs. Qed.

Lemma scoping_before_scoped store req :
  scoped_request req →
  (_session_scoping_before store req).2
  = default Untouched
      (scoping_body (g_session_students (_session_scoping_before store req).1)
         (req_json req)).
Proof.
  intros (Hsid & Hmethod & Hpath & Hjson). unfold _session_scoping_before.
  cbn [fst snd g_session_students].
  by rewrite !bool_decide_eq_true_2, Hpath, Hjson.
Qed.

Lemma scoping_before_unscoped store req :
  ¬ scoped_request req → (_session_scoping_before store req).2 = Untouched.
Proof.
  intros Hnot. unfold _session_scoping_before. cbn [snd].
  destruct (andb _ _) eqn:Hcond; [| done].
  destruct (is_json req) eqn:Hjson; [| done].
  exfalso. apply Hnot.
  apply andb_true_iff in Hcond as [Hcond Hpath].
  apply andb_true_iff in Hcond as [Hsid Hmethod].
  apply bool_decide_eq_true in Hsid, Hmethod. done.
Qed.

Lemma scoping_body_verdicts roster parsed v :
  scoping_body roster parsed = Some v →
  match v with
  | Untouched => False
  | Ignored => roster ≠ ∅
  | Rewritten body =>
      ∃ kvs, body = JDict kvs ∧
        (∀ l x, jget "students" kvs = Some (JList l) → x ∈ l →
                ∃ s, x = JStr s ∧ s ∈ roster) ∧
        (∀ s, _extract_student_id_from_body body = Some s →
              roster = ∅ ∨ s ∈ roster)
  end.
Proof.
  unfold scoping_body.
  set (body := match parsed with Some j => _ | None => _ end).
  destruct body as [| | | | | kvs]; try done.
  set (students := jget "students" kvs).
  assert (Hstudents : students = jget "students" kvs) by done.
  clearbody students.
  set (new := match students with Some (JList l) => _ | _ => Some kvs end).
  assert (Hnew : ∀ kvs', new = Some kvs' →
            ∀ l x, jget "students" kvs' = Some (JList l) → x ∈ l →
                   ∃ s, x = JStr s ∧ s ∈ roster).
  { subst new. intros kvs' Hkvs' l x Hl Hx.
    destruct students as [[| | | | l0 |] |];
      try (injection Hkvs' as <-; congruence).
    destruct (keep_enrolled roster l0) as [l1 |] eqn:Hkeep; [| done].
    cbn in Hkvs'. injection Hkvs' as <-. rewrite jget_jset in Hl.
    injection Hl as <-. by apply (keep_enrolled_Some roster l0 l1). }
  destruct new as [kvs' |]; [| done]. cbn [mbind option_bind].
  specialize (Hnew kvs' eq_refl).
  destruct (_extract_student_id_from_body (JDict kvs')) as [sid |] eqn:Hsid.
  - destruct (negb (bool_decide (roster = ∅))) eqn:Hempty;
      destruct (negb (bool_decide (sid ∈ roster))) eqn:Hmem; cbn [andb];
      intros [= <-].
    + by apply negb_true_iff, bool_decide_eq_false in Hempty.
    + exists kvs'. split_and!; [done | done |]. intros s. rewrite Hsid.
      intros [= <-]. right.
      by apply negb_false_iff, bool_decide_eq_true in Hmem.
    + exists kvs'. split_and!; [done | done |]. intros s _. left.
      by apply negb_false_iff, bool_decide_eq_true in Hempty.
    + exists kvs'. split_and!; [done | done |]. intros s _. left.
      by apply negb_false_iff, bool_decide_eq_true in Hempty.
  - intros [= <-]. exists kvs'. split_and!; [done | done |].
    intros s. by rewrite Hsid.
Qed.

(** X16. The before-request hook takes the roster from the first session
    with the id the request names, the empty set when there is none.  A
    request it lets through with a rewritten body has an object as body,
    whose [students] list, if any, holds only strings of the roster, and
    which names no student outside a non-empty roster.  It answers
    "ignored" only under a non-empty roster: the board of an unknown
    session, or of one without students, blocks no request.  A request
    without a session id, with another method than POST or PUT, or that is
    not JSON is never touched. *)
Theorem inbound_scoping_enforces_roster (store : Store) (req : Request) :
  let r := _session_scoping_before store req in
  let roster := g_session_students r.1 in
  roster
  = from_option (session_roster store) ∅
      (truthy (py_or (arg_session req) (header_session req))) ∧
  (∀ body, r.2 = Rewritten body →
     ∃ kvs, body = JDict kvs ∧
       (∀ l x, jget "students" kvs = Some (JList l) → x ∈ l →
               ∃ s, x = JStr s ∧ s ∈ roster) ∧
       (∀ s, _extract_student_id_from_body body = Some s →
             roster = ∅ ∨ s ∈ roster)) ∧
  (r.2 = Ignored → roster ≠ ∅ ∧ scoped_request req) ∧
  (¬ scoped_request req → r.2 = Untouched) ∧
  (∀ kvs, scoped_request req → req_json req = Some (JDict kvs) →
     jget "students" kvs = None →
     r.2 = match _extract_student_id_from_body (JDict kvs) with
           | Some s =>
               if decide (roster ≠ ∅ ∧ s ∉ roster) then Ignored
               else Rewritten (JDict kvs)
           | None => Rewritten (JDict kvs)
           end).
Proof.
  cbv zeta.
  assert (Hcases : scoped_request req ∨ ¬ scoped_request req).
  { unfold scoped_request. destruct (is_json req); [| naive_solver].
    destruct (session_scoped (req_path req)); [| naive_solver].
    destruct (decide (method req ∈ ["POST"; "PUT"])); [| naive_solver].
    destruct (truthy _); [left | right]; naive_solver. }
  split_and!.
  - unfold _session_scoping_before. cbn [fst g_session_students].
    by destruct (truthy _).
  - intros body Hbody. destruct Hcases as [Hs | Hn].
    + rewrite scoping_before_scoped in Hbody by done.
      destruct (scoping_body _ _) as [v |] eqn:Hv; [| done].
      cbn in Hbody. subst v. by apply scoping_body_verdicts in Hv.
    + by rewrite scoping_before_unscoped in Hbody.
  - intros Hign. destruct Hcases as [Hs | Hn].
    + split; [| done]. rewrite scoping_before_scoped in Hign by done.
      destruct (scoping_body _ _) as [v |] eqn:Hv; [| done].
      cbn in Hign. subst v. by apply scoping_body_verdicts in Hv.
    + by rewrite scoping_before_unscoped in Hign.
  - apply scoping_before_unscoped.
  - intros kvs Hs Hjson Hnone. rewrite scoping_before_scoped by done.
    rewrite Hjson, scoping_body_dict, Hnone. cbn [mbind option_bind].
    destruct (_extract_student_id_from_body (JDict kvs)) as [s |]; [| done].
    case_decide as Hd.
    + destruct Hd as [Hne Hout].
      by rewrite (bool_decide_eq_false_2 _ Hne), (bool_decide_eq_false_2 _ Hout).
    + destruct (decide (g_session_students
                          (_session_scoping_before store req).1 = ∅))
        as [He | Hne].
      * by rewrite (bool_decide_eq_true_2 _ He).
      * rewrite (bool_decide_eq_false_2 _ Hne).
        rewrite bool_decide_eq_true_2; [done |].
        destruct (decide (s ∈ g_session_students
                                (_session_scoping_before store req).1));
          [done | naive_solver].
Qed.

Lemma heartbeat_for_scoped student extra :
  scoped_request (heartbeat_for student extra).
Proof.
  split_and!; [by eexists | | done | done].
  apply list_elem_of_here.
Qed.

Lemma inbound_scoping_enforces_roster_witness :
  (_session_scoping_before (oneoff_store ∅) (heartbeat_for "mallory" [])).2
  = Ignored ∧
  (_session_scoping_before (oneoff_store ∅) (heartbeat_for "alice" [])).2
  = Rewritten (JDict [("student", JStr "alice")]).
Proof.
  split.
  - destruct (inbound_scoping_enforces_roster (oneoff_store ∅)
                (heartbeat_for "mallory" [])) as (_ & _ & _ & _ & H).
    rewrite (H _ (heartbeat_for_scoped _ _) eq_refl eq_refl). by vm_compute.
  - destruct (inbound_scoping_enforces_roster (oneoff_store ∅)
                (heartbeat_for "alice" [])) as (_ & _ & _ & _ & H).
    rewrite (H _ (heartbeat_for_scoped _ _) eq_refl eq_refl). by vm_compute.
Defined.

(** X17. The hook fails open.  When the body of a scoped request is JSON
    but not an object, or when its [students] list holds a nested list or
    object, the block raises and the request goes on untouched: nothing is
    removed from [students] and a student outside the roster is not turned
    away. *)
Theorem inbound_scoping_fails_open (store : Store) (req : Request) :
  scoped_request req →
  let r := _session_scoping_before store req in
  (∀ j, req_json req = Some j → json_truthy j = true →
        (∀ kvs, j ≠ JDict kvs) → r.2 = Untouched) ∧
  (∀ kvs l x, req_json req = Some (JDict kvs) →
              jget "students" kvs = Some (JList l) → x ∈ l → unhashable x →
              r.2 = Untouched).
Proof.
  intros Hs. cbv zeta. rewrite scoping_before_scoped by done. split.
  - intros j -> Htruthy Hnot. unfold scoping_body. rewrite Htruthy.
    destruct j; try done. by destruct (Hnot kvs).
  - intros kvs l x -> Hl Hx Hun. rewrite scoping_body_dict, Hl.
    by rewrite (keep_enrolled_None _ l x Hx Hun).
Qed.

Lemma inbound_scoping_fails_open_witness :
  (_session_scoping_before (oneoff_store ∅)
     (heartbeat_for "mallory" [("students", JList [JList []])])).2
  = Untouched.
Proof.
  destruct (inbound_scoping_fails_open (oneoff_store ∅)
              (heartbeat_for "mallory" [("students", JList [JList []])])
              (heartbeat_for_scoped _ _)) as (_ & H).
  apply (H _ [JList []] (JList []) eq_refl eq_refl (list_elem_of_here _ _) I).
Defined.

(** ** Sanitised identifiers *)

Lemma has_char_app a s t :
  has_char a (s +:+ t) = has_char a s || has_char a t.
Proof.
  induction s as [| b s Hs]; [done |]. simpl.
  by rewrite Hs, orb_assoc.
Qed.

Lemma sanitize_has_char a s :
  has_char a (sanitize s) = true → id_char a = true ∧ has_char a s = true.
Proof.
  induction s as [| b s Hs]; [done |]. cbn [sanitize has_char].
  destruct (id_char b) eqn:Hb; cbn [has_char].
  - rewrite !orb_true_iff, bool_decide_eq_true.
    intros [-> | H]; [by auto |]. destruct (Hs H). auto.
  - intros H. destruct (Hs H). rewrite orb_true_iff. auto.
Qed.

Lemma sanitize_idemp s : sanitize (sanitize s) = sanitize s.
Proof.
  induction s as [| a s Hs]; [done |]. cbn [sanitize].
  destruct (id_char a) eqn:Ha; [| done]. cbn [sanitize]. by rewrite Ha, Hs.
Qed.

Lemma sanitize_app s t : sanitize (s +:+ t) = sanitize s +:+ sanitize t.
Proof.
  induction s as [| a s Hs]; [done |]. simpl.
  destruct (id_char a); [| done]. simpl. by rewrite Hs.
Qed.

Lemma string_length_app s t :
  String.length (s +:+ t) = (String.length s + String.length t)%nat.
Proof. induction s as [| a s Hs]; [done |]. simpl. by rewrite Hs. Qed.

Lemma string_app_inv_tail s1 : ∀ s2 t, s1 +:+ t = s2 +:+ t → s1 = s2.
Proof.
  induction s1 as [| a s1 Hs1]; intros [| b s2] t Heq; [done | | |].
  - apply (f_equal String.length) in Heq.
    change (String b s2 +:+ t) with (String b (s2 +:+ t)) in Heq.
    change ("" +:+ t) with t in Heq.
    change (String.length (String b (s2 +:+ t)))
      with (S (String.length (s2 +:+ t))) in Heq.
    rewrite string_length_app in Heq. lia.
  - apply (f_equal String.length) in Heq.
    change (String a s1 +:+ t) with (String a (s1 +:+ t)) in Heq.
    change ("" +:+ t) with t in Heq.
    change (String.length (String a (s1 +:+ t)))
      with (S (String.length (s1 +:+ t))) in Heq.
    rewrite string_length_app in Heq. lia.
  - change (String a (s1 +:+ t) = String b (s2 +:+ t)) in Heq.
    injection Heq as -> Heq. f_equal. by apply (Hs1 s2 t).
Qed.

Lemma string_app_inv_head s t1 t2 : s +:+ t1 = s +:+ t2 → t1 = t2.
Proof.
  induction s as [| a s Hs]; [done |]. intros Heq.
  change (String a (s +:+ t1) = String a (s +:+ t2)) in Heq.
  injection Heq as Heq. by apply Hs.
Qed.

(** X18. The scenes file of a session is named from the id with every
    character outside [a-zA-Z0-9_-] removed.  The name holds no path
    separator, so the file stays in the application directory, and it is
    never the global [scenes.json]; two session ids share one scenes file
    exactly when their cleaned forms are equal, so ids that differ only in
    removed characters read and write the same scenes. *)
Theorem scenes_file_stays_in_root (sid sid' : string) :
  sid ≠ "" → sid' ≠ "" →
  let file := _scenes_file_for (Some sid) in
  file = "scene." +:+ sanitize sid +:+ ".json" ∧
  has_char "/" file = false ∧
  has_char "\" file = false ∧
  file ≠ _scenes_file_for None ∧
  file ≠ _scenes_file_for (Some "") ∧
  (file = _scenes_file_for (Some sid') ↔ sanitize sid = sanitize sid') ∧
  sanitize (sanitize sid) = sanitize sid.
Proof.
  intros Hsid Hsid'. cbv zeta.
  assert (Hfile : ∀ s, s ≠ "" →
            _scenes_file_for (Some s) = "scene." +:+ sanitize s +:+ ".json").
  { intros s Hs. unfold _scenes_file_for, truthy.
    by rewrite bool_decide_eq_false_2. }
  assert (Hsep : ∀ a, id_char a = false →
            has_char a "scene." = false → has_char a ".json" = false →
            has_char a ("scene." +:+ sanitize sid +:+ ".json") = false).
  { intros a Ha H1 H2. rewrite !has_char_app, H1, H2, orb_false_r.
    cbn [orb]. destruct (has_char a (sanitize sid)) eqn:Hin; [| done].
    apply sanitize_has_char in Hin as [Hin _]. congruence. }
  rewrite (Hfile sid Hsid), (Hfile sid' Hsid'). split_and!.
  - done.
  - by apply Hsep.
  - by apply Hsep.
  - discriminate.
  - discriminate.
  - split.
    + intros Heq. apply string_app_inv_head in Heq.
      by apply string_app_inv_tail in Heq.
    + by intros ->.
  - apply sanitize_idemp.
Qed.

Lemma scenes_file_stays_in_root_witness :
  _scenes_file_for (Some "../sess_1") = _scenes_file_for (Some "sess_1") ∧
  has_char "/" (_scenes_file_for (Some "../sess_1")) = false.
Proof.
  destruct (scenes_file_stays_in_root "../sess_1" "sess_1")
    as (_ & Hsep & _ & _ & _ & Hshare & _); [done | done |].
  split; [by apply Hshare | exact Hsep].
Defined.

(** ** Presentation signalling *)

Lemma room_of_insert now rooms room r :
  room_of now (<[room := r]> rooms) room = r.
Proof. unfold room_of. by rewrite lookup_insert_eq. Qed.

(** X19. Candidates cross over: what one side posts for a client is
    appended to what was pending for the other side, which fetches all of
    it, in order, with its next GET and finds nothing at the GET after
    that; the sender never gets its own candidates back.  Room names and
    client ids are matched after cleaning, and a side is the viewer when
    its name starts with v or V, the teacher otherwise. *)
Theorem present_candidates_cross (now : Instant) (rooms : gmap string Room)
    (room side client_id : string) (cands : list json) :
  let posted :=
    api_present_candidate_post now rooms room side client_id cands in
  let r := room_of now rooms (sanitize room) in
  let pending :=
    default [] (bucket (is_viewer side) r !! sanitize client_id) in
  (∀ now1 room1 side1 client_id1,
     sanitize room1 = sanitize room →
     sanitize client_id1 = sanitize client_id →
     is_viewer side1 = negb (is_viewer side) →
     let got := api_present_candidate_get now1 posted room1 side1 client_id1 in
     got.1 = pending ++ cands ∧
     ∀ now2,
       (api_present_candidate_get now2 got.2 room1 side1 client_id1).1 = []) ∧
  (∀ now1,
     (api_present_candidate_get now1 posted room side client_id).1
     = default [] (bucket (negb (is_viewer side)) r !! sanitize client_id)).
Proof.
  cbv zeta. split.
  - intros now1 room1 side1 client_id1 Hroom Hid Hside.
    unfold api_present_candidate_get, api_present_candidate_post.
    cbv zeta. rewrite Hroom, Hid, Hside, negb_involutive.
    rewrite !room_of_insert. cbn [fst snd]. split.
    + destruct cands as [| c cands].
      * rewrite app_nil_r. by destruct (is_viewer side).
      * destruct (is_viewer side); cbn [bucket set_bucket set_updated cand_v
          cand_t]; by rewrite lookup_insert_eq.
    + intros now2. rewrite !room_of_insert.
      destruct (is_viewer side); cbn [bucket set_bucket cand_v cand_t];
        by rewrite lookup_insert_eq.
  - intros now1.
    unfold api_present_candidate_get, api_present_candidate_post.
    cbv zeta. rewrite !room_of_insert. cbn [fst].
    destruct cands; by destruct (is_viewer side).
Qed.

Lemma present_candidates_cross_witness :
  (api_present_candidate_get monday_noon
     (api_present_candidate_post monday_noon ∅ "room1" "viewer" "v1"
        [JStr "c1"; JStr "c2"])
     "room.1" "Teacher" "v1").1 = [JStr "c1"; JStr "c2"].
Proof.
  destruct (present_candidates_cross monday_noon ∅ "room1" "viewer" "v1"
              [JStr "c1"; JStr "c2"]) as [H _].
  destruct (H monday_noon "room.1" "Teacher" "v1" eq_refl eq_refl eq_refl)
    as [-> _].
  reflexivity.
Defined.

(** X20. An offer is stored under the client id as the viewer sent it,
    and the teacher's poll shows it.  An answer is stored under the cleaned
    id and read back by a GET for any id with that cleaned form.  The
    answer removes the offer stored under the cleaned id only: the offer of
    a viewer whose id holds a character outside [a-zA-Z0-9_-] is removed by
    no answer and stays in the teacher's poll. *)
Theorem present_answer_and_offer (now : Instant) (rooms : gmap string Room)
    (room : string) (sdp : json) (client_id : option string) (fresh : string) :
  let offered := api_present_viewer_offer now rooms room sdp client_id fresh in
  let c := offered.1 in
  c = default fresh (truthy client_id) ∧
  (∀ now1, (api_present_offers now1 offered.2 room).1 !! c = Some sdp) ∧
  ∀ now2 answered_id sdp2,
    let answered :=
      api_present_answer_post now2 offered.2 room answered_id sdp2 in
    (∀ now3 asked_id,
       sanitize asked_id = sanitize answered_id →
       (api_present_answer_get now3 answered room asked_id).1 = Some sdp2) ∧
    (∀ now3,
       (api_present_offers now3 answered room).1 !! c
       = if decide (sanitize answered_id = c) then None else Some sdp) ∧
    (sanitize c ≠ c →
     ∀ now3, (api_present_offers now3 answered room).1 !! c = Some sdp).
Proof.
  cbv zeta. unfold api_present_viewer_offer. cbn [fst snd].
  set (c := default fresh (truthy client_id)).
  split_and!; [done | |].
  { intros now1. unfold api_present_offers. cbn [fst].
    rewrite room_of_insert. cbn [offers]. apply lookup_insert_eq. }
  intros now2 answered_id sdp2.
  assert (Hoffers : ∀ now3,
    (api_present_offers now3
       (api_present_answer_post now2
          (<[sanitize room :=
               {| offers := <[c := sdp]> (offers (room_of now rooms (sanitize room)));
                  answers := answers (room_of now rooms (sanitize room));
                  cand_v := cand_v (room_of now rooms (sanitize room));
                  cand_t := cand_t (room_of now rooms (sanitize room));
                  updated := unix_seconds now;
                  room_active := room_active (room_of now rooms (sanitize room)) |}]>
             rooms) room answered_id sdp2) room).1 !! c
    = if decide (sanitize answered_id = c) then None else Some sdp).
  { intros now3. unfold api_present_offers, api_present_answer_post.
    cbn [fst]. rewrite !room_of_insert. cbn [offers]. case_decide as Hc.
    - rewrite Hc. apply lookup_delete_eq.
    - rewrite lookup_delete_ne by done. apply lookup_insert_eq. }
  split_and!.
  - intros now3 asked_id Hasked.
    unfold api_present_answer_get, api_present_answer_post. cbn [fst].
    rewrite Hasked, !room_of_insert. cbn [answers]. apply lookup_insert_eq.
  - exact Hoffers.
  - intros Hdirty now3. rewrite Hoffers. rewrite decide_False; [done |].
    intros Heq. apply Hdirty. by rewrite <- Heq, sanitize_idemp.
Qed.

Lemma present_answer_and_offer_witness :
  (api_present_offers monday_noon
     (api_present_answer_post monday_noon
        (api_present_viewer_offer monday_noon ∅ "room1" (JStr "offer")
           (Some "v.1") "uuid").2
        "room1" "v.1" (JStr "answer"))
     "room1").1 !! "v.1" = Some (JStr "offer").
Proof.
  destruct (present_answer_and_offer monday_noon ∅ "room1" (JStr "offer")
              (Some "v.1") "uuid") as (_ & _ & H).
  destruct (H monday_noon "v.1" (JStr "answer")) as (_ & _ & Hkept).
  apply Hkept. by vm_compute.
Defined.

(** X21. Rooms are keyed by their cleaned name.  After a start the room is
    reported active under every name with that cleaned form; after an end
    it is reported inactive and holds no offer, no answer and no candidate
    for either side.  A room nobody touched is reported inactive, and
    asking for the status does not create it. *)
Theorem present_room_lifecycle (now : Instant) (rooms : gmap string Room)
    (room alias : string) :
  sanitize alias = sanitize room →
  let started := (api_present_start now rooms room).2 in
  let ended := api_present_end now rooms room in
  (api_present_start now rooms room).1 = sanitize room ∧
  api_present_status started alias = true ∧
  offers (room_of now started (sanitize room))
  = offers (room_of now rooms (sanitize room)) ∧
  api_present_status ended alias = false ∧
  (∀ now1, (api_present_offers now1 ended alias).1 = ∅) ∧
  (∀ now1 client_id,
     (api_present_answer_get now1 ended alias client_id).1 = None) ∧
  (∀ now1 side client_id,
     (api_present_candidate_get now1 ended alias side client_id).1 = []) ∧
  (rooms !! sanitize room = None → api_present_status rooms alias = false).
Proof.
  intros Halias. cbv zeta.
  unfold api_present_start, api_present_end, api_present_status,
    api_present_offers, api_present_answer_get, api_present_candidate_get.
  cbn [fst snd]. rewrite Halias, !room_of_insert, !lookup_insert_eq.
  split_and!; try done.
  - intros now1. by rewrite room_of_insert.
  - intros now1 client_id. by rewrite room_of_insert.
  - intros now1 side client_id. rewrite room_of_insert.
    by destruct (is_viewer side).
  - by intros ->.
Qed.

Lemma present_room_lifecycle_witness :
  api_present_status (api_present_start monday_noon ∅ "room.1").2 "room1"
  = true.
Proof.
  destruct (present_room_lifecycle monday_noon ∅ "room.1" "room1" eq_refl)
    as (_ & H & _).
  exact H.
Defined.

(** ** Scenes *)

Lemma find_scene_id scenes sid s : find_scene scenes sid = Some s → sc_id s = sid.
Proof.
  unfold find_scene.
  destruct (list_find _ (allowed scenes)) as [[i a] |] eqn:Ha.
  - intros [= <-]. by apply list_find_Some in Ha as (_ & ? & _).
  - destruct (list_find _ (blocked scenes)) as [[i b] |] eqn:Hb; [| done].
    intros [= <-]. by apply list_find_Some in Hb as (_ & ? & _).
Qed.

Lemma find_scene_set_current c scenes sid :
  find_scene (set_current c scenes) sid = find_scene scenes sid.
Proof. done. Qed.

Lemma list_find_filter_ne (l : list Scene) sid :
  list_find (λ s, sc_id s = sid) (filter (λ s, sc_id s ≠ sid) l) = None.
Proof.
  apply list_find_None, Forall_forall. intros s Hs.
  by apply list_elem_of_filter in Hs as [? _].
Qed.

(** X22. Deleting a scene works only while some scene is in force.  When
    the scenes file has no current scene -- before any scene was applied,
    after a clear, after creating scenes only -- the handler raises before
    it saves and the file keeps every scene.  When a scene is in force the
    handler removes every scene with the id from both buckets, keeps the
    others, and drops the reference exactly when it names the deleted id;
    the effective allowlist then falls back to the class allowlist. *)
Theorem scene_delete_needs_current (scenes : Scenes) (sid : string) :
  (current scenes = None → api_scenes_delete scenes sid = None) ∧
  api_scenes_delete (api_scenes_clear scenes) sid = None ∧
  (∀ now body,
     api_scenes_delete
       (api_scenes_create now (api_scenes_clear scenes) body).2 sid = None) ∧
  (∀ c, current scenes = Some c →
     ∃ after,
       api_scenes_delete scenes sid = Some after ∧
       find_scene after sid = None ∧
       (∀ s, sc_id s ≠ sid →
             (s ∈ allowed after ↔ s ∈ allowed scenes) ∧
             (s ∈ blocked after ↔ s ∈ blocked scenes)) ∧
       current after = (if decide (ref_id c = sid) then None else Some c) ∧
       (ref_id c = sid →
        ∀ cls, _effective_allowlist_for_policy cls after = cls)).
Proof.
  split_and!.
  - intros Hnone. unfold api_scenes_delete. by rewrite Hnone.
  - done.
  - intros now body. unfold api_scenes_create.
    destruct (truthy (cb_name body)), (cb_type body); try done.
    case_bool_decide; [| done]. by case_bool_decide.
  - intros c Hc. unfold api_scenes_delete. rewrite Hc. eexists.
    split_and!; [done | | | |].
    + unfold find_scene. cbn [allowed blocked].
      by rewrite !list_find_filter_ne.
    + intros s Hs. cbn [allowed blocked]. rewrite !list_elem_of_filter. tauto.
    + cbn [current]. case_decide.
      * by rewrite bool_decide_eq_true_2.
      * by rewrite bool_decide_eq_false_2.
    + intros Hid cls. unfold _effective_allowlist_for_policy. cbn [current].
      by rewrite bool_decide_eq_true_2.
Qed.

Lemma scene_delete_needs_current_witness :
  api_scenes_delete
    (api_scenes_create monday_noon no_scenes reading_scene).2
    (millis_id monday_noon) = None.
Proof.
  destruct (scene_delete_needs_current
              (api_scenes_create monday_noon no_scenes reading_scene).2
              (millis_id monday_noon)) as (H & _).
  by apply H.
Defined.

(** X23. Applying a scene is refused with 403 for a caller who is not a
    teacher or admin and with 404 for an id no scene has, both without a
    change.  Otherwise the scene in force becomes the first scene with the
    id, the allowed bucket searched first, and the buckets stay as they
    were; the effective allowlist is then that scene's own allow list when
    its type is "allowed", the class allowlist otherwise.  After a disable
    or a clear it is the class allowlist again. *)
Theorem scene_apply_sets_allowlist (u : option User) (scenes : Scenes)
    (body : ApplyBody) (cls : list string) :
  let r := api_scenes_apply u scenes body in
  (is_staff u = false → r = (reply_error 403 "forbidden", scenes)) ∧
  (is_staff u = true → ab_disable body = true →
   r.1 = reply_ok ∧ _effective_allowlist_for_policy cls r.2 = cls) ∧
  (is_staff u = true → ab_disable body = false →
   ∀ sid, truthy (py_or (ab_id body) (ab_scene_id body)) = Some sid →
     match find_scene scenes sid with
     | None => r = (reply_error 404 "scene not found", scenes)
     | Some s =>
         r.1 = reply_ok ∧
         current r.2 = Some {| ref_id := sid; ref_name := sc_name s;
                               ref_type := sc_type s |} ∧
         allowed r.2 = allowed scenes ∧ blocked r.2 = blocked scenes ∧
         _effective_allowlist_for_policy cls r.2
         = if decide (sc_type s = "allowed") then sc_allow s else cls
     end) ∧
  _effective_allowlist_for_policy cls (api_scenes_clear r.2) = cls.
Proof.
  cbv zeta. unfold api_scenes_apply. split_and!.
  - by intros ->.
  - by intros -> ->.
  - intros -> -> sid ->. cbn [negb].
    destruct (find_scene scenes sid) as [s |] eqn:Hfind; [| done].
    pose proof (find_scene_id _ _ _ Hfind) as Hid. cbn [fst snd].
    split_and!; try done.
    + cbn [current set_current]. by rewrite Hid.
    + unfold _effective_allowlist_for_policy.
      cbn [current set_current ref_id]. rewrite find_scene_set_current.
      rewrite Hid, Hfind. case_decide.
      * by rewrite bool_decide_eq_true_2.
      * by rewrite bool_decide_eq_false_2.
  - done.
Qed.

Lemma scene_apply_sets_allowlist_witness :
  _effective_allowlist_for_policy ["*://*.school.org/*"]
    (api_scenes_apply teacher
       (api_scenes_create monday_noon no_scenes reading_scene).2
       {| ab_id := Some (millis_id monday_noon); ab_scene_id := None;
          ab_disable := false |}).2
  = ["*://*.example.org/*"].
Proof.
  destruct (scene_apply_sets_allowlist teacher
              (api_scenes_create monday_noon no_scenes reading_scene).2
              {| ab_id := Some (millis_id monday_noon); ab_scene_id := None;
                 ab_disable := false |} ["*://*.school.org/*"])
    as (_ & _ & H & _).
  specialize (H eq_refl eq_refl (millis_id monday_noon) eq_refl).
  assert (Hfind : find_scene
            (api_scenes_create monday_noon no_scenes reading_scene).2
            (millis_id monday_noon)
          = (api_scenes_create monday_noon no_scenes reading_scene).1.2).
  { by vm_compute. }
  rewrite Hfind in H. cbn [snd fst api_scenes_create] in H.
  destruct H as (_ & _ & _ & _ & ->). reflexivity.
Defined.

(** ** Student registry *)

(** X24. [POST /api/students] stores the student under the id of the body
    (its email, or a fresh id, when it has none) as the last entry and
    removes every entry whose id or email equals that id, also the entry of
    another student whose email it is; the entries it keeps stay in order.
    A lookup by the id then returns the student stored, and after a DELETE
    the lookup finds nothing under the id. *)
Theorem student_upsert_lookup (fresh : string) (students : list Student)
    (body : StudentBody) :
  let new := (api_students_post fresh students body).1 in
  let after := (api_students_post fresh students body).2 in
  st_id new
  = default fresh (truthy (py_or (stb_id body) (stb_email body))) ∧
  after = filter (other_student (st_id new)) students ++ [new] ∧
  api_student_item_get after (st_id new) = Some new ∧
  (∀ s, s ∈ after → st_id s = st_id new ∨ st_email s = st_id new → s = new) ∧
  (∀ s, s ∈ students → st_email s = st_id new → st_id s ≠ st_id new →
        api_student_item_get after (st_id s) = None ∨
        ∃ s', api_student_item_get after (st_id s) = Some s' ∧ s' ≠ s) ∧
  (∀ sid, api_student_item_get (api_student_item_delete after sid) sid = None).
Proof.
  cbv zeta. unfold api_students_post. cbn [fst snd st_id].
  set (sid := default fresh _).
  set (new := {| st_id := sid |}).
  set (kept := filter (other_student sid) students).
  assert (Hkept : ∀ s, s ∈ kept → st_id s ≠ sid ∧ st_email s ≠ sid).
  { intros s Hs. by apply list_elem_of_filter in Hs as [? _]. }
  assert (Hget : api_student_item_get (kept ++ [new]) sid = Some new).
  { unfold api_student_item_get.
    destruct (list_find _ (kept ++ [new])) as [[i s] |] eqn:Hfind.
    - apply list_find_Some in Hfind as (Hi & Hs & _). cbn. f_equal.
      apply list_elem_of_lookup_2, elem_of_app in Hi as [Hi | Hi].
      + destruct (Hkept s Hi). tauto.
      + by apply list_elem_of_singleton in Hi.
    - exfalso. rewrite list_find_None, Forall_forall in Hfind.
      apply (Hfind new); [| by left].
      apply elem_of_app. right. apply list_elem_of_here. }
  split_and!; [done | done | done | | |].
  - intros s Hs Hmatch. apply elem_of_app in Hs as [Hs | Hs].
    + destruct (Hkept s Hs). tauto.
    + by apply list_elem_of_singleton in Hs.
  - intros s Hs Hemail Hid.
    destruct (api_student_item_get (kept ++ [new]) (st_id s)) as [s' |] eqn:Hs';
      [| by left].
    right. exists s'. split; [done |]. intros ->.
    unfold api_student_item_get in Hs'.
    destruct (list_find _ (kept ++ [new])) as [[i x] |] eqn:Hfind; [| done].
    injection Hs' as ->. apply list_find_Some in Hfind as (Hi & _ & _).
    apply list_elem_of_lookup_2, elem_of_app in Hi as [Hi | Hi].
    + destruct (Hkept s Hi). tauto.
    + apply list_elem_of_singleton in Hi. subst s. by apply Hid.
  - intros sid'. unfold api_student_item_get, api_student_item_delete.
    destruct (list_find _ _) as [[i s] |] eqn:Hfind; [| done].
    apply list_find_Some in Hfind as (Hi & Hs & _).
    apply list_elem_of_lookup_2, list_elem_of_filter in Hi as [[? ?] _]. tauto.
Qed.

Lemma student_upsert_lookup_witness :
  api_student_item_get
    (api_students_post "uuid" [carol]
       {| stb_id := Some "c@school.org"; stb_name := Some "Dave";
          stb_email := None |}).2 "carol" = None.
Proof.
  destruct (student_upsert_lookup "uuid" [carol]
              {| stb_id := Some "c@school.org"; stb_name := Some "Dave";
                 stb_email := None |}) as (_ & _ & _ & _ & H & _).
  destruct (H carol (list_elem_of_here _ _) eq_refl) as [Hnone | (s' & Hs' & _)].
  - discriminate.
  - exact Hnone.
  - by vm_compute in Hs'.
Defined.

(** ** URL classification *)

Lemma py_in_empty s : py_in "" s = true.
Proof. rewrite py_in_unfold. by destruct s. Qed.

(** X25. Without the global block the reply of the classifier endpoint is
    the rule of the category: its flag, and its block url or else the
    redirect of the settings.  With the global block on, a url is blocked
    to that redirect when it holds, in lower case, neither an entry of the
    allowlist nor [blocked.gdistrict.org]; a url that holds one is not let
    through but handed to the category rule.  An empty string in the
    allowlist is held by every url, so it switches the global block off. *)
Theorem classify_global_block (db : ClassifyDb) (url : option string) :
  let u := py_lower (default "" (truthy url)) in
  let redirect := default fallback_redirect (blocked_redirect db) in
  (global_block_on db = false → api_classify db url = category_decision db) ∧
  (global_block_on db = true →
   (∀ a, a ∈ global_allowlist db → py_in (py_lower a) u = false) →
   py_in "blocked.gdistrict.org" u = false →
   api_classify db url = (true, redirect)) ∧
  (∀ a, a ∈ global_allowlist db → py_in (py_lower a) u = true →
        api_classify db url = category_decision db) ∧
  (py_in "blocked.gdistrict.org" u = true →
   api_classify db url = category_decision db) ∧
  ("" ∈ global_allowlist db → api_classify db url = category_decision db).
Proof.
  cbv zeta. unfold api_classify.
  assert (Hany : ∀ a, a ∈ global_allowlist db ++ ["blocked.gdistrict.org"] →
            py_in (py_lower a) (py_lower (default "" (truthy url))) = true →
            (if global_block_on db &&
                negb (existsb (λ a, py_in (py_lower a)
                                      (py_lower (default "" (truthy url))))
                        (global_allowlist db ++ ["blocked.gdistrict.org"]))
             then (true, default fallback_redirect (blocked_redirect db))
             else category_decision db) = category_decision db).
  { intros a Ha Hin.
    assert (existsb (λ a, py_in (py_lower a)
                            (py_lower (default "" (truthy url))))
              (global_allowlist db ++ ["blocked.gdistrict.org"]) = true) as ->.
    { apply existsb_elem_of. eauto. }
    by rewrite andb_false_r. }
  split_and!.
  - by intros ->.
  - intros -> Hallow Hdomain. cbn [andb].
    assert (existsb (λ a, py_in (py_lower a)
                            (py_lower (default "" (truthy url))))
              (global_allowlist db ++ ["blocked.gdistrict.org"]) = false) as ->.
    { apply not_true_iff_false. intros (a & Ha & Hin)%existsb_elem_of.
      apply elem_of_app in Ha as [Ha | Ha].
      - by rewrite Hallow in Hin.
      - apply list_elem_of_singleton in Ha as ->.
        change (py_lower "blocked.gdistrict.org")
          with "blocked.gdistrict.org" in Hin.
        by rewrite Hdomain in Hin. }
    done.
  - intros a Ha Hin. apply (Hany a); [| done]. apply elem_of_app. by left.
  - intros Hin. apply (Hany "blocked.gdistrict.org"); [| done].
    apply elem_of_app. right. apply list_elem_of_here.
  - intros Hempty. apply (Hany ""); [by apply elem_of_app; left |].
    apply py_in_empty.
Qed.

Lemma classify_global_block_witness :
  api_classify lockdown (Some "https://games.example.com/")
  = (false, fallback_redirect).
Proof.
  destruct (classify_global_block lockdown (Some "https://games.example.com/"))
    as (_ & _ & _ & _ & H).
  rewrite H; [reflexivity | apply list_elem_of_here].
Defined.

(** ** Starting a session and the policy of its students *)

Lemma started_is_active disk sid now :
  sid ∈ s_id <$> sessions disk →
  sid ∈ active_sessions
          (_reconcile_active_sessions now (api_session_start disk sid).2).
Proof.
  intros Hsid. unfold api_session_start, _ensure_sessions_students, ensure_keys.
  rewrite bool_decide_eq_true_2 by done. cbn [negb snd].
  rewrite reconcile_active. cbn [sessions set_sessions].
  rewrite mark_manual_lookup.
  destruct (sessions_by_id_known _ _ Hsid) as [sess Hsess].
  cbn [sessions set_active_sessions] in *. rewrite Hsess.
  cbn [fmap option_fmap option_map].
  apply sessions_by_id_Some in Hsess as [_ Hid].
  rewrite decide_True by done. right. split; [done |].
  simpl. set_solver.
Qed.

Lemma effective_session_ids now store student :
  e_session_ids (_effective_state_for_student now store student)
  = s_id <$> selected now store student.
Proof.
  rewrite effective_state_fold. cbv zeta. cbn [e_session_ids].
  by destruct (merge_fold (selected now store student)
                 {| e_focusMode := false; e_allowlist := [];
                    e_examMode := false; e_examUrl := "";
                    e_session_ids := s_id <$> selected now store student |} ∅)
    as (_ & _ & _ & -> & _).
Qed.

(** X26. Starting a session takes effect for its students at once and for
    good: from then on, at every instant and whatever the schedule, each
    student the session enrols has the session among the ids of the
    effective state and among the sessions a poll visits, the focus mode
    on when the session's controls have it on, and every entry of the
    session's allowlist in the effective allowlist. *)
Theorem session_start_reaches_policy (disk : Store) (s : Session)
    (student : string) :
  s ∈ sessions disk →
  student ∈ s_students s →
  let started := (api_session_start disk (s_id s)).2 in
  ∀ now,
    let e := api_state_for_student now started student in
    s_id s ∈ e_session_ids e ∧
    s_id s ∈ polled_sessions now started student ∧
    (focusMode (ctl s) = true → e_focusMode e = true) ∧
    (examMode (ctl s) = true → e_examMode e = true) ∧
    (∀ u, u ∈ allowlist (ctl s) → u ∈ e_allowlist e).
Proof.
  intros Hs Hstudent. cbv zeta. intros now.
  assert (Hsid : s_id s ∈ s_id <$> sessions disk)
    by (by apply list_elem_of_fmap_2).
  pose proof (started_is_active disk (s_id s) now Hsid) as Hact.
  set (started := (api_session_start disk (s_id s)).2) in *.
  assert (Hin : set_manual true s ∈ sessions started).
  { subst started. unfold api_session_start, _ensure_sessions_students,
      ensure_keys. rewrite bool_decide_eq_true_2 by done.
    cbn [negb snd sessions set_sessions]. unfold mark_manual.
    apply list_elem_of_fmap. exists s. by rewrite decide_True. }
  assert (Hsel : set_manual true s ∈ selected now started student).
  { unfold selected, relevant_sessions. apply list_elem_of_filter.
    split; [| done]. unfold enrolled. apply andb_true_iff.
    split; by apply bool_decide_eq_true. }
  unfold api_state_for_student, _ensure_sessions_students, ensure_keys.
  split_and!.
  - rewrite effective_session_ids.
    apply list_elem_of_fmap. by exists (set_manual true s).
  - apply polled_sessions_elem_of. exists (set_manual true s).
    split_and!; done.
  - intros Hfocus. rewrite effective_state_fold. cbv zeta. cbn [e_focusMode].
    destruct (merge_fold (selected now started student)
                {| e_focusMode := false; e_allowlist := [];
                   e_examMode := false; e_examUrl := "";
                   e_session_ids := s_id <$> selected now started student |} ∅)
      as (-> & _). cbn [e_focusMode orb].
    apply existsb_elem_of. by exists (set_manual true s).
  - intros Hexam. rewrite effective_state_fold. cbv zeta. cbn [e_examMode].
    destruct (merge_fold (selected now started student)
                {| e_focusMode := false; e_allowlist := [];
                   e_examMode := false; e_examUrl := "";
                   e_session_ids := s_id <$> selected now started student |} ∅)
      as (_ & -> & _). cbn [e_examMode orb].
    apply existsb_elem_of. by exists (set_manual true s).
  - intros u Hu. rewrite effective_state_fold. cbv zeta. cbn [e_allowlist].
    apply py_sorted_elem_of.
    destruct (merge_fold (selected now started student)
                {| e_focusMode := false; e_allowlist := [];
                   e_examMode := false; e_examUrl := "";
                   e_session_ids := s_id <$> selected now started student |} ∅)
      as (_ & _ & _ & _ & Hallow).
    apply Hallow. right. by exists (set_manual true s).
Qed.

Lemma session_start_reaches_policy_witness :
  "sess_1" ∈ e_session_ids
               (api_state_for_student (at_offset 700)
                  (api_session_start (oneoff_store ∅) "sess_1").2 "alice").
Proof.
  destruct (session_start_reaches_policy (oneoff_store ∅) oneoff_session
              "alice" (list_elem_of_here _ _) (list_elem_of_here _ _)
              (at_offset 700)) as (H & _).
  exact H.
Defined.

(** ** The document as JSON *)

Lemma jget_app k l1 l2 :
  jget k (l1 ++ l2)
  = match jget k l1 with Some v => Some v | None => jget k l2 end.
Proof.
  induction l1 as [| [k' v'] l1 Hl1]; [done |]. cbn [app jget].
  by case_decide.
Qed.

Lemma jget_jset_ne k k' v d : k' ≠ k → jget k' (jset k v d) = jget k' d.
Proof.
  intros Hne. induction d as [| [k0 v0] d Hd]; cbn [jset jget].
  - by rewrite decide_False.
  - destruct (decide (k = k0)) as [<- | Hk]; cbn [jget].
    + by rewrite !decide_False.
    + case_decide; [done | apply Hd].
Qed.

Lemma jset_same k v d : jget k d = Some v → jset k v d = d.
Proof.
  induction d as [| [k0 v0] d Hd]; [done |]. cbn [jget jset].
  case_decide as Hk.
  - intros [= ->]. by rewrite Hk.
  - intros Hget. by rewrite Hd.
Qed.

Lemma jget_setdefault k k' v d :
  jget k' (Raw.setdefault k v d)
  = match jget k' d with
    | Some x => Some x
    | None => if decide (k' = k) then Some v else None
    end.
Proof.
  unfold Raw.setdefault. destruct (jget k d) as [x |] eqn:Hk.
  - destruct (jget k' d) eqn:Hk'; [done |].
    case_decide as Heq; [| done]. congruence.
  - rewrite jget_app. destruct (jget k' d); [done |]. cbn [jget].
    by case_decide.
Qed.

Lemma setdefault_present k v d :
  is_Some (jget k d) → Raw.setdefault k v d = d.
Proof. intros [x Hx]. unfold Raw.setdefault. by rewrite Hx. Qed.

Lemma fold_setdefault_jget defaults : ∀ d k,
  jget k (foldl (λ d kv, Raw.setdefault kv.1 kv.2 d) d defaults)
  = match jget k d with Some v => Some v | None => jget k defaults end.
Proof.
  induction defaults as [| [k0 v0] rest Hrest]; intros d k; cbn [foldl].
  - by destruct (jget k d).
  - rewrite Hrest, jget_setdefault. cbn [fst snd jget].
    destruct (jget k d); [done |]. by case_decide.
Qed.

Lemma fold_setdefault_id defaults : ∀ d,
  (∀ kv, kv ∈ defaults → is_Some (jget kv.1 d)) →
  foldl (λ d kv, Raw.setdefault kv.1 kv.2 d) d defaults = d.
Proof.
  induction defaults as [| kv rest Hrest]; intros d Hall; [done |].
  cbn [foldl]. rewrite setdefault_present by apply Hall, list_elem_of_here.
  apply Hrest. intros kv' Hkv'. by apply Hall, list_elem_of_further.
Qed.

Lemma setdefault_in_spec outer inner v d :
  match Raw.setdefault_in outer inner v d with
  | None => ∃ x, jget outer d = Some x ∧ ∀ o, x ≠ JDict o
  | Some d1 =>
      (∀ k, k ≠ outer → jget k d1 = jget k d) ∧
      (jget outer d = None ∨ ∃ o, jget outer d = Some (JDict o)) ∧
      ∃ o1, jget outer d1 = Some (JDict o1) ∧ is_Some (jget inner o1) ∧
            ∀ o k x, jget outer d = Some (JDict o) → jget k o = Some x →
                     jget k o1 = Some x
  end.
Proof.
  unfold Raw.setdefault_in.
  destruct (jget outer d) as [[| | | | | o] |] eqn:Houter;
    try (eexists; split; [done | by intros o]).
  - split_and!.
    + intros k Hk. by apply jget_jset_ne.
    + right. eauto.
    + eexists. split_and!; [apply jget_jset | |].
      * rewrite jget_setdefault. destruct (jget inner o); [by eexists |].
        rewrite decide_True by done. by eexists.
      * intros o' k x [= <-] Hx. by rewrite jget_setdefault, Hx.
  - split_and!.
    + intros k Hk. rewrite jget_app. destruct (jget k d); [done |].
      cbn [jget]. by rewrite decide_False.
    + by left.
    + eexists. split_and!.
      * rewrite jget_app, Houter. cbn [jget]. by rewrite decide_True.
      * cbn [jget]. rewrite decide_True by done. by eexists.
      * done.
Qed.

Lemma setdefault_in_fixed outer inner v d o :
  jget outer d = Some (JDict o) → is_Some (jget inner o) →
  Raw.setdefault_in outer inner v d = Some d.
Proof.
  intros Houter Hinner. unfold Raw.setdefault_in. rewrite Houter.
  rewrite setdefault_present by done. by rewrite jset_same.
Qed.

Lemma ensure_keys_fixed d' :
  (∃ o, jget "settings" d' = Some (JDict o) ∧ is_Some (jget "chat_enabled" o)) →
  (∃ o, jget "classes" d' = Some (JDict o) ∧ is_Some (jget "period1" o)) →
  (∀ kv, kv ∈ Raw.plain_defaults → is_Some (jget kv.1 d')) →
  Raw.ensure_keys d' = Some d'.
Proof.
  intros (o1 & Hs & Hc) (o2 & Hcl & Hp) Hplain. unfold Raw.ensure_keys.
  rewrite (setdefault_in_fixed _ _ _ _ o1) by done. cbn [mbind option_bind].
  rewrite (setdefault_in_fixed _ _ _ _ o2) by done. cbn [mbind option_bind].
  by rewrite fold_setdefault_id.
Qed.

Lemma ensure_keys_Some d d' :
  Raw.ensure_keys d = Some d' →
  (∃ o, jget "settings" d' = Some (JDict o) ∧ is_Some (jget "chat_enabled" o) ∧
        ∀ o0 k x, jget "settings" d = Some (JDict o0) → jget k o0 = Some x →
                  jget k o = Some x) ∧
  (∃ o, jget "classes" d' = Some (JDict o) ∧ is_Some (jget "period1" o) ∧
        ∀ o0 k x, jget "classes" d = Some (JDict o0) → jget k o0 = Some x →
                  jget k o = Some x) ∧
  (∀ kv, kv ∈ Raw.plain_defaults → is_Some (jget kv.1 d')) ∧
  (∀ k v, jget k d = Some v → k ≠ "settings" → k ≠ "classes" →
          jget k d' = Some v).
Proof.
  unfold Raw.ensure_keys.
  pose proof (setdefault_in_spec "settings" "chat_enabled" (JBool false) d)
    as H1.
  destruct (Raw.setdefault_in "settings" _ _ d) as [d1 |]; [| done].
  cbn [mbind option_bind].
  pose proof (setdefault_in_spec "classes" "period1" Raw.period1 d1) as H2.
  destruct (Raw.setdefault_in "classes" _ _ d1) as [d2 |]; [| done].
  cbn [mbind option_bind]. intros Heq.
  assert (Hd' : d' = foldl (λ d kv, Raw.setdefault kv.1 kv.2 d) d2
                       Raw.plain_defaults) by congruence.
  clear Heq. rewrite Hd'. clear Hd'.
  destruct H1 as (Hother1 & _ & o1 & Hs1 & Hc1 & Hkeep1).
  destruct H2 as (Hother2 & _ & o2 & Hs2 & Hc2 & Hkeep2).
  split_and!.
  - exists o1. rewrite fold_setdefault_jget, Hother2, Hs1 by done. done.
  - exists o2. rewrite fold_setdefault_jget, Hs2. split_and!; [done | done |].
    intros o0 k x Hcl. apply Hkeep2. by rewrite Hother1.
  - intros kv Hkv. rewrite fold_setdefault_jget.
    destruct (jget kv.1 d2); [by eexists |].
    destruct kv as [k v]. cbn [fst].
    clear -Hkv. unfold Raw.plain_defaults in *.
    repeat (apply elem_of_cons in Hkv as [[= -> ->] | Hkv]; [by eexists |]).
    by apply elem_of_nil in Hkv.
  - intros k v Hk Hns Hnc.
    by rewrite fold_setdefault_jget, Hother2, Hother1, Hk.
Qed.

Lemma ensure_keys_raises outer v d :
  outer ∈ ["settings"; "classes"] → jget outer d = Some v →
  (∀ o, v ≠ JDict o) → Raw.ensure_keys d = None.
Proof.
  intros Houter Hv Hno. unfold Raw.ensure_keys.
  pose proof (setdefault_in_spec "settings" "chat_enabled" (JBool false) d)
    as H1.
  destruct (Raw.setdefault_in "settings" _ _ d) as [d1 |]; [| done].
  cbn [mbind option_bind]. destruct H1 as (Hother1 & Hshape1 & _).
  pose proof (setdefault_in_spec "classes" "period1" Raw.period1 d1) as H2.
  destruct (Raw.setdefault_in "classes" _ _ d1) as [d2 |]; [| done].
  exfalso. destruct H2 as (_ & Hshape2 & _).
  rewrite Hother1 in Hshape2 by done.
  apply elem_of_cons in Houter as [-> | Houter].
  - destruct Hshape1 as [? | [o ?]]; [congruence |].
    destruct (Hno o). congruence.
  - apply list_elem_of_singleton in Houter as ->.
    destruct Hshape2 as [? | [o ?]]; [congruence |].
    destruct (Hno o). congruence.
Qed.

Lemma required_keys_present d' k :
  is_Some (jget "settings" d') → is_Some (jget "classes" d') →
  (∀ kv, kv ∈ Raw.plain_defaults → is_Some (jget kv.1 d')) →
  k ∈ Raw.required_keys → is_Some (jget k d').
Proof.
  intros Hs Hc Hplain Hk. unfold Raw.required_keys in Hk.
  apply elem_of_cons in Hk as [-> | Hk]; [done |].
  apply elem_of_cons in Hk as [-> | Hk]; [done |].
  apply list_elem_of_fmap in Hk as (kv & -> & Hkv). by apply Hplain.
Qed.

(** X27. On the decoded document [ensure_keys] raises exactly when the
    value under [settings] or under [classes] is there and is not an
    object.  Otherwise it only adds: every key the handlers rely on is
    present afterwards, every item that was there keeps its value (inside
    [settings] and [classes] too), and the result is a fixed point, so the
    second call of a load-then-save round changes nothing. *)
Theorem ensure_keys_only_adds (d : list (string * json)) :
  (Raw.ensure_keys d = None ↔
   (∃ v, jget "settings" d = Some v ∧ ∀ o, v ≠ JDict o) ∨
   (∃ v, jget "classes" d = Some v ∧ ∀ o, v ≠ JDict o)) ∧
  ∀ d', Raw.ensure_keys d = Some d' →
    (∀ k, k ∈ Raw.required_keys → is_Some (jget k d')) ∧
    (∀ k v, jget k d = Some v → k ≠ "settings" → k ≠ "classes" →
            jget k d' = Some v) ∧
    (∀ outer o k v, outer ∈ ["settings"; "classes"] →
       jget outer d = Some (JDict o) → jget k o = Some v →
       ∃ o', jget outer d' = Some (JDict o') ∧ jget k o' = Some v) ∧
    Raw.ensure_keys d' = Some d'.
Proof.
  split.
  - unfold Raw.ensure_keys.
    pose proof (setdefault_in_spec "settings" "chat_enabled" (JBool false) d)
      as H1.
    destruct (Raw.setdefault_in "settings" _ _ d) as [d1 |];
      cbn [mbind option_bind].
    + pose proof (setdefault_in_spec "classes" "period1" Raw.period1 d1) as H2.
      destruct H1 as (Hother1 & Hshape1 & _).
      destruct (Raw.setdefault_in "classes" _ _ d1) as [d2 |];
        cbn [mbind option_bind].
      * destruct H2 as (_ & Hshape2 & _). rewrite Hother1 in Hshape2 by done.
        split; [done |].
        intros [(v & Hv & Hno) | (v & Hv & Hno)].
        -- destruct Hshape1 as [? | [o ?]]; [congruence |].
           destruct (Hno o). congruence.
        -- destruct Hshape2 as [? | [o ?]]; [congruence |].
           destruct (Hno o). congruence.
      * split; [| done]. intros _. right.
        destruct H2 as (v & Hv & Hno). rewrite Hother1 in Hv by done. eauto.
    + split; [| done]. intros _. left. exact H1.
  - intros d' Hd'.
    destruct (ensure_keys_Some d d' Hd')
      as ((o1 & Hs & Hc & Hk1) & (o2 & Hcl & Hp & Hk2) & Hplain & Hkeep).
    split_and!.
    + intros k. apply required_keys_present; [by eexists | by eexists | done].
    + exact Hkeep.
    + intros outer o k v Houter Ho Hk.
      apply elem_of_cons in Houter as [-> | Houter].
      { exists o1. split; [done |]. by apply (Hk1 o). }
      apply list_elem_of_singleton in Houter as ->.
      exists o2. split; [done |]. by apply (Hk2 o).
    + apply ensure_keys_fixed; eauto.
Qed.

Lemma ensure_keys_only_adds_witness :
  jget "sessions" (Raw.load_data (JDict [("sessions", JList [JStr "s"])]))
  = Some (JList [JStr "s"]).
Proof.
  destruct (ensure_keys_only_adds [("sessions", JList [JStr "s"])])
    as (_ & H).
  destruct (H (Raw.load_data (JDict [("sessions", JList [JStr "s"])])) eq_refl)
    as (_ & Hkeep & _).
  by apply Hkeep.
Defined.

Lemma load_data_cases obj :
  Raw.ensure_keys (Raw._coerce_to_dict obj) = Some (Raw.load_data obj) ∨
  (Raw.ensure_keys (Raw._coerce_to_dict obj) = None ∧
   Raw.load_data obj = Raw.load_data JNull).
Proof.
  unfold Raw.load_data at 1 2.
  destruct (Raw.ensure_keys (Raw._coerce_to_dict obj)); [by left |].
  right. split; [done |]. reflexivity.
Qed.

(** X28. Whatever [data.json] decodes to, the document [load_data] hands
    to a handler has every key the handlers rely on and is a fixed point
    of [ensure_keys].  A value that is neither an object nor a list loads
    as the defaults.  So does an object whose [settings] or [classes] is
    not an object: nothing else it holds, its sessions and queues
    included, reaches the handler, whose save then replaces the file. *)
Theorem load_data_repairs (obj : json) :
  let d := Raw.load_data obj in
  Raw.ensure_keys d = Some d ∧
  (∀ k, k ∈ Raw.required_keys → is_Some (jget k d)) ∧
  ((∀ kvs, obj ≠ JDict kvs) → (∀ l, obj ≠ JList l) →
   d = Raw.load_data JNull) ∧
  (∀ kvs outer v,
     obj = JDict kvs → outer ∈ ["settings"; "classes"] →
     jget outer kvs = Some v → (∀ o, v ≠ JDict o) →
     d = Raw.load_data JNull) ∧
  (∀ kvs k v,
     obj = JDict kvs → Raw.ensure_keys kvs ≠ None →
     jget k kvs = Some v → k ≠ "settings" → k ≠ "classes" →
     jget k d = Some v).
Proof.
  cbv zeta.
  assert (Hparts :
    (∃ o, jget "settings" (Raw.load_data obj) = Some (JDict o) ∧
          is_Some (jget "chat_enabled" o)) ∧
    (∃ o, jget "classes" (Raw.load_data obj) = Some (JDict o) ∧
          is_Some (jget "period1" o)) ∧
    (∀ kv, kv ∈ Raw.plain_defaults →
           is_Some (jget kv.1 (Raw.load_data obj)))).
  { assert (Hdef : Raw.ensure_keys Raw._safe_default_data
                   = Some (Raw.load_data JNull)) by reflexivity.
    destruct (load_data_cases obj) as [Hsome | [_ ->]].
    - destruct (ensure_keys_Some _ _ Hsome)
        as ((o1 & ? & ? & _) & (o2 & ? & ? & _) & ? & _). eauto 10.
    - destruct (ensure_keys_Some _ _ Hdef)
        as ((o1 & ? & ? & _) & (o2 & ? & ? & _) & ? & _). eauto 10. }
  destruct Hparts as ((o1 & Hs & Hc) & (o2 & Hcl & Hp) & Hplain).
  split_and!.
  - apply ensure_keys_fixed; eauto.
  - intros k. apply required_keys_present; [by eexists | by eexists | done].
  - intros Hdict Hlist. destruct obj; try done.
    + by destruct (Hlist l).
    + by destruct (Hdict kvs).
  - intros kvs outer v -> Houter Hv Hno.
    destruct (load_data_cases (JDict kvs)) as [Hsome | [_ ->]]; [| done].
    cbn [Raw._coerce_to_dict] in Hsome.
    by rewrite (ensure_keys_raises outer v kvs) in Hsome.
  - intros kvs k v -> Hok Hk Hns Hnc.
    destruct (load_data_cases (JDict kvs)) as [Hsome | [Hnone _]]; [| done].
    cbn [Raw._coerce_to_dict] in Hsome.
    destruct (ensure_keys_Some _ _ Hsome) as (_ & _ & _ & Hkeep).
    by apply Hkeep.
Qed.

Lemma load_data_repairs_witness :
  jget "sessions"
    (Raw.load_data
       (JDict [("settings", JNull); ("sessions", JList [JStr "s"])]))
  = Some (JList []).
Proof.
  destruct (load_data_repairs
              (JDict [("settings", JNull); ("sessions", JList [JStr "s"])]))
    as (_ & _ & _ & H & _).
  rewrite (H _ "settings" JNull eq_refl (list_elem_of_here _ _) eq_refl);
    [reflexivity | by intros o].
Defined.

(** ** Policy endpoint *)

Lemma api_policy_store now disk cls ovs scenes b :
  py_strip (default "" b) ≠ "" →
  (api_policy now disk cls ovs scenes b).2
  = (if bool_decide (is_Some (pending_per_student disk
                                !! py_strip (default "" b)))
     then set_pending_per_student
            (delete (py_strip (default "" b)) (pending_per_student disk)) disk
     else disk) ∧
  pr_pending (api_policy now disk cls ovs scenes b).1
  = student_queue disk (py_strip (default "" b)).
Proof.
  intros Hne. unfold api_policy, ensure_keys. cbv zeta.
  rewrite !(bool_decide_eq_false_2 _ Hne). cbn [negb andb].
  destruct (current scenes) as [c |]; [destruct (find_scene scenes (ref_id c)) |];
    repeat case_bool_decide; done.
Qed.

(** X29. The one-shot commands of a student leave through whichever of
    [/api/policy] and [GET /api/commands/<student>] the student calls
    first.  [/api/policy] replies with the whole one-shot queue and removes
    it; it touches neither another student's queue nor the session queues,
    the sessions or the persisted active set.  After it, a second call
    replies with no pending command and a poll delivers session commands
    only; after a poll, [/api/policy] replies with no pending command. *)
Theorem policy_delivers_one_shots_once (now : Instant) (disk : Store)
    (cls : ClassSettings) (student_overrides : gmap string Overrides)
    (scenes : Scenes) (b_student : option string) :
  py_strip (default "" b_student) ≠ "" →
  let student := py_strip (default "" b_student) in
  let r := api_policy now disk cls student_overrides scenes b_student in
  pr_pending r.1 = student_queue disk student ∧
  pending_per_student r.2 !! student = None ∧
  (∀ other, other ≠ student →
     pending_per_student r.2 !! other = pending_per_student disk !! other) ∧
  sessions r.2 = sessions disk ∧
  active_sessions r.2 = active_sessions disk ∧
  pending_by_session r.2 = pending_by_session disk ∧
  (∀ now1 cls1 ovs1 scenes1,
     pr_pending (api_policy now1 r.2 cls1 ovs1 scenes1 b_student).1 = []) ∧
  (∀ now1 c,
     c ∈ (api_commands_get now1 r.2 student).1 →
     ∃ sid, sid ∈ polled_sessions now1 r.2 student ∧
            c ∈ session_queue disk sid ∧ stamped_for sid c = true) ∧
  (∀ now0 now1 cls1 ovs1 scenes1,
     pr_pending
       (api_policy now1 (api_commands_get now0 disk student).2
          cls1 ovs1 scenes1 b_student).1 = []).
Proof.
  intros Hne. cbv zeta.
  destruct (api_policy_store now disk cls student_overrides scenes b_student Hne)
    as [Hstore Hpending].
  set (student := py_strip (default "" b_student)) in *.
  assert (Hgone : pending_per_student
                    (api_policy now disk cls student_overrides scenes
                       b_student).2 !! student = None).
  { rewrite Hstore. case_bool_decide as Hkey.
    - cbn [pending_per_student set_pending_per_student]. apply lookup_delete_eq.
    - by apply eq_None_not_Some. }
  assert (Hqueues : pending_by_session
                      (api_policy now disk cls student_overrides scenes
                         b_student).2 = pending_by_session disk).
  { rewrite Hstore. by case_bool_decide. }
  split_and!.
  - exact Hpending.
  - exact Hgone.
  - intros other Hother. rewrite Hstore. case_bool_decide; [| done].
    cbn [pending_per_student set_pending_per_student].
    by rewrite lookup_delete_ne.
  - rewrite Hstore. by case_bool_decide.
  - rewrite Hstore. by case_bool_decide.
  - exact Hqueues.
  - intros now1 cls1 ovs1 scenes1.
    destruct (api_policy_store now1
                (api_policy now disk cls student_overrides scenes b_student).2
                cls1 ovs1 scenes1 b_student Hne) as [_ ->].
    fold student. unfold student_queue. by rewrite Hgone.
  - intros now1 c Hc.
    apply api_commands_get_out in Hc as [Hc | (sid & Hsid & Hc & Hst)].
    + unfold student_queue in Hc. rewrite Hgone in Hc.
      by apply elem_of_nil in Hc.
    + exists sid. split_and!; [done | | done].
      unfold session_queue in *. by rewrite <- Hqueues.
  - intros now0 now1 cls1 ovs1 scenes1.
    destruct (api_policy_store now1 (api_commands_get now0 disk student).2
                cls1 ovs1 scenes1 b_student Hne) as [_ ->].
    fold student. by rewrite api_commands_get_student_queue, decide_True.
Qed.

Lemma policy_delivers_one_shots_once_witness :
  pr_pending
    (api_policy monday_noon
       (api_student_tabs_action monday_noon teacher empty_store close_alice).2
       period_one ∅ no_scenes (Some " alice ")).1
  = [{| cmd_type := Some "close_tabs"; cmd_session_id := None;
        cmd_ts := Some (unix_seconds monday_noon); cmd_fields := [] |}] ∧
  (api_commands_get monday_noon
     (api_policy monday_noon
        (api_student_tabs_action monday_noon teacher empty_store close_alice).2
        period_one ∅ no_scenes (Some " alice ")).2 "alice").1 = [].
Proof.
  assert (Hne : py_strip (default "" (Some " alice ")) ≠ "").
  { vm_compute. discriminate. }
  destruct (policy_delivers_one_shots_once monday_noon
              (api_student_tabs_action monday_noon teacher empty_store
                 close_alice).2
              period_one ∅ no_scenes (Some " alice ") Hne)
    as (Hpending & _).
  split; [rewrite Hpending; by vm_compute | by vm_compute].
Defined.

(** X30. The scene in force decides the lists of the policy reply.  The
    allowlist is the one [_effective_allowlist_for_policy] computes.  An
    allowed scene switches the focus mode on, also against a student
    override that switches it off; a blocked scene appends its patterns to
    the teacher blocks of the class; otherwise the focus mode is the
    student's override, or the class flag when there is none.  The paused
    flag never depends on the scenes. *)
Theorem policy_scene_merge (now : Instant) (disk : Store)
    (cls : ClassSettings) (student_overrides : gmap string Overrides)
    (scenes : Scenes) (b_student : option string) :
  let student := py_strip (default "" b_student) in
  let r := (api_policy now disk cls student_overrides scenes b_student).1 in
  let ov := if decide (student = "") then None
            else student_overrides !! student in
  let base_focus := default (cls_focus_mode cls) (ov ≫= ov_focus_mode) in
  pr_paused r = default (cls_paused cls) (ov ≫= ov_paused) ∧
  pr_allowlist r = _effective_allowlist_for_policy (cls_allowlist cls) scenes ∧
  pr_current r = current scenes ∧
  match current scenes ≫= (λ c, find_scene scenes (ref_id c)) with
  | Some s =>
      if decide (sc_type s = "allowed")
      then pr_focus_mode r = true ∧
           pr_teacher_blocks r = cls_teacher_blocks cls
      else pr_focus_mode r = base_focus ∧
           pr_teacher_blocks r
           = if decide (sc_type s = "blocked")
             then cls_teacher_blocks cls ++ sc_block s
             else cls_teacher_blocks cls
  | None =>
      pr_focus_mode r = base_focus ∧
      pr_teacher_blocks r = cls_teacher_blocks cls
  end.
Proof.
  cbv zeta. unfold api_policy, _effective_allowlist_for_policy, ensure_keys.
  cbv zeta.
  assert (Hov : (if bool_decide (py_strip (default "" b_student) = "")
                 then None
                 else student_overrides !! py_strip (default "" b_student))
                = (if decide (py_strip (default "" b_student) = "")
                   then None
                   else student_overrides !! py_strip (default "" b_student))).
  { case_decide.
    - by rewrite bool_decide_eq_true_2.
    - by rewrite bool_decide_eq_false_2. }
  rewrite Hov.
  destruct (current scenes) as [c |]; cbn [mbind option_bind]; [| done].
  destruct (find_scene scenes (ref_id c)) as [s |]; [| done].
  destruct (decide (sc_type s = "allowed")) as [Ha | Ha].
  - by rewrite bool_decide_eq_true_2.
  - rewrite bool_decide_eq_false_2 by done.
    destruct (decide (sc_type s = "blocked")) as [Hb | Hb].
    + by rewrite bool_decide_eq_true_2.
    + by rewrite bool_decide_eq_false_2.
Qed.
